(** * AI support agent: retrieval, session memory and tool-call orchestration

    A shallow embedding of the Python sources

      - [config.py]                 (module [Config])
      - [rag/embedded.py]           (module [Embedded])
      - [rag/vector_store.py]       (module [VectorStore])
      - [memory/session_memory.py]  (module [SessionMemory])
      - [llm/ollama_client.py]      (module [Ollama])
      - [app.py]                    (module [App])

    together with the properties of the retrieval-and-orchestration core.

    Conventions.  Python [int] is [Z].  Python [str] is [string]: ASCII
    characters are themselves, any other character is the sequence of its
    UTF-8 bytes, and the character classes ([str.isspace], [str.lower]) are
    the ones Python defines on code points below 128, the bytes above being
    neither spaces nor cased.  Readings of the wall clock ([time.time()])
    and FAISS distances are exact rationals.  A floating-point number is
    the rational it stands for, and the arithmetic of the similarity score
    rounds as IEEE 754 does (module [Float]).  A Python
    call that may raise returns a [result]; the readings of the clock and
    the answers of the collaborators outside the core (HTTP server,
    sentence encoder, file system, ticket and order managers) are explicit
    arguments. *)

From Stdlib Require Import ZArith QArith Qround Qpower Ascii String DecimalString
  Sorted Lia Lqa.
From stdpp Require Import base option list gmap strings.

Local Open Scope Z_scope.

(** * Python values and primitives *)

Module Py.

(** ** Exceptions *)

(** An exception is known by its class and by [str(e)]. *)
Record exn := Exn { exn_class : string; exn_str : string }.

Inductive result (A : Type) : Type :=
| Ok (a : A)
| Raise (e : exn).
Arguments Ok {A} a.
Arguments Raise {A} e.

Definition bind {A B} (m : result A) (k : A -> result B) : result B :=
  match m with
  | Ok a => k a
  | Raise e => Raise e
  end.

(** [try: body  except Exception as e: handler(e)] *)
Definition try_except {A} (body : result A) (handler : exn -> result A)
  : result A :=
  match body with
  | Ok a => Ok a
  | Raise e => handler e
  end.

Notation "'let*' x ':=' m 'in' k" := (bind m (fun x => k))
  (at level 10, x name, m at level 100, k at level 200).

(** ** Sequences *)

Definition len {A} (l : list A) : Z := Z.of_nat (length l).

(** Normalisation of one bound of a slice [l[lo:hi]] over a sequence of
    length [n]: a negative bound counts from the end, and both are clamped
    to [0..n]. *)
Definition slice_index (n i : Z) : Z :=
  if i <? 0 then Z.max 0 (i + n) else Z.min i n.

(** [l[lo:hi]] *)
Definition slice {A} (l : list A) (lo hi : Z) : list A :=
  let n := len l in
  let lo' := slice_index n lo in
  let hi' := slice_index n hi in
  take (Z.to_nat (hi' - lo')) (drop (Z.to_nat lo') l).

(** [l[lo:]] *)
Definition slice_from {A} (l : list A) (lo : Z) : list A :=
  drop (Z.to_nat (slice_index (len l) lo)) l.

(** [l[:hi]] *)
Definition slice_to {A} (l : list A) (hi : Z) : list A :=
  take (Z.to_nat (slice_index (len l) hi)) l.

(** ** Strings *)

Definition space : ascii := ascii_of_nat 32.
Definition dquote : ascii := ascii_of_nat 34.
Definition squote : ascii := ascii_of_nat 39.

Definition str1 (c : ascii) : string := String c EmptyString.

(** The string made of one line feed. *)
Definition nl : string := str1 (ascii_of_nat 10).

(** [str(n)] for an integer. *)
Definition str_of_Z (n : Z) : string :=
  DecimalString.NilZero.string_of_int (Z.to_int n).

(** [s[n:]] and [s[:n]] for [n >= 0]. *)
Fixpoint str_drop (n : nat) (s : string) : string :=
  match n, s with
  | O, _ => s
  | S n', String _ s' => str_drop n' s'
  | S _, EmptyString => EmptyString
  end.

Fixpoint str_take (n : nat) (s : string) : string :=
  match n, s with
  | O, _ => EmptyString
  | S n', String c s' => String c (str_take n' s')
  | S _, EmptyString => EmptyString
  end.

(** [bool(s)] for a string: non-empty. *)
Definition truthy (s : string) : bool :=
  match s with
  | EmptyString => false
  | String _ _ => true
  end.

(** [c.isspace()] on the ASCII range: TAB, LF, VT, FF, CR, FS, GS, RS, US
    and SPACE. *)
Definition isspace (c : ascii) : bool :=
  let n := nat_of_ascii c in
  ((9 <=? n)%nat && (n <=? 13)%nat) || ((28 <=? n)%nat && (n <=? 32)%nat).

(** [c.lower()] on the ASCII range. *)
Definition lower_char (c : ascii) : ascii :=
  let n := nat_of_ascii c in
  if ((65 <=? n)%nat && (n <=? 90)%nat) then ascii_of_nat (n + 32) else c.

(** [s.lower()] *)
Fixpoint lower (s : string) : string :=
  match s with
  | EmptyString => EmptyString
  | String c s' => String (lower_char c) (lower s')
  end.

(** [s.startswith(p)] *)
Fixpoint startswith (p s : string) : bool :=
  match p, s with
  | EmptyString, _ => true
  | String a p', String b s' => if ascii_dec a b then startswith p' s' else false
  | String _ _, EmptyString => false
  end.

(** [p in s] *)
Fixpoint contains (p s : string) : bool :=
  startswith p s ||
  match s with
  | EmptyString => false
  | String _ s' => contains p s'
  end.

(** The string [s] starts with a character that is not a space. *)
Definition starts_word (s : string) : bool :=
  match s with
  | EmptyString => false
  | String c _ => negb (isspace c)
  end.

(** [s.split()]: the maximal runs of non-space characters, in order. *)
Fixpoint split (s : string) : list string :=
  match s with
  | EmptyString => []
  | String c s' =>
      if isspace c then split s'
      else if starts_word s' then
        match split s' with
        | w :: ws => String c w :: ws
        | [] => [str1 c]
        end
      else str1 c :: split s'
  end.

(** [sep.join(ws)] *)
Fixpoint join (sep : string) (ws : list string) : string :=
  match ws with
  | [] => EmptyString
  | [w] => w
  | w :: ws' => w +:+ sep +:+ join sep ws'
  end.

(** [s.lstrip()] *)
Fixpoint lstrip (s : string) : string :=
  match s with
  | EmptyString => EmptyString
  | String c s' => if isspace c then lstrip s' else s
  end.

(** [s.rstrip()] *)
Fixpoint rstrip (s : string) : string :=
  match s with
  | EmptyString => EmptyString
  | String c s' =>
      match rstrip s' with
      | EmptyString => if isspace c then EmptyString else str1 c
      | r => String c r
      end
  end.

(** [s.strip()] *)
Definition strip (s : string) : string := rstrip (lstrip s).

(** A word: non-empty and free of spaces. *)
Fixpoint nospace (s : string) : bool :=
  match s with
  | EmptyString => true
  | String c s' => negb (isspace c) && nospace s'
  end.

Definition is_word (w : string) : bool := truthy w && nospace w.

(** A text made of spaces only. *)
Fixpoint whitespace_only (s : string) : bool :=
  match s with
  | EmptyString => true
  | String c s' => isspace c && whitespace_only s'
  end.

End Py.

Import Py.

(** * Floating-point arithmetic *)

(** The arithmetic of Python and NumPy floating-point numbers: every
    operation gives the exact result rounded to the nearest number of the
    format, ties going to the even significand (IEEE 754).  A number is
    the rational it stands for.  The largest exponent is left out: the
    operations modelled here stay below the largest finite number of their
    format as long as their operands are finite numbers of it. *)
Module Float.

(** A binary format: the number of bits of the significand, and the
    exponent of the least positive number, [2 ^ emin]. *)
Record format := { prec : Z; emin : Z }.

(** [numpy.float32] *)
Definition binary32 : format := {| prec := 24; emin := -149 |}.


(** The nearest integer, ties to even. *)
Definition rne (x : Q) : Z :=
  let f := Qfloor x in
  match (x - inject_Z f ?= 1 # 2)%Q with
  | Lt => f
  | Eq => if Z.even f then f else f + 1
  | Gt => f + 1
  end.

(** The integer part of the binary logarithm of a positive rational. *)
Definition ilog2 (q : Q) : Z :=
  let l := Z.log2 (Qnum q) - Z.log2 (Zpos (Qden q)) in
  if Qle_bool (2 ^ l) q then l else l - 1.

(** The exponent of the last bit of the significand that [q] is rounded
    to: [prec] bits below the leading bit of [q], and not below [emin]. *)
Definition cexp (fmt : format) (q : Q) : Z :=
  Z.max (ilog2 q - (prec fmt - 1)) (emin fmt).

(** Rounding of a positive rational: to the nearest multiple of
    [2 ^ cexp]. *)
Definition round_pos (fmt : format) (q : Q) : Q :=
  let e := cexp fmt q in
  Qred (inject_Z (rne (q / 2 ^ e)) * 2 ^ e).

(** Rounding to the format. *)
Definition round (fmt : format) (q : Q) : Q :=
  match (q ?= 0)%Q with
  | Eq => 0
  | Gt => round_pos fmt q
  | Lt => - round_pos fmt (- q)
  end%Q.

End Float.

(** * [config.py] *)

Module Config.

(** [os.environ.get(name, default)], the environment [os.environ] being a
    dictionary from names to strings. *)
Definition get_default (env : gmap string string) (name default : string)
  : string :=
  match env !! name with
  | Some v => v
  | None => default
  end.

Definition digit_val (c : ascii) : option Z :=
  let n := nat_of_ascii c in
  if ((48 <=? n)%nat && (n <=? 57)%nat) then Some (Z.of_nat n - 48) else None.

Definition underscore : ascii := ascii_of_nat 95.
Definition plus_sign : ascii := ascii_of_nat 43.
Definition minus_sign : ascii := ascii_of_nat 45.

(** The digits of a decimal literal: single underscores are allowed between
    two digits.  [prev] tells whether the previous character was a digit. *)
Fixpoint parse_digits (acc : Z) (prev : bool) (s : string) : option Z :=
  match s with
  | EmptyString => if prev then Some acc else None
  | String c s' =>
      if ascii_dec c underscore then
        if prev then parse_digits acc false s' else None
      else
        match digit_val c with
        | Some d => parse_digits (10 * acc + d) true s'
        | None => None
        end
  end.

Definition ValueError (s : string) : exn :=
  Exn "ValueError" ("invalid literal for int() with base 10: '" +:+ s +:+ "'").

Definition TypeError_int_None : exn :=
  Exn "TypeError"
    "int() argument must be a string, a bytes-like object or a real number, not 'NoneType'".

(** [int(s)] for a string [s]: surrounding spaces, an optional sign, then a
    decimal literal. *)
Definition int_of_str (s : string) : result Z :=
  let t := strip s in
  let parsed :=
    match t with
    | String c r =>
        if ascii_dec c plus_sign then parse_digits 0 false r
        else if ascii_dec c minus_sign then Z.opp <$> parse_digits 0 false r
        else parse_digits 0 false t
    | EmptyString => None
    end in
  match parsed with
  | Some z => Ok z
  | None => Raise (ValueError s)
  end.

(** [int(os.environ.get(name))]: [int(None)] raises. *)
Definition int_env (env : gmap string string) (name : string) : result Z :=
  match env !! name with
  | Some v => int_of_str v
  | None => Raise TypeError_int_None
  end.

(** [int(os.environ.get(name, default))] *)
Definition int_env_default (env : gmap string string) (name default : string)
  : result Z :=
  int_of_str (get_default env name default).

(** The settings of [config.py] that the core reads. *)
Record t := {
  OLLAMA_BASE_URL : option string;
  OLLAMA_MODEL : option string;
  OLLAMA_TIMEOUT : Z;
  EMBEDDING_MODEL : option string;
  CHUNK_SIZE : Z;
  CHUNK_OVERLAP : Z;
  MAX_RETRIEVED_DOCS : Z;
  SESSION_TIMEOUT : Z;
  MAX_SESSION_MESSAGES : Z
}.

(** The module body of [config.py], top to bottom (the assignments that
    cannot raise and that the core does not read are left out). *)
Definition load (env : gmap string string) : result t :=
  let* ollama_timeout := int_env env "OLLAMA_TIMEOUT" in
  let* chunk_size := int_env_default env "CHUNK_SIZE" "500" in
  let* chunk_overlap := int_env_default env "CHUNK_OVERLAP" "100" in
  let* max_retrieved_docs := int_env_default env "MAX_RETRIEVED_DOCS" "3" in
  let* _port := int_env_default env "PORT" "5000" in
  let* session_timeout := int_env_default env "SESSION_TIMEOUT" "3600" in
  let* max_session_messages :=
    int_env_default env "MAX_SESSION_MESSAGES" "20" in
  Ok {| OLLAMA_BASE_URL := env !! "OLLAMA_BASE_URL";
        OLLAMA_MODEL := env !! "OLLAMA_MODEL";
        OLLAMA_TIMEOUT := ollama_timeout;
        EMBEDDING_MODEL := env !! "EMBEDDING_MODEL";
        CHUNK_SIZE := chunk_size;
        CHUNK_OVERLAP := chunk_overlap;
        MAX_RETRIEVED_DOCS := max_retrieved_docs;
        SESSION_TIMEOUT := session_timeout;
        MAX_SESSION_MESSAGES := max_session_messages |}.

End Config.

(** * [rag/embedded.py] *)

Module Embedded.

(** One run of the [while] loop of [chunk_text] per unit of [fuel]; [None]
    when the fuel runs out before the loop exits. *)
Fixpoint chunk_loop (fuel : nat) (chunk_size chunk_overlap : Z)
    (words : list string) (start : Z) (chunks : list string)
  : option (list string) :=
  match fuel with
  | O => None
  | S fuel' =>
      if start <? len words then
        let end_ := start + chunk_size in
        let chunk_words := slice words start end_ in
        let chunk := join (str1 space) chunk_words in
        let chunks' :=
          if truthy (strip chunk) then chunks ++ [strip chunk] else chunks in
        if end_ >=? len words then Some chunks'
        else chunk_loop fuel' chunk_size chunk_overlap words
               (end_ - chunk_overlap) chunks'
      else Some chunks
  end.

(** [DocumentEmbedder.chunk_text], on the fields [chunk_size] and
    [chunk_overlap] of the embedder. *)
Definition chunk_text (fuel : nat) (chunk_size chunk_overlap : Z)
    (text : string) : option (list string) :=
  if negb (truthy text) then Some []
  else chunk_loop fuel chunk_size chunk_overlap (split text) 0 [].

(** The word [w] is one of the words of some chunk of [chunks]. *)
Definition covered (w : string) (chunks : list string) : Prop :=
  exists c, In c chunks /\ In w (split c).

(** [DocumentEmbedder]: the sentence encoder is a collaborator outside the
    repository; the two window settings are copied from the configuration
    by [__init__]. *)
Record DocumentEmbedder := {
  encode : list string -> result (list (list Q));
  chunk_size : Z;
  chunk_overlap : Z
}.

(** [DocumentEmbedder.__init__], the encoder already constructed. *)
Definition init (cfg : Config.t)
    (model : list string -> result (list (list Q))) : DocumentEmbedder :=
  {| encode := model;
     chunk_size := Config.CHUNK_SIZE cfg;
     chunk_overlap := Config.CHUNK_OVERLAP cfg |}.

(** Start-up, as far as the chunker is concerned: [config.py] is imported,
    then the global [document_embedder] is constructed. *)
Definition startup (env : gmap string string)
    (model : list string -> result (list (list Q))) : result DocumentEmbedder :=
  let* cfg := Config.load env in
  Ok (init cfg model).

(** [self.chunk_text(text)] *)
Definition chunk (fuel : nat) (self : DocumentEmbedder) (text : string)
  : option (list string) :=
  chunk_text fuel (chunk_size self) (chunk_overlap self) text.

(** [DocumentEmbedder.embed_texts]: an empty array for no texts and when
    the encoder raises. *)
Definition embed_texts (self : DocumentEmbedder) (texts : list string)
  : list (list Q) :=
  match texts with
  | [] => []
  | _ =>
      match encode self texts with
      | Ok embeddings => embeddings
      | Raise _ => []
      end
  end.

End Embedded.



(** * The FAISS flat L2 index (library, outside the repository) *)

Module Faiss.

Record IndexFlatL2 := { d : Z; xb : list (list Q) }.

Definition ntotal (ix : IndexFlatL2) : Z := len (xb ix).

Definition AssertionError : exn := Exn "AssertionError" EmptyString.

(** [faiss.IndexFlatL2(d)] *)
Definition new (dim : Z) : IndexFlatL2 := {| d := dim; xb := [] |}.

Definition has_dim (dim : Z) (x : list (list Q)) : bool :=
  forallb (fun r => len r =? dim) x.

(** [index.add(x)]: the rows must have the dimension of the index. *)
Definition add (ix : IndexFlatL2) (x : list (list Q)) : result IndexFlatL2 :=
  if has_dim (d ix) x then Ok {| d := d ix; xb := xb ix ++ x |}
  else Raise AssertionError.

(** Squared Euclidean distance. *)
Fixpoint l2sqr (x y : list Q) : Q :=
  match x, y with
  | a :: x', b :: y' => (a - b) * (a - b) + l2sqr x' y'
  | _, _ => 0
  end%Q.

(** The distance reported in the slots for which there is no vector. *)
Definition FLT_MAX : Q := 340282346638528859811704183484516925440 # 1.

Fixpoint insert_hit (h : Q * Z) (l : list (Q * Z)) : list (Q * Z) :=
  match l with
  | [] => [h]
  | h' :: l' =>
      if Qle_bool (fst h) (fst h') then h :: l else h' :: insert_hit h l'
  end.

Definition sort_hits (l : list (Q * Z)) : list (Q * Z) :=
  foldr insert_hit [] l.

(** All vectors with their distance to [x] and their position. *)
Definition hits (ix : IndexFlatL2) (x : list Q) : list (Q * Z) :=
  imap (fun i v => (l2sqr x v, Z.of_nat i)) (xb ix).

(** The slot [hit] of a row of results stands for a vector of the index:
    its label is the position of the vector and its distance the squared
    Euclidean distance of the vector to the query [x]. *)
Definition genuine (ix : IndexFlatL2) (x : list Q) (hit : Q * Z) : Prop :=
  exists (i : nat) (v : list Q),
    xb ix !! i = Some v /\ hit = (l2sqr x v, Z.of_nat i).

(** One row of a search: the [k] nearest vectors by ascending distance,
    the row being filled up with label [-1] when the index holds fewer. *)
Definition search_row (ix : IndexFlatL2) (k : nat) (x : list Q)
  : list (Q * Z) :=
  let nearest := take k (sort_hits (hits ix x)) in
  nearest ++ replicate (k - length nearest) (FLT_MAX, -1).

(** [index.search(x, k)]: the arrays of distances and of labels, one row
    per query. *)
Definition search (ix : IndexFlatL2) (x : list (list Q)) (k : Z)
  : result (list (list Q) * list (list Z)) :=
  if negb (has_dim (d ix) x) then Raise AssertionError
  else if negb (0 <? k) then Raise AssertionError
  else
    let rows := map (search_row ix (Z.to_nat k)) x in
    Ok (map (map fst) rows, map (map snd) rows).

End Faiss.

(** * [rag/vector_store.py] *)

Module VectorStore.

Record Chunk := {
  text : string;
  source : string;
  chunk_id : Z;
  total_chunks : Z
}.

(** A copy of a chunk with the key [similarity_score] added. *)
Record SearchResult := {
  doc : Chunk;
  similarity_score : Q
}.

Record t := {
  index : option Faiss.IndexFlatL2;
  documents : list Chunk;
  dimension : option Z
}.

(** [VectorStore.__init__] *)
Definition init : t := {| index := None; documents := []; dimension := None |}.

Definition IndexError : exn := Exn "IndexError" "list index out of range".

(** [l[i]], a negative [i] counting from the end. *)
Definition getitem {A} (l : list A) (i : Z) : result A :=
  let j := if i <? 0 then i + len l else i in
  if (0 <=? j) && (j <? len l) then
    match l !! Z.to_nat j with
    | Some a => Ok a
    | None => Raise IndexError
    end
  else Raise IndexError.

(** [float(1 / (1 + dist))] computed in the format [fmt]: the sum is
    rounded, then the quotient; the conversion [float(...)] to a Python
    float is exact. *)
Definition similarity_in (fmt : Float.format) (dist : Q) : Q :=
  Float.round fmt (1 / Float.round fmt (1 + dist))%Q.

(** [float(1 / (1 + dist))] for the [numpy.float32] that the index reports:
    NumPy takes the Python integer [1] to the format of [dist], so both
    operations are done in [numpy.float32].  (Before NumPy 2 the two
    scalars are promoted to [numpy.float64] instead: the score is then
    [similarity_in Float.binary64 dist].) *)
Definition similarity (dist : Q) : Q := similarity_in Float.binary32 dist.

(** The body of the [for] loop of [search] over [zip(distances[0],
    indices[0])]. *)
Fixpoint collect (docs : list Chunk) (row : list (Q * Z))
    (results : list SearchResult) : result (list SearchResult) :=
  match row with
  | [] => Ok results
  | (dist, idx) :: row' =>
      if idx <? len docs then
        let* document := getitem docs idx in
        collect docs row'
          (results ++ [{| doc := document;
                          similarity_score := similarity dist |}])
      else collect docs row' results
  end.

Section WithEmbedder.

Variable document_embedder : Embedded.DocumentEmbedder.

(** [VectorStore.create_index]; the store is returned also when the call
    raises, with the assignments made until then. *)
Definition create_index (self : t) (embeddings : list (list Q))
  : result unit * t :=
  match embeddings with
  | [] => (Ok tt, self)
  | row :: _ =>
      let dim := len row in
      let fresh := Faiss.new dim in
      match Faiss.add fresh embeddings with
      | Ok ix =>
          (Ok tt, {| index := Some ix; documents := documents self;
                     dimension := Some dim |})
      | Raise e =>
          (Raise e, {| index := Some fresh; documents := documents self;
                       dimension := Some dim |})
      end
  end.

(** [VectorStore.add_documents] *)
Definition add_documents (self : t) (docs : list Chunk) : result unit * t :=
  match docs with
  | [] => (Ok tt, self)
  | _ =>
      let self1 := {| index := index self;
                      documents := documents self ++ docs;
                      dimension := dimension self |} in
      let embeddings :=
        Embedded.embed_texts document_embedder (map text docs) in
      if len embeddings =? 0 then (Ok tt, self1)
      else
        match index self1 with
        | None => create_index self1 embeddings
        | Some ix =>
            match Faiss.add ix embeddings with
            | Ok ix' =>
                (Ok tt, {| index := Some ix'; documents := documents self1;
                           dimension := dimension self1 |})
            | Raise e => (Raise e, self1)
            end
        end
  end.

(** [VectorStore.search] *)
Definition search (self : t) (query : string) (k : Z)
  : result (list SearchResult) :=
  match index self with
  | None => Ok []
  | Some ix =>
      if len (documents self) =? 0 then Ok []
      else
        let query_embedding :=
          Embedded.embed_texts document_embedder [query] in
        if len query_embedding =? 0 then Ok []
        else
          let* found :=
            Faiss.search ix query_embedding
              (Z.min k (len (documents self))) in
          let* distances0 := getitem (fst found) 0 in
          let* indices0 := getitem (snd found) 0 in
          collect (documents self) (zip distances0 indices0) []
  end.

End WithEmbedder.

(** ** Persistence *)

(** The pickled record of the [.metadata] companion file. *)
Record Metadata := {
  md_documents : list Chunk;
  md_dimension : option Z
}.

(** The two artifacts under the store path.  [None]: the file does not
    exist; [Some (Raise e)]: it exists and reading it raises [e]. *)
Record Disk := {
  index_file : option (result Faiss.IndexFlatL2);
  metadata_file : option (result Metadata)
}.

(** [VectorStore.load]: the returned flag and the store afterwards. *)
Definition load (self : t) (disk : Disk) : bool * t :=
  match index_file disk with
  | None => (false, self)
  | Some read_index =>
      match read_index with
      | Raise _ => (false, self)
      | Ok ix =>
          let self1 := {| index := Some ix; documents := documents self;
                          dimension := dimension self |} in
          match metadata_file disk with
          | None => (true, self1)
          | Some (Raise _) => (false, self1)
          | Some (Ok metadata) =>
              (true, {| index := Some ix;
                        documents := md_documents metadata;
                        dimension := md_dimension metadata |})
          end
      end
  end.

(** [VectorStore.save], file-system errors aside. *)
Definition save (self : t) (disk : Disk) : Disk :=
  match index self with
  | None => disk
  | Some ix =>
      {| index_file := Some (Ok ix);
         metadata_file := Some (Ok {| md_documents := documents self;
                                      md_dimension := dimension self |}) |}
  end.

(** The number of vectors held by the store. *)
Definition vector_count (self : t) : Z :=
  match index self with
  | None => 0
  | Some ix => Faiss.ntotal ix
  end.

(** The number of chunks held by the store. *)
Definition chunk_count (self : t) : Z := len (documents self).

End VectorStore.

(** * [memory/session_memory.py] *)

Module SessionMemory.

Record Message := {
  role : string;
  content : string;
  timestamp : Q
}.

Record Session := {
  session_id : string;
  messages : list Message;
  created_at : Q;
  last_activity : Q
}.

(** [a > b] on clock readings. *)
Definition Qgtb (a b : Q) : bool := negb (Qle_bool a b).

Section WithConfig.

Variables SESSION_TIMEOUT MAX_SESSION_MESSAGES : Z.

(** The trimming step of [add_message]:
    [[messages[0]] + messages[-(MAX_SESSION_MESSAGES-1):]]. *)
Definition trim (messages : list Message) : list Message :=
  if len messages >? MAX_SESSION_MESSAGES then
    match messages with
    | first :: _ =>
        [first] ++ slice_from messages (- (MAX_SESSION_MESSAGES - 1))
    | [] => messages
    end
  else messages.

(** [Session.add_message]; [now1] and [now2] are the two readings of the
    clock, for the time stamp of the message and for [last_activity]. *)
Definition add_message (self : Session) (role content : string)
    (now1 now2 : Q) : Session :=
  let message :=
    {| role := role; content := content; timestamp := now1 |} in
  {| session_id := session_id self;
     messages := trim (messages self ++ [message]);
     created_at := created_at self;
     last_activity := now2 |}.

(** [Session.get_recent_messages] *)
Definition get_recent_messages (self : Session) (limit : Z) : list Message :=
  match messages self with
  | [] => []
  | _ => slice_from (messages self) (- limit)
  end.

(** [Session.is_expired], [now] being the reading of the clock. *)
Definition is_expired (self : Session) (now : Q) : bool :=
  Qgtb (now - last_activity self) (inject_Z SESSION_TIMEOUT).

(** [SessionManager.remove_session] on the dictionary [self.sessions]. *)
Definition remove_session (sessions : gmap string Session)
    (session_id : string) : gmap string Session :=
  match sessions !! session_id with
  | Some _ => delete session_id sessions
  | None => sessions
  end.

(** [SessionManager.get_session] *)
Definition get_session (sessions : gmap string Session)
    (session_id : string) (now : Q)
  : option Session * gmap string Session :=
  match sessions !! session_id with
  | Some session =>
      if is_expired session now
      then (None, remove_session sessions session_id)
      else (Some session, sessions)
  | None => (None, sessions)
  end.

(** [SessionManager.create_session] *)
Definition create_session (sessions : gmap string Session)
    (session_id : string) (now : Q) : Session * gmap string Session :=
  let session :=
    {| session_id := session_id; messages := [];
       created_at := now; last_activity := now |} in
  (session, <[session_id := session]> sessions).

(** [SessionManager.get_or_create_session]; [now_get] is read by the expiry
    check and [now_create] by the creation, when it comes to these. *)
Definition get_or_create_session (sessions : gmap string Session)
    (session_id : string) (now_get now_create : Q)
  : Session * gmap string Session :=
  match get_session sessions session_id now_get with
  | (Some session, sessions') => (session, sessions')
  | (None, sessions') => create_session sessions' session_id now_create
  end.

(** [SessionManager.get_session_count] *)
Definition get_session_count (sessions : gmap string Session) : Z :=
  Z.of_nat (size sessions).

(** What the specification keeps of the messages [all] appended to a
    session under the cap [cap]: all of them up to the cap, and beyond it
    the first one followed by the last [cap - 1]. *)
Definition kept (cap : Z) (all : list Message) : list Message :=
  if len all <=? cap then all
  else take 1 all ++ drop (Z.to_nat (len all - (cap - 1))) all.

(** One call of [add_message] as data: role, content and the two clock
    readings. *)
Definition Append : Type := string * string * Q * Q.

Definition message_of (a : Append) : Message :=
  let '(role, content, now1, _) := a in
  {| role := role; content := content; timestamp := now1 |}.

(** A sequence of calls of [add_message] on one session. *)
Definition add_messages (self : Session) (appends : list Append) : Session :=
  foldl (fun s a => let '(role, content, now1, now2) := a in
                    add_message s role content now1 now2)
        self appends.

End WithConfig.

End SessionMemory.

(** * [llm/ollama_client.py] *)

Module Ollama.

(** The JSON document sent to [/api/generate]. *)
Record Payload := {
  p_model : option string;
  p_prompt : string;
  p_stream : bool;
  p_temperature : Q;
  p_system : option string;
  p_num_predict : option Z
}.

(** What [response.json()] decodes: an object, of which only the key
    [response] is read (a string in the Ollama protocol), or some other
    JSON value. *)
Inductive Json :=
| JObject (response : option string)
| JOther.

(** The part of a [requests.Response] that the client looks at. *)
Record Response := {
  status_code : Z;
  reason : string;
  url : string;
  json : result Json
}.

Definition HTTPError (msg : string) : exn := Exn "HTTPError" msg.

Definition AttributeError_get : exn :=
  Exn "AttributeError" "object has no attribute 'get'".

(** [response.raise_for_status()] *)
Definition raise_for_status (r : Response) : result unit :=
  let describe kind :=
    str_of_Z (status_code r) +:+ " " +:+ kind +:+ " Error: " +:+ reason r
      +:+ " for url: " +:+ url r in
  if (400 <=? status_code r) && (status_code r <? 500)
  then Raise (HTTPError (describe "Client"))
  else if (500 <=? status_code r) && (status_code r <? 600)
  then Raise (HTTPError (describe "Server"))
  else Ok tt.

(** [result.get('response', '')] *)
Definition get_response (result : Json) : Py.result string :=
  match result with
  | JObject (Some s) => Ok s
  | JObject None => Ok EmptyString
  | JOther => Raise AttributeError_get
  end.

(** The failures of the HTTP backend: the request raises (no connection,
    timeout), the status is an error status, the body is not JSON, or the
    JSON is not an object. *)
Definition backend_fails (r : result Response) : bool :=
  match r with
  | Raise _ => true
  | Ok response =>
      ((400 <=? status_code response) && (status_code response <? 600))
      || match json response with
         | Ok (JObject _) => false
         | _ => true
         end
  end.

Record OllamaClient := {
  base_url : string;
  model : option string;
  timeout : Z
}.

Section WithServer.

(** [requests.post(url, json=payload, timeout=timeout)]: the HTTP server
    and the network in between. *)
Variable post : string -> Payload -> Z -> result Response.

(** The [try] block of [generate]. *)
Definition generate_body (self : OllamaClient) (prompt : string)
    (system_prompt : option string) (temperature : Q)
    (max_tokens : option Z) : result string :=
  let url := base_url self +:+ "/api/generate" in
  let payload :=
    {| p_model := model self;
       p_prompt := prompt;
       p_stream := false;
       p_temperature := temperature;
       p_system :=
         match system_prompt with
         | Some s => if truthy s then Some s else None
         | None => None
         end;
       p_num_predict :=
         match max_tokens with
         | Some n => if n =? 0 then None else Some n
         | None => None
         end |} in
  let* response := post url payload (timeout self) in
  let* _ := raise_for_status response in
  let* result := json response in
  get_response result.

(** [OllamaClient.generate] *)
Definition generate (self : OllamaClient) (prompt : string)
    (system_prompt : option string) (temperature : Q)
    (max_tokens : option Z) : result string :=
  try_except
    (generate_body self prompt system_prompt temperature max_tokens)
    (fun e => Ok ("Error: Unable to generate response - " +:+ exn_str e)).

(** The prompt that [chat] builds from the messages, each a pair of a role
    and a content: only the system and the assistant messages are used. *)
Fixpoint chat_prompt (prompt : string) (messages : list (string * string))
  : string :=
  match messages with
  | [] => prompt
  | (role, content) :: rest =>
      if String.eqb role "system" then
        chat_prompt (prompt +:+ "System: " +:+ content +:+ nl +:+ nl) rest
      else if String.eqb role "assistant" then
        chat_prompt (prompt +:+ "Assistant: " +:+ content +:+ nl +:+ nl) rest
      else chat_prompt prompt rest
  end.

(** The [try] block of [chat]. *)
Definition chat_body (self : OllamaClient)
    (messages : list (string * string)) (temperature : Q) : result string :=
  let prompt := chat_prompt EmptyString messages in
  let url := base_url self +:+ "/api/generate" in
  let payload :=
    {| p_model := model self;
       p_prompt := strip prompt;
       p_stream := false;
       p_temperature := temperature;
       p_system := None;
       p_num_predict := None |} in
  let* response := post url payload (timeout self) in
  let* _ := raise_for_status response in
  let* result := json response in
  get_response result.

(** [OllamaClient.chat] *)
Definition chat (self : OllamaClient) (messages : list (string * string))
    (temperature : Q) : result string :=
  try_except (chat_body self messages temperature)
    (fun e => Ok ("Error: Unable to chat - " +:+ exn_str e)).

End WithServer.

End Ollama.

(** * [llm/prompts.py] *)

Module Prompts.

Definition dq : string := str1 dquote.

Definition SYSTEM_PROMPT : string :=
  "You are a helpful AI support agent for a local business. Your role is to:

1. **Provide accurate information** based on the knowledge base and context provided
2. **Assist with common support tasks** like checking order status, creating tickets, and answering FAQs
3. **Be friendly and professional** while maintaining a helpful tone
4. **Ask clarifying questions** when the user's request is unclear
5. **Use available tools** when appropriate to help users
6. **Admit limitations** when you don't have enough information

Guidelines:
- Always base your responses on the retrieved context when available
- If you cannot find relevant information, suggest contacting human support
- Keep responses concise but comprehensive
- Use markdown formatting for better readability
- Be proactive in offering related help

Available tools:
- create_ticket: Create support tickets for issues
- check_order_status: Check status of customer orders
- search_knowledge_base: Search through documentation

When using tools, explain what you're doing and provide clear results.".

(** [RAG_PROMPT_TEMPLATE.format(context=..., question=...)] *)
Definition RAG_PROMPT_TEMPLATE (context question : string) : string :=
  "Based on the following context information, please answer the user's question.

Context:
" +:+ context +:+ "

User Question: " +:+ question +:+ "

Instructions:
1. Use the provided context to answer the question
2. If the context doesn't contain the answer, say so clearly
3. Provide specific, actionable information when possible
4. Include relevant details from the context
5. If you need more information, ask clarifying questions

Answer:".

(** [CHAT_WITH_CONTEXT_TEMPLATE.format(history=..., context=...,
    message=...)] *)
Definition CHAT_WITH_CONTEXT_TEMPLATE (history context message : string)
  : string :=
  "You are a helpful AI support agent. Use the conversation history and retrieved context to provide the best possible response.

Conversation History:
" +:+ history +:+ "

Retrieved Context:
" +:+ context +:+ "

Current User Message: " +:+ message +:+ "

Instructions:
1. Consider the conversation history for context
2. Use the retrieved context to inform your response
3. Maintain a consistent, helpful tone
4. Reference previous parts of the conversation when relevant
5. Use available tools if they would help resolve the user's issue

Response:".

(** The entry [model_error] of [ERROR_MESSAGES]. *)
Definition model_error : string :=
  "I'm experiencing technical difficulties. Please try again or contact human support.".

End Prompts.

(** * [app.py] *)

Module App.

Import Prompts.

(** ** The canned replies of the fallback responder *)

Definition GREETING : string :=
  "Hello! I'm your AI support assistant. How can I help you today?".

Definition CAPABILITIES : string :=
  "I can help you with:
        
📋 **Support Tasks:**
- Create support tickets
- Check order status
- Answer questions about products and services

📚 **Knowledge Base:**
I have access to documentation about our products, services, and support procedures.

💡 **Try asking:**
- " +:+ dq +:+ "What products do you offer?" +:+ dq +:+ "
- " +:+ dq +:+ "Check order ORD-001" +:+ dq +:+ "
- " +:+ dq +:+ "Create a ticket for billing issue" +:+ dq +:+ "
- " +:+ dq +:+ "How do I reset my password?" +:+ dq +:+ "

Note: I'm currently running in fallback mode. For full AI responses, please ensure Ollama is running properly.".

Definition ORDER_NEEDS_SERVICE : string :=
  "I can help check your order status! However, I need to connect to order system to get real-time information. Please try again when the AI service is fully available.".

Definition ORDER_NEEDS_ID : string :=
  "To check your order status, please provide your order ID (e.g., ORD-001).".

Definition TICKET_NEEDS_SERVICE : string :=
  "I can help create a support ticket for you! Please describe your issue and I'll create a ticket. However, I need the AI service to be fully available to process this properly.".

Definition PRODUCTS : string :=
  "Based on our knowledge base, we offer various products and services:

🖥️ **Products:**
- Laptops and desktops
- Smartphones and tablets
- Accessories and peripherals

🛠️ **Services:**
- Technical support
- Order tracking
- Billing assistance
- Account management

For specific details about any product or service, please ask when the AI service is fully available.".

Definition LIMITED_MODE (user_message : string) : string :=
  "I understand you're asking about: " +:+ dq +:+ user_message +:+ dq +:+ "

However, I'm currently running in limited mode because the AI service (Ollama) is not responding properly. 

**What you can do:**
1. Try your question again in a few minutes
2. Check if Ollama is running: `ollama list`
3. Restart Ollama if needed: `ollama serve`

For urgent assistance, you can contact our support team directly at support@example.com or call 1-800-SUPPORT.".

(** [any(word in text for word in words)] *)
Definition any_in (words : list string) (text : string) : bool :=
  existsb (fun word => contains word text) words.

(** [generate_fallback_response] *)
Definition generate_fallback_response (user_message context : string)
  : string :=
  let user_message_lower := lower user_message in
  if any_in ["hello"; "hi"; "hey"; "greetings"] user_message_lower then
    GREETING
  else if any_in ["help"; "what can you do"; "capabilities"]
            user_message_lower then
    CAPABILITIES
  else if any_in ["order"; "status"; "track"] user_message_lower then
    if contains "ord-" user_message_lower then ORDER_NEEDS_SERVICE
    else ORDER_NEEDS_ID
  else if any_in ["ticket"; "support"; "issue"; "problem"]
            user_message_lower then
    TICKET_NEEDS_SERVICE
  else if any_in ["product"; "service"; "offer"] user_message_lower then
    PRODUCTS
  else LIMITED_MODE user_message.

(** ** Tool calls *)

Record ToolCall := {
  tool : string;
  args : gmap string string
}.

Definition rparen : ascii := ascii_of_nat 41.

Definition is_quote (c : ascii) : bool :=
  bool_decide (c = dquote) || bool_decide (c = squote).

(** Group 1 of [(.*?)\)] with [re.DOTALL]: the text before the first
    closing parenthesis, if there is one. *)
Fixpoint until_rparen (s : string) : option string :=
  match s with
  | EmptyString => None
  | String c s' =>
      if bool_decide (c = rparen) then Some EmptyString
      else String c <$> until_rparen s'
  end.

(** [re.finditer(name\((.*?)\), s, re.DOTALL)]: the matches of the pattern
    from left to right, each with the offset at which it starts and its
    group 1.  [pos] is the offset of [s] in the text, and [skip] the number
    of characters of [s] that belong to the match found last. *)
Fixpoint finditer_go (name : string) (pos skip : nat) (s : string)
  : list (nat * string) :=
  match s with
  | EmptyString => []
  | String _ s' =>
      match skip with
      | S skip' => finditer_go name (S pos) skip' s'
      | O =>
          if startswith (name +:+ "(") s then
            match until_rparen (str_drop (String.length name + 1) s) with
            | Some group =>
                (pos, group)
                  :: finditer_go name (S pos)
                       (String.length name + 1 + String.length group) s'
            | None => finditer_go name (S pos) 0 s'
            end
          else finditer_go name (S pos) 0 s'
      end
  end.

Definition finditer (name : string) (s : string) : list (nat * string) :=
  finditer_go name 0 0 s.

(** [re.findall(name\((.*?)\), s, re.DOTALL)] *)
Definition findall (name : string) (s : string) : list string :=
  map snd (finditer name s).

(** The longest prefix of [s] without a quote character. *)
Fixpoint unquoted_run (s : string) : string :=
  match s with
  | EmptyString => EmptyString
  | String c s' => if is_quote c then EmptyString else String c (unquoted_run s')
  end.

(** A match, at the start of [s], of the tail of the argument patterns: a
    quote character (single or double), a non-empty run of characters
    other than quotes, a quote character.  The result is the run, group 1
    of the pattern. *)
Definition match_quoted (s : string) : option string :=
  match s with
  | EmptyString => None
  | String q s' =>
      if is_quote q then
        let run := unquoted_run s' in
        if truthy run && truthy (str_drop (String.length run) s')
        then Some run else None
      else None
  end.

(** [re.search] of an argument pattern ([key_eq] followed by a quoted
    run) in [s]: group 1 of the leftmost match. *)
Fixpoint search_key (key_eq : string) (s : string) : option string :=
  let here :=
    if startswith key_eq s
    then match_quoted (str_drop (String.length key_eq) s) else None in
  match here with
  | Some v => Some v
  | None =>
      match s with
      | EmptyString => None
      | String _ s' => search_key key_eq s'
      end
  end.

(** One of the five [if 'key=' in match: ...] blocks. *)
Definition parse_key (key : string) (group : string)
    (args : gmap string string) : gmap string string :=
  if contains (key +:+ "=") group then
    match search_key (key +:+ "=") group with
    | Some v => <[key := v]> args
    | None => args
    end
  else args.

(** The argument dictionary built from group 1 of a match. *)
Definition parse_args (group : string) : gmap string string :=
  if truthy (strip group) then
    foldl (fun args key => parse_key key group args) ∅
      ["description"; "priority"; "category"; "order_id"; "query"]
  else ∅.

(** The tool names, [pattern.split('\\(')[0]] of the three patterns in the
    order of the list [patterns]. *)
Definition tool_names : list string :=
  ["create_ticket"; "check_order_status"; "search_knowledge_base"].

(** The inner [for match in matches] loop for one pattern. *)
Definition calls_of (name : string) (response : string) : list ToolCall :=
  map (fun group => {| tool := name; args := parse_args group |})
      (findall name response).

(** [extract_tool_calls] *)
Definition extract_tool_calls (response : string) : list ToolCall :=
  concat (map (fun name => calls_of name response) tool_names).

(** ** The orchestrator and its services *)

(** The ticket and order managers of [tools/] are collaborators outside the
    core: what the orchestrator reads of them is the identifier and the
    priority of a created ticket, whether an order exists, and the text an
    order is displayed as. *)
Record Ticket := { ticket_id : string; priority : string }.

Section WithServices.

Variable config : Config.t.
Variable ollama_client : Ollama.OllamaClient.
Variable post : string -> Ollama.Payload -> Z -> result Ollama.Response.
Variable document_embedder : Embedded.DocumentEmbedder.

(** The successive readings of [time.time()] made by the session store. *)
Variable clock : nat -> Q.

Variables ToolState Order : Type.
Variable ticket_manager_create_ticket :
  string -> string -> string -> ToolState -> result Ticket * ToolState.
Variable order_manager_get_order :
  string -> ToolState -> result (option Order).
Variable order_manager_format_order_status : Order -> result string.

(** The global objects of the process. *)
Record World := {
  sessions : gmap string SessionMemory.Session;
  vector_store : VectorStore.t;
  tool_state : ToolState;
  ticks : nat
}.

(** A computation that reads and updates the globals and may raise; the
    updates made before an exception is raised stay. *)
Definition M (A : Type) : Type := World -> result A * World.

Definition ret {A} (a : A) : M A := fun w => (Ok a, w).

Definition mbind {A B} (m : M A) (k : A -> M B) : M B :=
  fun w =>
    match m w with
    | (Ok a, w') => k a w'
    | (Raise e, w') => (Raise e, w')
    end.

Notation "'let!' x ':=' m 'in' k" := (mbind m (fun x => k))
  (at level 10, x name, m at level 100, k at level 200).

(** [try: body  except Exception as e: handler(e)] *)
Definition try_except_M {A} (body : M A) (handler : exn -> M A) : M A :=
  fun w =>
    match body w with
    | (Ok a, w') => (Ok a, w')
    | (Raise e, w') => handler e w'
    end.

Fixpoint mapM {A B} (f : A -> M B) (l : list A) : M (list B) :=
  match l with
  | [] => ret []
  | a :: l' =>
      let! b := f a in
      let! bs := mapM f l' in
      ret (b :: bs)
  end.

(** [session_manager.get_or_create_session(session_id)]; the session
    object is referred to by its identifier afterwards. *)
Definition get_or_create_session (session_id : string) : M unit :=
  fun w =>
    let t := ticks w in
    let timeout := Config.SESSION_TIMEOUT config in
    let reads_get :=
      match sessions w !! session_id with Some _ => 1%nat | None => 0%nat end in
    let reads_create :=
      match fst (SessionMemory.get_session timeout (sessions w) session_id
                   (clock t)) with
      | Some _ => 0%nat
      | None => 1%nat
      end in
    let '(_, sessions') :=
      SessionMemory.get_or_create_session timeout (sessions w) session_id
        (clock t) (clock (t + reads_get)) in
    (Ok tt, {| sessions := sessions'; vector_store := vector_store w;
               tool_state := tool_state w;
               ticks := t + reads_get + reads_create |}).

(** [session_obj.add_message(role, content)] on the session object held
    by the store under [session_id]. *)
Definition add_message (session_id role content : string) : M unit :=
  fun w =>
    let t := ticks w in
    let cap := Config.MAX_SESSION_MESSAGES config in
    (Ok tt,
     {| sessions :=
          alter (fun s => SessionMemory.add_message cap s role content
                            (clock t) (clock (S t)))
                session_id (sessions w);
        vector_store := vector_store w;
        tool_state := tool_state w;
        ticks := t + 2 |}).

Definition KeyError (key : string) : exn := Exn "KeyError" key.

(** [session_obj.get_recent_messages(limit)] *)
Definition get_recent_messages (session_id : string) (limit : Z)
  : M (list SessionMemory.Message) :=
  fun w =>
    match sessions w !! session_id with
    | Some s => (Ok (SessionMemory.get_recent_messages s limit), w)
    | None => (Raise (KeyError session_id), w)
    end.

(** [vector_store.search(query)], with the default [k]. *)
Definition search (query : string) : M (list VectorStore.SearchResult) :=
  fun w =>
    (VectorStore.search document_embedder (vector_store w) query
       (Config.MAX_RETRIEVED_DOCS config), w).

(** [ollama_client.chat(messages, temperature=0.7)] *)
Definition chat (messages : list (string * string)) : result string :=
  Ollama.chat post ollama_client messages (7 # 10).

(** [args.get(key, default)] *)
Definition args_get (a : gmap string string) (key default : string) : string :=
  match a !! key with
  | Some v => v
  | None => default
  end.

(** The listing of the first three results of a knowledge-base search. *)
Fixpoint format_results (i : Z) (results : list VectorStore.SearchResult)
    (response : string) : string :=
  match results with
  | [] => response
  | r :: rest =>
      format_results (i + 1) rest
        (response
         +:+ "**" +:+ str_of_Z i +:+ ".** "
         +:+ str_take 200 (VectorStore.text (VectorStore.doc r)) +:+ "..." +:+ nl
         +:+ "*Source: " +:+ VectorStore.source (VectorStore.doc r) +:+ "*"
         +:+ nl +:+ nl)
  end.

(** The [try] block of [execute_tool_call]. *)
Definition execute_tool_call_body (tool_call : ToolCall) : M string :=
  let tool_name := tool tool_call in
  let a := args tool_call in
  if String.eqb tool_name "create_ticket" then
    fun w =>
      let '(r, ts) :=
        ticket_manager_create_ticket
          (args_get a "description" "No description provided")
          (args_get a "priority" "medium")
          (args_get a "category" "general")
          (tool_state w) in
      let w' := {| sessions := sessions w; vector_store := vector_store w;
                   tool_state := ts; ticks := ticks w |} in
      match r with
      | Ok ticket =>
          (Ok ("✅ Created support ticket " +:+ ticket_id ticket +:+ " with "
               +:+ priority ticket +:+ " priority."), w')
      | Raise e => (Raise e, w')
      end
  else if String.eqb tool_name "check_order_status" then
    match a !! "order_id" with
    | None => ret "❌ Please provide an order ID."
    | Some order_id =>
        if negb (truthy order_id) then ret "❌ Please provide an order ID."
        else
          fun w =>
            match order_manager_get_order order_id (tool_state w) with
            | Ok (Some order) => (order_manager_format_order_status order, w)
            | Ok None =>
                (Ok ("❌ Order " +:+ order_id
                     +:+ " not found. Please check the order ID and try again."),
                 w)
            | Raise e => (Raise e, w)
            end
    end
  else if String.eqb tool_name "search_knowledge_base" then
    match a !! "query" with
    | None => ret "❌ Please provide a search query."
    | Some query =>
        if negb (truthy query) then ret "❌ Please provide a search query."
        else
          let! results := search query in
          match results with
          | [] => ret "📚 No relevant information found in the knowledge base."
          | _ =>
              ret (format_results 1 (slice_to results 3)
                     ("📚 **Knowledge Base Results:**" +:+ nl +:+ nl))
          end
    end
  else ret ("❌ Unknown tool: " +:+ tool_name).

(** [execute_tool_call] *)
Definition execute_tool_call (tool_call : ToolCall) : M string :=
  try_except_M (execute_tool_call_body tool_call)
    (fun e => ret ("❌ Error executing " +:+ tool tool_call +:+ ": "
                   +:+ exn_str e)).

(** The history lines of the prompt: [role: content] and a line feed for
    each message. *)
Definition history_of (msgs : list SessionMemory.Message) : string :=
  foldl (fun history msg =>
           history +:+ SessionMemory.role msg +:+ ": "
             +:+ SessionMemory.content msg +:+ nl)
        EmptyString msgs.

(** The end of the turn: the reply is appended to the session and
    returned. *)
Definition finish (session_id response : string) : M string :=
  let! _ := add_message session_id "assistant" response in
  ret response.

(** The outer [try] block of [generate_response]. *)
Definition generate_response_body (session_id user_message : string)
  : M string :=
  let! _ := get_or_create_session session_id in
  let! _ := add_message session_id "user" user_message in
  let! context_docs := search user_message in
  let context :=
    match context_docs with
    | [] => EmptyString
    | _ =>
        join (nl +:+ nl)
          (map (fun r => VectorStore.text (VectorStore.doc r)) context_docs)
    end in
  let! recent_messages := get_recent_messages session_id 10 in
  let history := history_of (slice_to recent_messages (-1)) in
  let prompt :=
    if truthy context && truthy history then
      CHAT_WITH_CONTEXT_TEMPLATE (strip history) context user_message
    else if truthy context then RAG_PROMPT_TEMPLATE context user_message
    else user_message in
  match chat [("system", SYSTEM_PROMPT); ("user", prompt)] with
  | Raise _ => ret (generate_fallback_response user_message context)
  | Ok response =>
      match extract_tool_calls response with
      | [] => finish session_id response
      | tool_calls =>
          let! tool_results := mapM execute_tool_call tool_calls in
          match tool_results with
          | [] => finish session_id response
          | _ =>
              let tool_context := join (nl +:+ nl) tool_results in
              let final_prompt :=
                prompt +:+ nl +:+ nl +:+ "Tool Results:" +:+ nl
                  +:+ tool_context +:+ nl +:+ nl
                  +:+ "Please provide a helpful response based on these tool results." in
              match chat [("system", SYSTEM_PROMPT); ("user", final_prompt)] with
              | Raise _ =>
                  ret (generate_fallback_response user_message context)
              | Ok response' => finish session_id response'
              end
          end
      end
  end.

(** [generate_response]: the reply and the globals afterwards. *)
Definition generate_response (session_id user_message : string) (w : World)
  : string * World :=
  match generate_response_body session_id user_message w with
  | (Ok response, w') => (response, w')
  | (Raise _, w') => (model_error, w')
  end.

End WithServices.

End App.

(** * [rag/]: loading the knowledge base and rebuilding the store *)

Module KnowledgeBase.

Import VectorStore.

(** The knowledge-base directory: [None] when it does not exist, else the
    files that [rglob] finds, in its order, each with its path relative to
    the directory and the outcome of reading it. *)
Definition Directory : Type := option (list (string * result string)).

(** The documents made of the chunks of one file, numbered from [i]. *)
Fixpoint enumerate_chunks (path : string) (total i : Z) (chunks : list string)
  : list Chunk :=
  match chunks with
  | [] => []
  | chunk :: rest =>
      {| text := chunk; source := path; chunk_id := i;
         total_chunks := total |}
        :: enumerate_chunks path total (i + 1) rest
  end.

Section WithEmbedder.

Variable document_embedder : Embedded.DocumentEmbedder.

(** [self.chunk_text(content)] with one unit of fuel per word and one more:
    [None] stands for a loop that does not exit. *)
Definition chunk_text (content : string) : option (list string) :=
  Embedded.chunk (S (length (split content))) document_embedder content.

(** The [for file_path in directory.rglob(...)] loop of
    [load_documents_from_directory]; a file that cannot be read is logged
    and skipped. *)
Fixpoint load_files (files : list (string * result string))
    (documents : list Chunk) : option (list Chunk) :=
  match files with
  | [] => Some documents
  | (path, Raise _) :: rest => load_files rest documents
  | (path, Ok content) :: rest =>
      if truthy (strip content) then
        match chunk_text content with
        | None => None
        | Some chunks =>
            load_files rest
              (documents ++ enumerate_chunks path (len chunks) 0 chunks)
        end
      else load_files rest documents
  end.

(** [DocumentEmbedder.load_documents_from_directory] *)
Definition load_documents_from_directory (directory : Directory)
  : option (list Chunk) :=
  match directory with
  | None => Some []
  | Some files => load_files files []
  end.

(** [VectorStore.rebuild_from_directory]: the outcome, the store and the
    disk afterwards. *)
Definition rebuild_from_directory (self : t) (directory : Directory)
    (disk : Disk) : option (result unit * t * Disk) :=
  let cleared :=
    {| index := None; documents := []; dimension := dimension self |} in
  match load_documents_from_directory directory with
  | None => None
  | Some [] => Some (Ok tt, cleared, disk)
  | Some docs =>
      match add_documents document_embedder cleared docs with
      | (Ok _, rebuilt) => Some (Ok tt, rebuilt, save rebuilt disk)
      | (Raise e, broken) => Some (Raise e, broken, disk)
      end
  end.

(** The part of [initialize_app] that sets up the store: load it, and
    rebuild it when loading fails. *)
Definition initialize_store (self : t) (directory : Directory) (disk : Disk)
  : option (result unit * t * Disk) :=
  match load self disk with
  | (true, loaded) => Some (Ok tt, loaded, disk)
  | (false, self') => rebuild_from_directory self' directory disk
  end.

End WithEmbedder.

End KnowledgeBase.

(** * [memory/session_memory.py]: sweeping and statistics *)

Module SessionStats.

Import SessionMemory.

(** [SessionManager.cleanup_expired_sessions]; [now_of sid] is the reading
    of the clock in the expiry check of the session [sid]. *)
Definition cleanup_expired_sessions (timeout : Z)
    (sessions : gmap string Session) (now_of : string -> Q)
  : gmap string Session :=
  let expired_sessions :=
    map fst
      (List.filter (fun item => is_expired timeout (snd item) (now_of (fst item)))
         (map_to_list sessions)) in
  foldl remove_session sessions expired_sessions.

(** The dictionary returned by [get_session_stats]. *)
Record Stats := {
  active_sessions : Z;
  total_messages : Z;
  avg_messages_per_session : Q
}.

(** [sum(len(session.messages) for session in self.sessions.values())] *)
Definition count_messages (sessions : gmap string Session) : Z :=
  map_fold (fun _ session total => total + len (messages session)) 0 sessions.

(** [SessionManager.get_session_stats] *)
Definition get_session_stats (sessions : gmap string Session) : Stats :=
  let total := count_messages sessions in
  {| active_sessions := Z.of_nat (size sessions);
     total_messages := total;
     avg_messages_per_session :=
       if decide (size sessions = 0%nat) then 0%Q
       else (inject_Z total / inject_Z (Z.of_nat (size sessions)))%Q |}.

End SessionStats.

(** * [str.upper] *)

Module PyCase.

(** [c.upper()] on the ASCII range. *)
Definition upper_char (c : ascii) : ascii :=
  let n := nat_of_ascii c in
  if ((97 <=? n)%nat && (n <=? 122)%nat) then ascii_of_nat (n - 32) else c.

(** [s.upper()] for a string of ASCII characters.  The case mapping of
    the other characters is not modelled: the bytes above 127 are left as
    they are, and a property that rests on a law between [upper] and
    [lower] is stated for ASCII strings only. *)
Fixpoint upper (s : string) : string :=
  match s with
  | EmptyString => EmptyString
  | String c s' => String (upper_char c) (upper s')
  end.

(** [x in l] for strings. *)
Definition member (x : string) (l : list string) : bool :=
  existsb (String.eqb x) l.

(** [s.isascii()]: every character is below 128. *)
Fixpoint isascii (s : string) : bool :=
  match s with
  | EmptyString => true
  | String c s' => (nat_of_ascii c <? 128)%nat && isascii s'
  end.

End PyCase.

(** * [tools/create_ticket.py] *)

Module CreateTicket.

Import PyCase.

Record Ticket := {
  ticket_id : string;
  description : string;
  priority : string;
  category : string;
  status : string;
  created_at : Q;
  updated_at : Q
}.

Definition valid_priorities : list string := ["low"; "medium"; "high"].
Definition valid_categories : list string :=
  ["technical"; "billing"; "general"; "other"].
Definition valid_statuses : list string :=
  ["open"; "in_progress"; "resolved"; "closed"].

(** [TicketManager.create_ticket] on the dictionary [self.tickets]:
    [uuid_hex] is [uuid.uuid4().hex], and [now1], [now2] are the two
    readings of the clock made when the ticket is constructed.  Saving to
    the storage file, whose errors are logged and dropped, is left out. *)
Definition create_ticket (tickets : gmap string Ticket)
    (description priority category : string) (uuid_hex : string)
    (now1 now2 : Q) : Ticket * gmap string Ticket :=
  let ticket_id := "TK-" +:+ upper (str_take 8 uuid_hex) in
  let priority :=
    if member priority valid_priorities then priority else "medium" in
  let category :=
    if member category valid_categories then category else "general" in
  let ticket :=
    {| ticket_id := ticket_id; description := description;
       priority := priority; category := category; status := "open";
       created_at := now1; updated_at := now2 |} in
  (ticket, <[ticket_id := ticket]> tickets).

(** [TicketManager.get_ticket] *)
Definition get_ticket (tickets : gmap string Ticket) (ticket_id : string)
  : option Ticket :=
  tickets !! ticket_id.

(** [TicketManager.update_ticket_status] *)
Definition update_ticket_status (tickets : gmap string Ticket)
    (ticket_id status : string) (now : Q) : bool * gmap string Ticket :=
  match tickets !! ticket_id with
  | None => (false, tickets)
  | Some ticket =>
      if member status valid_statuses then
        (true,
         <[ticket_id :=
             {| ticket_id := CreateTicket.ticket_id ticket;
                description := description ticket;
                priority := priority ticket;
                category := category ticket;
                status := status;
                created_at := created_at ticket;
                updated_at := now |}]> tickets)
      else (false, tickets)
  end.

End CreateTicket.

(** * [tools/order_status.py] *)

Module OrderStatus.

Import PyCase.

Record Item := {
  item_name : string;
  quantity : Z;
  price : Q
}.

Record Order := {
  order_id : string;
  customer_name : string;
  customer_email : string;
  items : list Item;
  total_amount : Q;
  status : string;
  created_at : Q;
  updated_at : Q;
  tracking_number : option string;
  estimated_delivery : option Q
}.

(** The values of the enumeration [OrderStatus]. *)
Definition valid_statuses : list string :=
  ["pending"; "confirmed"; "processing"; "shipped"; "delivered";
   "cancelled"; "refunded"].

(** [OrderManager.get_order] *)
Definition get_order (orders : gmap string Order) (order_id : string)
  : option Order :=
  orders !! upper order_id.

(** [bool(x)] for an optional string and for an optional number. *)
Definition truthy_str (x : option string) : bool :=
  match x with
  | Some s => truthy s
  | None => false
  end.

Definition truthy_num (x : option Q) : bool :=
  match x with
  | Some q => negb (Qeq_bool q 0)
  | None => false
  end.

(** [OrderManager.update_order_status], saving left out. *)
Definition update_order_status (orders : gmap string Order)
    (order_id status : string) (tracking : option string)
    (delivery : option Q) (now : Q) : bool * gmap string Order :=
  let order_id := upper order_id in
  match orders !! order_id with
  | None => (false, orders)
  | Some order =>
      if member status valid_statuses then
        (true,
         <[order_id :=
             {| order_id := OrderStatus.order_id order;
                customer_name := customer_name order;
                customer_email := customer_email order;
                items := items order;
                total_amount := total_amount order;
                status := status;
                created_at := created_at order;
                updated_at := now;
                tracking_number :=
                  if truthy_str tracking then tracking
                  else tracking_number order;
                estimated_delivery :=
                  if truthy_num delivery then delivery
                  else estimated_delivery order |}]> orders)
      else (false, orders)
  end.

End OrderStatus.

(** * [app.py] with the ticket and order managers of [tools/] *)

Module Dispatch.

(** The session store, the vector store and the clock of the sessions are
    the same in both states: only the state of the tools may differ. *)
Definition same_core {ToolState : Type} (w w' : App.World ToolState) : Prop :=
  App.sessions ToolState w' = App.sessions ToolState w /\
  App.vector_store ToolState w' = App.vector_store ToolState w /\
  App.ticks ToolState w' = App.ticks ToolState w.

(** The state of the two managers, with the number of identifiers drawn
    and of clock readings made by them so far. *)
Record ToolState := {
  tickets : gmap string CreateTicket.Ticket;
  orders : gmap string OrderStatus.Order;
  draws : nat;
  reads : nat
}.

Section WithOracles.

(** The successive values of [uuid.uuid4().hex] and the successive
    readings of the clock made by the managers. *)
Variable uuid_hex : nat -> string.
Variable tool_clock : nat -> Q.

(** [ticket_manager.create_ticket] as the orchestrator sees it. *)
Definition ticket_manager_create_ticket
    (description priority category : string) (ts : ToolState)
  : result App.Ticket * ToolState :=
  let '(ticket, tickets') :=
    CreateTicket.create_ticket (tickets ts) description priority category
      (uuid_hex (draws ts)) (tool_clock (reads ts))
      (tool_clock (S (reads ts))) in
  (Ok {| App.ticket_id := CreateTicket.ticket_id ticket;
         App.priority := CreateTicket.priority ticket |},
   {| tickets := tickets'; orders := orders ts;
      draws := S (draws ts); reads := reads ts + 2 |}).

(** [order_manager.get_order] as the orchestrator sees it. *)
Definition order_manager_get_order (order_id : string) (ts : ToolState)
  : result (option OrderStatus.Order) :=
  Ok (OrderStatus.get_order (orders ts) order_id).

End WithOracles.

End Dispatch.

(** * [app.py]: the arguments a tool call can carry *)

Module ToolArgs.

Import Py.

(** The five argument names that [extract_tool_calls] looks for. *)
Definition arg_keys : list string :=
  ["description"; "priority"; "category"; "order_id"; "query"].

(** A value matched by the pattern of an argument: one or more characters,
    none of them a quote. *)
Definition plain (v : string) : Prop :=
  truthy v = true /\
  contains (str1 dquote) v = false /\
  contains (str1 squote) v = false.

End ToolArgs.

(** * [app.py]: what a turn leaves in the session *)

Module Turn.

(** The session of the turn ends with the reply of the assistant. *)
Definition recorded {ToolState : Type} (session_id reply : string)
    (w : App.World ToolState) : Prop :=
  exists session message,
    App.sessions ToolState w !! session_id = Some session /\
    last (SessionMemory.messages session) = Some message /\
    SessionMemory.role message = "assistant" /\
    SessionMemory.content message = reply.

End Turn.

(** * Sample data *)

(** Sample data: an encoder that maps every text to the same unit vector,
    and a store of two chunks with their two vectors. *)
Module Sample.

Definition encoder (texts : list string) : result (list (list Q)) :=
  Ok (map (fun _ => [1; 0]%Q) texts).

Definition embedder : Embedded.DocumentEmbedder :=
  {| Embedded.encode := encoder;
     Embedded.chunk_size := 500;
     Embedded.chunk_overlap := 100 |}.

Definition chunk1 : VectorStore.Chunk :=
  {| VectorStore.text := "reset password via settings menu";
     VectorStore.source := "faq.md";
     VectorStore.chunk_id := 0;
     VectorStore.total_chunks := 2 |}.

Definition chunk2 : VectorStore.Chunk :=
  {| VectorStore.text := "billing cycle is monthly";
     VectorStore.source := "faq.md";
     VectorStore.chunk_id := 1;
     VectorStore.total_chunks := 2 |}.

Definition flat_index : Faiss.IndexFlatL2 :=
  {| Faiss.d := 2; Faiss.xb := [[1; 0]; [0; 1]]%Q |}.

Definition store : VectorStore.t :=
  {| VectorStore.index := Some flat_index;
     VectorStore.documents := [chunk1; chunk2];
     VectorStore.dimension := Some 2 |}.



(** The vector artifact alone on disk. *)
Definition disk_without_metadata : VectorStore.Disk :=
  {| VectorStore.index_file := Some (Ok flat_index);
     VectorStore.metadata_file := None |}.

(** A language-model backend that raises on every request. *)
Definition failing_post (url : string) (payload : Ollama.Payload)
    (timeout : Z) : result Ollama.Response :=
  Raise (Exn "ConnectionError" "connection refused").

Definition client : Ollama.OllamaClient :=
  {| Ollama.base_url := "http://localhost:11434";
     Ollama.model := Some "llama3";
     Ollama.timeout := 30 |}.

(** The configuration with the defaults of [config.py]. *)
Definition config : Config.t :=
  {| Config.OLLAMA_BASE_URL := Some "http://localhost:11434";
     Config.OLLAMA_MODEL := Some "llama3";
     Config.OLLAMA_TIMEOUT := 30;
     Config.EMBEDDING_MODEL := Some "all-MiniLM-L6-v2";
     Config.CHUNK_SIZE := 500;
     Config.CHUNK_OVERLAP := 100;
     Config.MAX_RETRIEVED_DOCS := 3;
     Config.SESSION_TIMEOUT := 3600;
     Config.MAX_SESSION_MESSAGES := 20 |}.

(** A clock that advances by one second at every reading. *)
Definition clock (n : nat) : Q := inject_Z (Z.of_nat n).

(** Tool collaborators: tickets get a fixed identifier, no order exists. *)
Definition create_ticket (description priority category : string) (ts : unit)
  : result App.Ticket * unit :=
  (Ok {| App.ticket_id := "TK-0000ABCD"; App.priority := priority |}, ts).

Definition get_order (order_id : string) (ts : unit) : result (option unit) :=
  Ok None.

Definition format_order_status (order : unit) : result string :=
  Ok EmptyString.

(** The globals right after start-up: no session, the sample store. *)
Definition world : App.World unit :=
  {| App.sessions := ∅;
     App.vector_store := store;
     App.tool_state := tt;
     App.ticks := 0 |}.

(** The reply of the orchestrator with the failing backend. *)
Definition reply_when_backend_fails (session_id user_message : string)
  : string :=
  fst (App.generate_response config client failing_post embedder clock
         unit unit create_ticket get_order format_order_status
         session_id user_message world).

(** A reply that names the order tool before the ticket tool. *)
Definition reply_with_two_calls : string :=
  "First check_order_status(order_id='ORD-001'), then create_ticket(description='printer jam', priority='high').".

End Sample.

(** * Properties *)

(** Boolean comparisons on integers in the hypotheses, as propositions. *)
Ltac zbool :=
  repeat match goal with
  | H : (_ <? _) = true |- _ => apply Z.ltb_lt in H
  | H : (_ <? _) = false |- _ => apply Z.ltb_ge in H
  | H : (_ <=? _) = true |- _ => apply Z.leb_le in H
  | H : (_ <=? _) = false |- _ => apply Z.leb_gt in H
  | H : (_ >? _) = true |- _ => apply Z.gtb_lt in H
  | H : (_ >? _) = false |- _ => rewrite Z.gtb_ltb in H; apply Z.ltb_ge in H
  | H : (_ >=? _) = true |- _ => apply Z.geb_le in H
  | H : (_ >=? _) = false |- _ => rewrite Z.geb_leb in H; apply Z.leb_gt in H
  | H : (_ =? _) = true |- _ => apply Z.eqb_eq in H
  | H : (_ =? _) = false |- _ => apply Z.eqb_neq in H
  end.

(** ** Strings: words, [split], [join] and [strip] *)

Module PyFacts.

Lemma append_empty_r (s : string) : s +:+ EmptyString = s.
Proof.
  induction s as [|c s IH]; [reflexivity|].
  change (String c (s +:+ EmptyString) = String c s). by rewrite IH.
Qed.

Lemma truthy_append_r (a b : string) : truthy b = true -> truthy (a +:+ b) = true.
Proof. destruct a; simpl; auto. Qed.

Lemma is_word_cons (c : ascii) (w : string) :
  is_word (String c w) = negb (isspace c) && nospace w.
Proof. reflexivity. Qed.

(** Every element of [s.split()] is a word. *)
Lemma split_words (s : string) : Forall (fun w => is_word w = true) (split s).
Proof.
  induction s as [|c s IH]; simpl; [constructor|].
  destruct (isspace c) eqn:Hc; [exact IH|].
  destruct (starts_word s) eqn:Hs.
  - destruct (split s) as [|w ws] eqn:Hsp.
    + repeat constructor. unfold is_word. simpl. by rewrite Hc.
    + inversion IH as [|? ? Hw Hws]; subst. constructor; [|exact Hws].
      rewrite is_word_cons, Hc. simpl.
      unfold is_word in Hw. apply andb_true_iff in Hw. tauto.
  - constructor; [|exact IH]. unfold is_word. simpl. by rewrite Hc.
Qed.

Lemma append_cons (c : ascii) (a b : string) :
  String c a +:+ b = String c (a +:+ b).
Proof. reflexivity. Qed.

Lemma split_cons (c : ascii) (s : string) :
  split (String c s) =
  if isspace c then split s
  else if starts_word s then
         match split s with
         | w :: ws => String c w :: ws
         | [] => [str1 c]
         end
       else str1 c :: split s.
Proof. reflexivity. Qed.

(** A word followed by a space, or by nothing, is split off as it is. *)
Lemma split_app_word (w s : string) :
  is_word w = true -> starts_word s = false ->
  split (w +:+ s) = w :: split s.
Proof.
  induction w as [|c w IH]; [discriminate|].
  rewrite is_word_cons. intros Hw Hs.
  apply andb_true_iff in Hw as [Hc Hn].
  apply negb_true_iff in Hc.
  rewrite append_cons, split_cons, Hc.
  destruct w as [|c' w'].
  - change (EmptyString +:+ s) with s. by rewrite Hs.
  - assert (Hw' : is_word (String c' w') = true) by exact Hn.
    rewrite (IH Hw' Hs).
    simpl in Hn. apply andb_true_iff in Hn as [Hc' _].
    rewrite append_cons. simpl. by rewrite Hc'.
Qed.

Lemma split_word (w : string) : is_word w = true -> split w = [w].
Proof.
  intros Hw. rewrite <- (append_empty_r w) at 1.
  by rewrite split_app_word.
Qed.

(** Splitting the words joined by single spaces gives the words back. *)
Lemma split_join (ws : list string) :
  Forall (fun w => is_word w = true) ws ->
  split (join (str1 space) ws) = ws.
Proof.
  induction 1 as [|w ws Hw Hws IH]; [reflexivity|].
  destruct ws as [|w' ws'].
  - simpl. by apply split_word.
  - change (join (str1 space) (w :: w' :: ws'))
      with (w +:+ str1 space +:+ join (str1 space) (w' :: ws')).
    rewrite split_app_word; [|exact Hw|reflexivity].
    f_equal. exact IH.
Qed.

Lemma rstrip_nospace (w : string) : nospace w = true -> rstrip w = w.
Proof.
  induction w as [|c w IH]; [reflexivity|].
  simpl. intros H. apply andb_true_iff in H as [Hc Hn].
  rewrite (IH Hn). destruct w; [|reflexivity].
  apply negb_true_iff in Hc. by rewrite Hc.
Qed.

Lemma rstrip_cons (c : ascii) (s : string) :
  rstrip (String c s) =
  match rstrip s with
  | EmptyString => if isspace c then EmptyString else str1 c
  | r => String c r
  end.
Proof. reflexivity. Qed.

Lemma rstrip_app (a b : string) :
  rstrip b = b -> truthy b = true -> rstrip (a +:+ b) = a +:+ b.
Proof.
  intros Hb Ht. induction a as [|c a IH]; [exact Hb|].
  rewrite append_cons, rstrip_cons, IH.
  pose proof (truthy_append_r a b Ht) as Hab.
  destruct (a +:+ b); [discriminate|reflexivity].
Qed.

Lemma join_truthy (ws : list string) :
  Forall (fun w => is_word w = true) ws -> ws <> [] ->
  truthy (join (str1 space) ws) = true.
Proof.
  intros Hws Hne. destruct Hws as [|w ws Hw Hws]; [done|].
  unfold is_word in Hw. apply andb_true_iff in Hw as [Ht _].
  destruct ws; [exact Ht|]. simpl. destruct w; [discriminate|reflexivity].
Qed.

Lemma rstrip_join (ws : list string) :
  Forall (fun w => is_word w = true) ws ->
  rstrip (join (str1 space) ws) = join (str1 space) ws.
Proof.
  induction 1 as [|w ws Hw Hws IH]; [reflexivity|].
  unfold is_word in Hw. apply andb_true_iff in Hw as [Ht Hn].
  destruct ws as [|w' ws'].
  - simpl. by apply rstrip_nospace.
  - change (join (str1 space) (w :: w' :: ws'))
      with (w +:+ str1 space +:+ join (str1 space) (w' :: ws')).
    apply rstrip_app.
    + apply (rstrip_app (str1 space)); [exact IH|].
      apply join_truthy; [exact Hws|done].
    + reflexivity.
Qed.

Lemma lstrip_join (ws : list string) :
  Forall (fun w => is_word w = true) ws ->
  lstrip (join (str1 space) ws) = join (str1 space) ws.
Proof.
  intros Hws. destruct Hws as [|w ws Hw Hws]; [reflexivity|].
  assert (Hl : forall s, lstrip (w +:+ s) = w +:+ s).
  { intros s. destruct w as [|c w]; [discriminate|].
    rewrite is_word_cons in Hw. apply andb_true_iff in Hw as [Hc _].
    apply negb_true_iff in Hc. simpl. by rewrite Hc. }
  destruct ws.
  - simpl. rewrite <- (append_empty_r w). apply Hl.
  - apply Hl.
Qed.

(** The chunk text built from words is left alone by [strip]. *)
Lemma strip_join (ws : list string) :
  Forall (fun w => is_word w = true) ws ->
  strip (join (str1 space) ws) = join (str1 space) ws.
Proof.
  intros Hws. unfold strip. rewrite lstrip_join by exact Hws.
  by apply rstrip_join.
Qed.

Lemma split_whitespace_only (s : string) :
  whitespace_only s = true -> split s = [].
Proof.
  induction s as [|c s IH]; [reflexivity|].
  simpl. intros H. apply andb_true_iff in H as [Hc Hs].
  rewrite Hc. by apply IH.
Qed.

End PyFacts.

(** ** The chunker *)

Module ChunkerFacts.

Import PyFacts Embedded.

Lemma chunk_loop_unfold (fuel : nat) (size overlap : Z)
    (words : list string) (start : Z) (chunks : list string) :
  chunk_loop (S fuel) size overlap words start chunks =
  if start <? len words then
    let end_ := start + size in
    let chunk := join (str1 space) (slice words start end_) in
    let chunks' :=
      if truthy (strip chunk) then chunks ++ [strip chunk] else chunks in
    if end_ >=? len words then Some chunks'
    else chunk_loop fuel size overlap words (end_ - overlap) chunks'
  else Some chunks.
Proof. reflexivity. Qed.

(** More fuel does not change the outcome of a run that exits. *)
Lemma chunk_loop_fuel_mono (size overlap : Z) (words : list string)
    (fuel fuel' : nat) (start : Z) (chunks r : list string) :
  (fuel <= fuel')%nat ->
  chunk_loop fuel size overlap words start chunks = Some r ->
  chunk_loop fuel' size overlap words start chunks = Some r.
Proof.
  revert fuel' start chunks.
  induction fuel as [|fuel IH]; intros fuel' start chunks Hle; [discriminate|].
  destruct fuel' as [|fuel']; [lia|].
  rewrite !chunk_loop_unfold. cbv zeta.
  destruct (start <? len words); [|auto].
  destruct (start + size >=? len words); [auto|].
  apply IH. lia.
Qed.

(** With [overlap < size] the cursor moves forward in every run, and the
    loop exits within [len words - start + 1] runs. *)
Lemma chunk_loop_terminates (size overlap : Z) (words : list string) :
  overlap < size ->
  forall (fuel : nat) (start : Z) (chunks : list string),
    len words - start <= Z.of_nat fuel ->
    exists r, chunk_loop (S fuel) size overlap words start chunks = Some r.
Proof.
  intros Hlt. induction fuel as [|fuel IH]; intros start chunks Hm;
    rewrite chunk_loop_unfold; cbv zeta.
  - destruct (start <? len words) eqn:Hs; [apply Z.ltb_lt in Hs; lia|eauto].
  - destruct (start <? len words) eqn:Hs; [|eauto].
    destruct (start + size >=? len words) eqn:He; [eauto|].
    apply IH. lia.
Qed.

(** With [overlap >= size] the cursor never moves forward: once at or
    below zero it stays there, and the loop cannot exit when there are more
    than [size] words. *)
Lemma chunk_loop_diverges (size overlap : Z) (words : list string) :
  size <= overlap -> size < len words -> 0 < len words ->
  forall (fuel : nat) (start : Z) (chunks : list string),
    start <= 0 ->
    chunk_loop fuel size overlap words start chunks = None.
Proof.
  intros Hge Hlong Hne. induction fuel as [|fuel IH]; intros start chunks Hs;
    [reflexivity|].
  rewrite chunk_loop_unfold. cbv zeta.
  destruct (start <? len words) eqn:Hlt; [|apply Z.ltb_ge in Hlt; lia].
  destruct (start + size >=? len words) eqn:He; [apply Z.geb_le in He; lia|].
  apply IH. lia.
Qed.

(** *** Slices *)

Lemma slice_index_nonneg (n i : Z) : 0 <= i -> slice_index n i = Z.min i n.
Proof.
  intros H. unfold slice_index.
  destruct (i <? 0) eqn:E; [apply Z.ltb_lt in E; lia|reflexivity].
Qed.

Lemma slice_nonneg {A} (l : list A) (lo hi : Z) :
  0 <= lo -> 0 <= hi ->
  slice l lo hi =
  take (Z.to_nat (Z.min hi (len l) - Z.min lo (len l)))
       (drop (Z.to_nat (Z.min lo (len l))) l).
Proof.
  intros Hlo Hhi. unfold slice. cbv zeta.
  by rewrite !slice_index_nonneg.
Qed.

Lemma slice_lookup {A} (l : list A) (lo hi : Z) (i : nat) (x : A) :
  0 <= lo -> lo <= Z.of_nat i < hi -> l !! i = Some x ->
  In x (slice l lo hi).
Proof.
  intros Hlo Hi Hx.
  pose proof (lookup_lt_Some _ _ _ Hx) as Hlen.
  rewrite slice_nonneg by lia. unfold len.
  apply list_elem_of_In, list_elem_of_lookup.
  exists (i - Z.to_nat lo)%nat.
  rewrite lookup_take_lt by lia.
  rewrite lookup_drop. rewrite <- Hx. f_equal. lia.
Qed.

Lemma slice_Forall {A} (P : A -> Prop) (l : list A) (lo hi : Z) :
  Forall P l -> Forall P (slice l lo hi).
Proof. intros H. unfold slice. cbv zeta. by apply Forall_take, Forall_drop. Qed.

(** *** Coverage *)

Lemma covered_app (w : string) (chunks more : list string) :
  covered w chunks -> covered w (chunks ++ more).
Proof.
  intros (c & Hc & Hw). exists c. split; [|exact Hw].
  apply in_or_app. by left.
Qed.

(** The loop invariant: the words before the cursor are covered. *)
Lemma chunk_loop_covers (size overlap : Z) (words : list string) :
  0 <= overlap < size ->
  Forall (fun w => is_word w = true) words ->
  forall (fuel : nat) (start : Z) (chunks r : list string),
    0 <= start ->
    (forall i w, words !! i = Some w -> Z.of_nat i < start -> covered w chunks) ->
    chunk_loop fuel size overlap words start chunks = Some r ->
    forall i w, words !! i = Some w -> covered w r.
Proof.
  intros Hso Hwords.
  induction fuel as [|fuel IH]; intros start chunks r Hstart Hinv;
    [discriminate|].
  rewrite chunk_loop_unfold. cbv zeta.
  destruct (start <? len words) eqn:Hlt.
  2:{ intros [= <-] i w Hw. apply (Hinv i w Hw).
      apply Z.ltb_ge in Hlt. pose proof (lookup_lt_Some _ _ _ Hw).
      unfold len in Hlt. lia. }
  apply Z.ltb_lt in Hlt.
  set (ws := slice words start (start + size)).
  assert (Hws : Forall (fun w => is_word w = true) ws)
    by (by apply slice_Forall).
  rewrite (strip_join ws Hws).
  assert (Hcov : forall i w, words !! i = Some w ->
                   Z.of_nat i < start + size ->
                   covered w (chunks ++ [join (str1 space) ws])).
  { intros i w Hw Hi. destruct (Z_lt_ge_dec (Z.of_nat i) start) as [Hb|Hb].
    - apply covered_app. by apply (Hinv i w).
    - exists (join (str1 space) ws). split.
      + apply in_or_app. right. by left.
      + rewrite split_join by exact Hws.
        apply (slice_lookup words start (start + size) i w); [lia|lia|exact Hw]. }
  assert (Hne : truthy (join (str1 space) ws) = true).
  { apply join_truthy; [exact Hws|].
    destruct (lookup_lt_is_Some_2 words (Z.to_nat start)) as [w0 Hw0];
      [unfold len in Hlt; lia|].
    intros Hnil.
    pose proof (slice_lookup words start (start + size) (Z.to_nat start) w0)
      as Hin.
    fold ws in Hin. rewrite Hnil in Hin. apply Hin; [lia|lia|exact Hw0]. }
  rewrite Hne.
  destruct (start + size >=? len words) eqn:He.
  - intros [= <-] i w Hw. apply (Hcov i w Hw).
    apply Z.geb_le in He. pose proof (lookup_lt_Some _ _ _ Hw).
    unfold len in He. lia.
  - intros Hr.
    apply (IH (start + size - overlap) (chunks ++ [join (str1 space) ws]) r);
      [lia| |exact Hr].
    intros i w Hw Hi. apply (Hcov i w Hw). lia.
Qed.

End ChunkerFacts.

(** C4, as amended.  Nothing at start-up compares [CHUNK_OVERLAP] with
    [CHUNK_SIZE]: some environment with [CHUNK_SIZE <= CHUNK_OVERLAP] is
    accepted.  The loop of [chunk_text] exits for every text when
    [overlap < size], within one run per word plus one; when
    [size <= overlap] it never exits, whatever the fuel, on a text of more
    than [size] words (and at least one). *)
Theorem chunk_text_terminates_when_cursor_advances
    (size overlap : Z) (text : string) :
  (overlap < size ->
   exists chunks,
     Embedded.chunk_text (S (length (split text))) size overlap text
     = Some chunks) /\
  (size <= overlap -> Z.max 0 size < len (split text) ->
   forall fuel, Embedded.chunk_text fuel size overlap text = None) /\
  (forall model, exists env e,
     Embedded.startup env model = Ok e /\
     Embedded.chunk_size e <= Embedded.chunk_overlap e).
Proof.
  split; [|split].
  - intros Hlt. unfold Embedded.chunk_text.
    destruct (negb (truthy text)); [eauto|].
    apply ChunkerFacts.chunk_loop_terminates; [exact Hlt|]. unfold len. lia.
  - intros Hge Hlong fuel. unfold Embedded.chunk_text.
    destruct text as [|c text]; [simpl in Hlong; unfold len in Hlong; simpl in Hlong; lia|].
    simpl negb. cbv iota.
    apply ChunkerFacts.chunk_loop_diverges; lia.
  - intros model.
    exists (<["OLLAMA_TIMEOUT" := "30"]>
              (<["CHUNK_SIZE" := "2"]> (<["CHUNK_OVERLAP" := "2"]> ∅))).
    eexists. split; [vm_compute; reflexivity|]. simpl. lia.
Qed.

Lemma chunk_text_terminates_when_cursor_advances_witness :
  (exists chunks, Embedded.chunk_text 4 2 1 "a b c" = Some chunks) /\
  (forall fuel, Embedded.chunk_text fuel 2 2 "a b c" = None).
Proof.
  split.
  - apply (chunk_text_terminates_when_cursor_advances 2 1 "a b c"). lia.
  - apply (chunk_text_terminates_when_cursor_advances 2 2 "a b c");
      [lia | vm_compute; reflexivity].
Defined.

(** C4, as stated, fails: start-up succeeds on an environment in which the
    overlap is not smaller than the chunk size. *)
Lemma startup_accepts_overlap_not_below_size :
  exists e,
    Embedded.startup
      (<["OLLAMA_TIMEOUT" := "30"]>
         (<["CHUNK_SIZE" := "2"]> (<["CHUNK_OVERLAP" := "2"]> ∅)))
      (fun _ => Ok []) = Ok e /\
    ~ (Embedded.chunk_overlap e < Embedded.chunk_size e).
Proof.
  eexists. split; [vm_compute; reflexivity|]. simpl. lia.
Qed.

(** C5, as amended: for [0 <= overlap < size] the chunker returns, with the
    same chunks for every sufficient fuel; every word of the text is a word
    of one of the chunks; and a text of spaces only (the empty text
    included) has no chunks. *)
Theorem chunk_text_covers_every_word (size overlap : Z) (text : string) :
  0 <= overlap < size ->
  exists chunks,
    (forall fuel, (length (split text) < fuel)%nat ->
       Embedded.chunk_text fuel size overlap text = Some chunks) /\
    (forall fuel r,
       Embedded.chunk_text fuel size overlap text = Some r -> r = chunks) /\
    (forall w, In w (split text) -> Embedded.covered w chunks) /\
    (whitespace_only text = true -> chunks = []).
Proof.
  intros Hso. unfold Embedded.chunk_text.
  destruct text as [|c text].
  { exists []. simpl. repeat split; try congruence; intros w []. }
  simpl negb. cbv iota.
  set (words := split (String c text)).
  destruct (ChunkerFacts.chunk_loop_terminates size overlap words
              ltac:(lia) (length words) 0 []) as [chunks Hrun];
    [unfold len; lia|].
  exists chunks. repeat split.
  - intros fuel Hfuel.
    apply (ChunkerFacts.chunk_loop_fuel_mono _ _ _ (S (length words)));
      [lia|exact Hrun].
  - intros fuel r Hr.
    assert (H1 := ChunkerFacts.chunk_loop_fuel_mono size overlap words
                    fuel (fuel + S (length words)) 0 [] r ltac:(lia) Hr).
    assert (H2 := ChunkerFacts.chunk_loop_fuel_mono size overlap words
                    (S (length words)) (fuel + S (length words)) 0 [] chunks
                    ltac:(lia) Hrun).
    congruence.
  - intros w Hw. apply list_elem_of_In, list_elem_of_lookup in Hw as [i Hi].
    apply (ChunkerFacts.chunk_loop_covers size overlap words Hso
             (PyFacts.split_words _) (S (length words)) 0 [] chunks)
      with (i := i); [lia| |exact Hrun|exact Hi].
    intros j w' _ Hj. lia.
  - intros Hws. subst words.
    rewrite (PyFacts.split_whitespace_only _ Hws) in Hrun.
    simpl in Hrun. congruence.
Qed.

Lemma chunk_text_covers_every_word_witness :
  exists chunks,
    (forall fuel, (length (split "a b c d e") < fuel)%nat ->
       Embedded.chunk_text fuel 3 1 "a b c d e" = Some chunks) /\
    (forall fuel r,
       Embedded.chunk_text fuel 3 1 "a b c d e" = Some r -> r = chunks) /\
    (forall w, In w (split "a b c d e") -> Embedded.covered w chunks) /\
    (whitespace_only "a b c d e" = true -> chunks = []).
Proof. apply (chunk_text_covers_every_word 3 1 "a b c d e"). lia. Defined.

(** C5, as stated, fails for a negative overlap, which is still below the
    size: the windows then leave gaps, and the word in the gap is in no
    chunk. *)
Lemma chunk_text_negative_overlap_skips_a_word :
  -1 < 2 /\
  Embedded.chunk_text 4 2 (-1) "a b c" = Some ["a b"] /\
  In "c" (split "a b c") /\
  ~ Embedded.covered "c" ["a b"].
Proof.
  split; [lia|]. split; [reflexivity|]. split; [simpl; tauto|].
  intros (c & Hc & Hw). destruct Hc as [<-|[]].
  vm_compute in Hw. destruct Hw as [H|[H|[]]]; discriminate.
Qed.

(** ** The session store *)

Module SessionFacts.

Import SessionMemory.

Lemma len_app {A} (l1 l2 : list A) : len (l1 ++ l2) = len l1 + len l2.
Proof. unfold len. rewrite length_app. lia. Qed.

(** [l[-n:]] for [n > 0]: the last [n] elements. *)
Lemma slice_from_neg {A} (l : list A) (n : Z) :
  0 < n -> slice_from l (- n) = drop (Z.to_nat (len l - n)) l.
Proof.
  intros Hn. unfold slice_from, slice_index.
  destruct (- n <? 0) eqn:E; [|apply Z.ltb_ge in E; lia].
  f_equal. lia.
Qed.

(** [l[-0:]] is the whole list. *)
Lemma slice_from_zero {A} (l : list A) : slice_from l (- 0) = l.
Proof. unfold slice_from, slice_index, len. simpl. destruct l; reflexivity. Qed.

Lemma add_messages_snoc (cap : Z) (s : Session) (appends : list Append)
    (a : Append) :
  add_messages cap s (appends ++ [a]) =
  let '(role, content, now1, now2) := a in
  add_message cap (add_messages cap s appends) role content now1 now2.
Proof. unfold add_messages. rewrite foldl_app. by destruct a as [[[? ?] ?] ?]. Qed.

Lemma trim_eq (cap : Z) (l : list Message) :
  2 <= cap ->
  trim cap l =
  if len l >? cap
  then take 1 l ++ drop (Z.to_nat (len l - (cap - 1))) l
  else l.
Proof.
  intros Hcap. unfold trim.
  destruct (len l >? cap) eqn:Hgt; [|reflexivity].
  destruct l as [|first rest]; [unfold len in Hgt; simpl in Hgt; zbool; lia|].
  rewrite slice_from_neg by lia. reflexivity.
Qed.

(** At the cap 1 the trim drops nothing: it puts the first message in
    front of the whole history. *)
Lemma trim_cap_one (first : Message) (rest : list Message) :
  rest <> [] -> trim 1 (first :: rest) = first :: first :: rest.
Proof.
  intros Hrest. unfold trim.
  destruct (len (first :: rest) >? 1) eqn:Hgt.
  - change (- (1 - 1)) with (- 0). by rewrite slice_from_zero.
  - zbool. destruct rest; [done|]. unfold len in Hgt. simpl in Hgt. lia.
Qed.

Lemma add_messages_kept (cap : Z) (s : Session) (appends : list Append) :
  2 <= cap -> messages s = [] ->
  messages (add_messages cap s appends) = kept cap (map message_of appends).
Proof.
  intros Hcap Hs.
  induction appends as [|a appends IH] using rev_ind.
  { unfold kept. change (len (map message_of [])) with 0.
    destruct (0 <=? cap) eqn:E; [exact Hs|apply Z.leb_gt in E; lia]. }
  rewrite add_messages_snoc. destruct a as [[[role content] now1] now2].
  unfold add_message. simpl messages. rewrite IH.
  rewrite map_app. simpl map.
  set (all := map message_of appends).
  set (m := message_of (role, content, now1, now2)).
  change {| role := role; content := content; timestamp := now1 |} with m.
  rewrite trim_eq by exact Hcap.
  unfold kept. rewrite !len_app. change (len [m]) with 1.
  destruct (len all <=? cap) eqn:Hle.
  - destruct (len all + 1 >? cap) eqn:Hgt;
      destruct (len all + 1 <=? cap) eqn:Hle2;
      try reflexivity; zbool; lia.
  - destruct (len all + 1 <=? cap) eqn:Hle2; [zbool; lia|]. zbool.
    destruct all as [|first rest] eqn:Hall;
      [unfold len in Hle; simpl in Hle; lia|].
    rewrite <- Hall in *.
    assert (Htake : take 1 all = [first]) by (by rewrite Hall).
    assert (Htake' : take 1 (all ++ [m]) = [first]) by (by rewrite Hall).
    rewrite Htake, Htake'.
    set (tail := drop (Z.to_nat (len all - (cap - 1))) all).
    assert (Htl : len tail = cap - 1).
    { unfold tail, len. rewrite length_drop. unfold len in *. lia. }
    rewrite !len_app. change (len [first]) with 1. rewrite !Htl.
    destruct (1 + (cap - 1) + 1 >? cap) eqn:Hgt; [|zbool; lia].
    replace (Z.to_nat (1 + (cap - 1) + 1 - (cap - 1))) with 2%nat by lia.
    change (([first] ++ tail) ++ [m]) with (first :: (tail ++ [m])).
    change (take 1 (first :: tail ++ [m])) with [first].
    change (drop 2 (first :: tail ++ [m])) with (drop 1 (tail ++ [m])).
    f_equal.
    rewrite drop_app_le by (unfold len in Htl; lia).
    rewrite (drop_app_le all) by (unfold len in *; lia).
    f_equal. unfold tail. rewrite drop_drop. f_equal. unfold len in *. lia.
Qed.

(** [a > b] on clock readings, as a proposition. *)
Lemma Qgtb_spec (a b : Q) : Qgtb a b = true <-> (b < a)%Q.
Proof.
  unfold Qgtb. rewrite negb_true_iff. split.
  - intros H. apply Qnot_le_lt. intros Hle.
    apply Qle_bool_iff in Hle. congruence.
  - intros Hlt. destruct (Qle_bool a b) eqn:E; [|reflexivity].
    apply Qle_bool_iff in E. exfalso. by apply (Qlt_not_le _ _ Hlt).
Qed.

End SessionFacts.

(** The trim invariant for a cap of at least two: once more than [cap]
    messages have been appended to a new session, the history has exactly
    [cap] messages, starts with the first message ever appended, and ends
    with the last [cap - 1] appended, in order. *)
Theorem add_messages_trim_invariant (cap : Z)
    (sessions : gmap string SessionMemory.Session) (session_id : string)
    (now : Q) (appends : list SessionMemory.Append) :
  2 <= cap -> cap < len appends ->
  let session :=
    SessionMemory.add_messages cap
      (fst (SessionMemory.create_session sessions session_id now)) appends in
  let all := map SessionMemory.message_of appends in
  len (SessionMemory.messages session) = cap /\
  head (SessionMemory.messages session) = head all /\
  drop 1 (SessionMemory.messages session)
  = drop (Z.to_nat (len all - (cap - 1))) all.
Proof.
  intros Hcap Hlen session all. unfold session.
  rewrite SessionFacts.add_messages_kept by (exact Hcap || reflexivity).
  fold all. unfold SessionMemory.kept.
  assert (Hall : len all = len appends)
    by (unfold all, len; by rewrite length_map).
  clearbody all.
  destruct (len all <=? cap) eqn:Hle; zbool; [lia|].
  destruct all as [|first rest] eqn:E;
    [unfold len in *; simpl in Hall; lia|].
  rewrite <- E in *. replace (take 1 all) with [first] by (by rewrite E).
  repeat split.
  - rewrite SessionFacts.len_app. unfold len at 2. rewrite length_drop.
    unfold len in *. simpl length. lia.
  - by rewrite E.
Qed.

Lemma add_messages_trim_invariant_witness :
  let session :=
    SessionMemory.add_messages 2
      (fst (SessionMemory.create_session ∅ "s" 0))
      [("user", "one", 0%Q, 0%Q); ("assistant", "two", 1%Q, 1%Q);
       ("user", "three", 2%Q, 2%Q)] in
  len (SessionMemory.messages session) = 2.
Proof.
  apply (add_messages_trim_invariant 2 ∅ "s" 0
           [("user", "one", 0%Q, 0%Q); ("assistant", "two", 1%Q, 1%Q);
            ("user", "three", 2%Q, 2%Q)]); [lia|reflexivity].
Defined.

(** C2, at the cap 1: the slice [messages[-(1-1):]] is the whole history,
    so nothing is dropped and the first message is put in front once more;
    after two appends the history has three messages. *)
Theorem add_message_cap_one_keeps_everything :
  let first :=
    {| SessionMemory.role := "user"; SessionMemory.content := "first";
       SessionMemory.timestamp := 0 |} in
  let second :=
    {| SessionMemory.role := "assistant"; SessionMemory.content := "second";
       SessionMemory.timestamp := 1 |} in
  let session :=
    SessionMemory.add_messages 1
      (fst (SessionMemory.create_session ∅ "s" 0))
      [("user", "first", 0%Q, 0%Q); ("assistant", "second", 1%Q, 1%Q)] in
  SessionMemory.messages session = [first; first; second] /\
  len (SessionMemory.messages session) <> 1.
Proof. split; [reflexivity|discriminate]. Qed.

(** C6: a session whose [last_activity] lies more than the timeout before
    the reading of the clock is expired; [get_session] deletes it and
    returns nothing; and [get_or_create_session] returns and stores a new
    session with the same identifier and no messages. *)
Theorem expired_session_is_replaced
    (timeout : Z) (sessions : gmap string SessionMemory.Session)
    (session_id : string) (s : SessionMemory.Session)
    (now_get now_create : Q) :
  sessions !! session_id = Some s ->
  (inject_Z timeout < now_get - SessionMemory.last_activity s)%Q ->
  SessionMemory.is_expired timeout s now_get = true /\
  SessionMemory.get_session timeout sessions session_id now_get
  = (None, delete session_id sessions) /\
  delete session_id sessions !! session_id = None /\
  let fresh :=
    {| SessionMemory.session_id := session_id;
       SessionMemory.messages := [];
       SessionMemory.created_at := now_create;
       SessionMemory.last_activity := now_create |} in
  SessionMemory.get_or_create_session timeout sessions session_id
    now_get now_create
  = (fresh, <[session_id := fresh]> sessions).
Proof.
  intros Hs Hold.
  assert (Hexp : SessionMemory.is_expired timeout s now_get = true)
    by (by apply SessionFacts.Qgtb_spec).
  assert (Hget : SessionMemory.get_session timeout sessions session_id now_get
                 = (None, delete session_id sessions)).
  { unfold SessionMemory.get_session, SessionMemory.remove_session.
    by rewrite Hs, Hexp. }
  repeat split; [exact Hexp|exact Hget|apply lookup_delete_eq|].
  unfold SessionMemory.get_or_create_session. rewrite Hget.
  unfold SessionMemory.create_session. by rewrite insert_delete_eq.
Qed.

Lemma expired_session_is_replaced_witness :
  let old :=
    {| SessionMemory.session_id := "s1";
       SessionMemory.messages :=
         [{| SessionMemory.role := "user"; SessionMemory.content := "hi";
             SessionMemory.timestamp := 0 |}];
       SessionMemory.created_at := 0;
       SessionMemory.last_activity := 0 |} in
  let fresh :=
    {| SessionMemory.session_id := "s1";
       SessionMemory.messages := [];
       SessionMemory.created_at := 4001 # 1;
       SessionMemory.last_activity := 4001 # 1 |} in
  SessionMemory.get_or_create_session 3600 {["s1" := old]} "s1"
    (4000 # 1) (4001 # 1)
  = (fresh, <["s1" := fresh]> {["s1" := old]}).
Proof.
  intros old fresh.
  apply (expired_session_is_replaced 3600 {["s1" := old]} "s1" old
           (4000 # 1) (4001 # 1)).
  - apply lookup_singleton_eq.
  - reflexivity.
Defined.

(** ** Rounding to a floating-point format *)

Module FloatFacts.

Import Float.























Section Similarity.

Variable fmt : format.
Hypothesis prec_pos : 1 <= prec fmt.
Hypothesis emin_neg : emin fmt <= 0.






End Similarity.

End FloatFacts.

(** ** The vector store *)

Module VectorFacts.

Import Faiss VectorStore.

(** *** The score *)




(** *** The index *)




Lemma insert_hit_In (h h' : Q * Z) (l : list (Q * Z)) :
  In h' (insert_hit h l) -> h' = h \/ In h' l.
Proof.
  induction l as [|a l IH]; simpl.
  - intros [<-|[]]. by left.
  - destruct (Qle_bool h.1 a.1); simpl.
    + intros [<-|H]; [by left|by right].
    + intros [<-|H]; [right; by left|].
      destruct (IH H) as [->|H']; [by left|right; by right].
Qed.

Lemma sort_hits_In (h : Q * Z) (l : list (Q * Z)) :
  In h (sort_hits l) -> In h l.
Proof.
  induction l as [|a l IH]; simpl; [tauto|].
  intros H. apply insert_hit_In in H as [->|H]; [by left|right; by apply IH].
Qed.

Lemma search_row_In (ix : IndexFlatL2) (k : nat) (x : list Q) (hit : Q * Z) :
  In hit (search_row ix k x) ->
  genuine ix x hit \/ hit = (FLT_MAX, -1).
Proof.
  unfold search_row. cbv zeta. intros H. apply in_app_or in H as [H|H].
  - left. apply list_elem_of_In, elem_of_take in H as (i & H & _).
    apply list_elem_of_lookup_2, list_elem_of_In, sort_hits_In in H.
    apply list_elem_of_In in H. unfold hits in H.
    apply elem_of_lookup_imap in H as (j & v & -> & Hv).
    by exists j, v.
  - right. apply list_elem_of_In, elem_of_replicate in H. tauto.
Qed.

Lemma insert_hit_length (h : Q * Z) (l : list (Q * Z)) :
  length (insert_hit h l) = S (length l).
Proof.
  induction l as [|a l IH]; simpl; [reflexivity|].
  destruct (Qle_bool h.1 a.1); simpl; by rewrite ?IH.
Qed.

Lemma sort_hits_length (l : list (Q * Z)) :
  length (sort_hits l) = length l.
Proof.
  induction l as [|a l IH]; simpl; [reflexivity|].
  by rewrite insert_hit_length, IH.
Qed.

Lemma hits_length (ix : IndexFlatL2) (x : list Q) :
  length (hits ix x) = length (xb ix).
Proof. unfold hits. apply length_imap. Qed.


Lemma search_row_length (ix : IndexFlatL2) (k : nat) (x : list Q) :
  length (search_row ix k x) = k.
Proof.
  unfold search_row. cbv zeta. rewrite length_app, length_replicate.
  rewrite length_take. lia.
Qed.

(** *** The result loop *)

Lemma collect_length (docs : list Chunk) (row : list (Q * Z))
    (acc rs : list SearchResult) :
  collect docs row acc = Ok rs ->
  (length rs <= length acc + length row)%nat.
Proof.
  revert acc. induction row as [|[dist idx] row IH]; intros acc; simpl.
  - intros [= <-]. lia.
  - destruct (idx <? len docs).
    + destruct (getitem docs idx); simpl; [|discriminate].
      intros H. apply IH in H. rewrite length_app in H. simpl in H. lia.
    + intros H. apply IH in H. lia.
Qed.


Lemma getitem_ok {A} (l : list A) (i : Z) :
  - len l <= i < len l -> exists a, getitem l i = Ok a.
Proof.
  intros Hi. unfold getitem. cbv zeta.
  set (j := if i <? 0 then i + len l else i).
  assert (Hj : 0 <= j < len l) by (unfold j; destruct (i <? 0) eqn:E; zbool; lia).
  destruct (0 <=? j) eqn:E1; zbool; [|lia].
  destruct (j <? len l) eqn:E2; zbool; [|lia]. simpl.
  destruct (lookup_lt_is_Some_2 l (Z.to_nat j)) as [a Ha];
    [unfold len in *; lia|].
  rewrite Ha. eauto.
Qed.

(** The loop does not raise on labels from [-1] up, the list of documents
    not being empty. *)
Lemma collect_ok (docs : list Chunk) (row : list (Q * Z))
    (acc : list SearchResult) :
  0 < len docs ->
  Forall (fun hit => -1 <= snd hit) row ->
  exists rs, collect docs row acc = Ok rs.
Proof.
  intros Hdocs Hrow. revert acc.
  induction Hrow as [|[dist idx] row Hidx Hrow IH]; intros acc; simpl;
    [eauto|].
  destruct (idx <? len docs) eqn:E; [|apply IH]. zbool.
  destruct (getitem_ok docs idx) as [a Ha]; [simpl in Hidx; lia|].
  rewrite Ha. simpl. apply IH.
Qed.

Section WithEmbedder.

Variable document_embedder : Embedded.DocumentEmbedder.

(** What a search that returns has gone through. *)
Lemma search_Ok (self : t) (query : string) (k : Z)
    (rs : list SearchResult) :
  search document_embedder self query k = Ok rs ->
  rs = [] \/
  exists ix qv rest,
    index self = Some ix /\
    Embedded.embed_texts document_embedder [query] = qv :: rest /\
    0 < Z.min k (len (documents self)) /\
    collect (documents self)
      (search_row ix (Z.to_nat (Z.min k (len (documents self)))) qv) []
    = Ok rs.
Proof.
  unfold search.
  destruct (index self) as [ix|]; [|intros [= <-]; by left].
  destruct (len (documents self) =? 0); [intros [= <-]; by left|].
  destruct (Embedded.embed_texts document_embedder [query]) as [|qv rest]
    eqn:Hq; [intros [= <-]; by left|].
  replace (len (qv :: rest) =? 0) with false
    by (symmetry; apply Z.eqb_neq; unfold len; simpl length; lia).
  unfold Faiss.search.
  destruct (negb (has_dim (d ix) (qv :: rest))); [discriminate|].
  destruct (0 <? Z.min k (len (documents self))) eqn:Hk; [|discriminate].
  zbool. simpl negb. cbv iota. simpl bind.
  rewrite zip_fst_snd. intros H. right. by exists ix, qv, rest.
Qed.

End WithEmbedder.

End VectorFacts.

(** C3, as amended: [load] reports success exactly when the vector artifact
    can be read and the metadata artifact is absent or can be read.  When
    the metadata artifact is absent, the store gets the index read from
    disk and keeps the documents and the dimension it had; when both are
    read, it gets the index, the documents and the dimension from disk.
    The number of chunks is not compared with the number of vectors. *)
Theorem load_succeeds_iff_artifacts_readable
    (self : VectorStore.t) (disk : VectorStore.Disk) :
  (fst (VectorStore.load self disk) = true <->
   exists ix,
     VectorStore.index_file disk = Some (Ok ix) /\
     (VectorStore.metadata_file disk = None \/
      exists md, VectorStore.metadata_file disk = Some (Ok md))) /\
  (forall ix,
     VectorStore.index_file disk = Some (Ok ix) ->
     VectorStore.metadata_file disk = None ->
     VectorStore.load self disk
     = (true, {| VectorStore.index := Some ix;
                 VectorStore.documents := VectorStore.documents self;
                 VectorStore.dimension := VectorStore.dimension self |})) /\
  (forall ix md,
     VectorStore.index_file disk = Some (Ok ix) ->
     VectorStore.metadata_file disk = Some (Ok md) ->
     VectorStore.load self disk
     = (true, {| VectorStore.index := Some ix;
                 VectorStore.documents := VectorStore.md_documents md;
                 VectorStore.dimension := VectorStore.md_dimension md |})).
Proof.
  unfold VectorStore.load. split; [|split].
  - destruct (VectorStore.index_file disk) as [[ix|e]|]; simpl.
    + destruct (VectorStore.metadata_file disk) as [[md|e]|]; simpl; split.
      * intros _. exists ix. split; [reflexivity|]. right. by exists md.
      * reflexivity.
      * discriminate.
      * intros (ix' & _ & [H|[md H]]); discriminate.
      * intros _. exists ix. split; [reflexivity|]. by left.
      * reflexivity.
    + split; [discriminate|]. intros (ix & H & _). discriminate.
    + split; [discriminate|]. intros (ix & H & _). discriminate.
  - intros ix -> ->. reflexivity.
  - intros ix md -> ->. reflexivity.
Qed.

Lemma load_succeeds_iff_artifacts_readable_witness :
  VectorStore.load VectorStore.init Sample.disk_without_metadata
  = (true, {| VectorStore.index := Some Sample.flat_index;
              VectorStore.documents := [];
              VectorStore.dimension := None |}).
Proof.
  apply (load_succeeds_iff_artifacts_readable VectorStore.init
           Sample.disk_without_metadata); reflexivity.
Defined.

(** C3, as stated, fails: with the vector artifact on disk and no metadata
    artifact, [load] on a new store reports success, and the store then
    holds two vectors and no chunk. *)
Lemma load_succeeds_without_metadata :
  VectorStore.index_file Sample.disk_without_metadata
  = Some (Ok Sample.flat_index) /\
  VectorStore.metadata_file Sample.disk_without_metadata = None /\
  fst (VectorStore.load VectorStore.init Sample.disk_without_metadata)
  = true /\
  VectorStore.vector_count
    (snd (VectorStore.load VectorStore.init Sample.disk_without_metadata))
  = 2 /\
  VectorStore.chunk_count
    (snd (VectorStore.load VectorStore.init Sample.disk_without_metadata))
  = 0.
Proof. repeat split. Qed.

(** C8: a search that returns gives at most [min(k, number of chunks)]
    results; it returns no result when the index is not initialised or
    there is no chunk; and it does return, for every [k >= 1], when the
    embedding of the query has the dimension of the index. *)
Theorem search_returns_at_most_k_results
    (document_embedder : Embedded.DocumentEmbedder) (self : VectorStore.t)
    (query : string) (k : Z) :
  (forall rs,
     VectorStore.search document_embedder self query k = Ok rs ->
     (length rs <= Z.to_nat (Z.min k (len (VectorStore.documents self))))%nat)
  /\
  (VectorStore.index self = None \/ VectorStore.documents self = [] ->
   VectorStore.search document_embedder self query k = Ok []) /\
  (0 < k ->
   (forall ix, VectorStore.index self = Some ix ->
      Faiss.has_dim (Faiss.d ix)
        (Embedded.embed_texts document_embedder [query]) = true) ->
   exists rs, VectorStore.search document_embedder self query k = Ok rs).
Proof.
  split; [|split].
  - intros rs H.
    apply VectorFacts.search_Ok in H as [->|(ix & qv & rest & _ & _ & _ & H)];
      [simpl; lia|].
    apply VectorFacts.collect_length in H.
    rewrite VectorFacts.search_row_length in H. simpl in H. lia.
  - unfold VectorStore.search. intros [->| ->]; [reflexivity|].
    by destruct (VectorStore.index self).
  - intros Hk Hdim. unfold VectorStore.search.
    destruct (VectorStore.index self) as [ix|]; [|eauto].
    destruct (len (VectorStore.documents self) =? 0) eqn:Hn; [eauto|].
    destruct (len (Embedded.embed_texts document_embedder [query]) =? 0)
      eqn:Hq; [eauto|].
    unfold Faiss.search. rewrite (Hdim ix eq_refl). simpl negb. cbv iota.
    zbool.
    assert (Hdocs : 0 < len (VectorStore.documents self))
      by (unfold len in *; lia).
    destruct (0 <? Z.min k (len (VectorStore.documents self))) eqn:Hmin;
      zbool; [|lia].
    simpl negb. cbv iota.
    destruct (Embedded.embed_texts document_embedder [query]) as [|qv rest];
      [done|].
    simpl bind. rewrite zip_fst_snd.
    apply VectorFacts.collect_ok; [exact Hdocs|].
    apply Forall_forall. intros hit Hhit. apply list_elem_of_In in Hhit.
    apply VectorFacts.search_row_In in Hhit as [(i & v & _ & ->)| ->];
      simpl; lia.
Qed.

Lemma search_returns_at_most_k_results_witness :
  exists rs,
    VectorStore.search Sample.embedder Sample.store "reset my password" 5
    = Ok rs /\
    (length rs <= 2)%nat.
Proof.
  destruct (search_returns_at_most_k_results Sample.embedder Sample.store
              "reset my password" 5) as (Hmost & _ & Hret).
  destruct Hret as [rs Hrs]; [lia|intros ix [= <-]; reflexivity|].
  exists rs. split; [exact Hrs|]. apply (Hmost rs Hrs).
Defined.




(** ** The client of the language model *)

Module OllamaFacts.

Import Ollama.

Section WithServer.

Variable post : string -> Payload -> Z -> result Response.

Lemma try_except_total {A} (body : result A) (handler : exn -> A) :
  exists a, try_except body (fun e => Ok (handler e)) = Ok a.
Proof. destruct body; simpl; eauto. Qed.

(** A body that goes through a failing request raises. *)
Lemma request_fails (r : result Response) :
  backend_fails r = true ->
  exists e,
    (let* response := r in
     let* _ := raise_for_status response in
     let* result := json response in
     get_response result) = Raise e.
Proof.
  destruct r as [response|e]; simpl; [|eauto].
  unfold raise_for_status.
  destruct ((400 <=? status_code response) && (status_code response <? 500))
    eqn:H4; simpl; [eauto|].
  destruct ((500 <=? status_code response) && (status_code response <? 600))
    eqn:H5; simpl; [eauto|].
  intros H. apply orb_true_iff in H as [H|H].
  - exfalso. apply andb_true_iff in H as [Hlo Hhi].
    apply andb_false_iff in H4, H5. zbool.
    destruct H4 as [H4|H4], H5 as [H5|H5]; zbool; lia.
  - destruct (json response) as [[resp|]|e]; simpl; (discriminate || eauto).
Qed.

End WithServer.

End OllamaFacts.

(** C10: [chat] and [generate] return a string for every input and every
    behaviour of the HTTP backend, and never raise.  Whatever exception the
    body raises is turned into a string that starts with [Error:]; and the
    body does raise when the request raises, when the status is an error
    status, and when the answer is not a JSON object. *)
Theorem chat_and_generate_never_raise
    (post : string -> Ollama.Payload -> Z -> result Ollama.Response)
    (self : Ollama.OllamaClient) (messages : list (string * string))
    (prompt : string) (system_prompt : option string) (temperature : Q)
    (max_tokens : option Z) :
  (exists s, Ollama.chat post self messages temperature = Ok s) /\
  (exists s,
     Ollama.generate post self prompt system_prompt temperature max_tokens
     = Ok s) /\
  (forall e,
     Ollama.chat_body post self messages temperature = Raise e ->
     Ollama.chat post self messages temperature
     = Ok ("Error: Unable to chat - " +:+ exn_str e)) /\
  (forall e,
     Ollama.generate_body post self prompt system_prompt temperature
       max_tokens = Raise e ->
     Ollama.generate post self prompt system_prompt temperature max_tokens
     = Ok ("Error: Unable to generate response - " +:+ exn_str e)) /\
  ((forall url payload timeout,
      Ollama.backend_fails (post url payload timeout) = true) ->
   exists s1 s2,
     Ollama.chat post self messages temperature = Ok s1 /\
     startswith "Error:" s1 = true /\
     Ollama.generate post self prompt system_prompt temperature max_tokens
     = Ok s2 /\
     startswith "Error:" s2 = true).
Proof.
  repeat split.
  - apply OllamaFacts.try_except_total.
  - apply OllamaFacts.try_except_total.
  - intros e H. unfold Ollama.chat. by rewrite H.
  - intros e H. unfold Ollama.generate. by rewrite H.
  - intros Hfail. unfold Ollama.chat, Ollama.generate,
      Ollama.chat_body, Ollama.generate_body. cbv zeta.
    match goal with
    | |- context [try_except (bind (post ?u ?p ?t) _)] =>
        destruct (OllamaFacts.request_fails (post u p t) (Hfail u p t))
          as [e1 ->]
    end.
    match goal with
    | |- context [try_except (bind (post ?u ?p ?t) _)] =>
        destruct (OllamaFacts.request_fails (post u p t) (Hfail u p t))
          as [e2 ->]
    end.
    simpl. eexists _, _. repeat split.
Qed.

Lemma chat_and_generate_never_raise_witness :
  exists s1 s2,
    Ollama.chat (fun _ _ _ => Raise (Exn "ConnectionError" "refused"))
      {| Ollama.base_url := "http://localhost:11434";
         Ollama.model := Some "llama3"; Ollama.timeout := 30 |}
      [("system", "be brief"); ("user", "hello")] (7 # 10) = Ok s1 /\
    startswith "Error:" s1 = true /\
    Ollama.generate (fun _ _ _ => Raise (Exn "ConnectionError" "refused"))
      {| Ollama.base_url := "http://localhost:11434";
         Ollama.model := Some "llama3"; Ollama.timeout := 30 |}
      "hello" None (7 # 10) None = Ok s2 /\
    startswith "Error:" s2 = true.
Proof.
  apply (chat_and_generate_never_raise
           (fun _ _ _ => Raise (Exn "ConnectionError" "refused"))).
  intros url payload timeout. reflexivity.
Defined.

(** ** Tool-call extraction *)

Module ExtractFacts.

Import PyFacts App.

Lemma append_assoc (a b c : string) : (a +:+ b) +:+ c = a +:+ (b +:+ c).
Proof.
  induction a as [|x a IH]; [reflexivity|].
  rewrite !append_cons. by rewrite IH.
Qed.

Lemma length_append (a b : string) :
  String.length (a +:+ b) = (String.length a + String.length b)%nat.
Proof.
  induction a as [|x a IH]; [reflexivity|].
  rewrite append_cons. simpl. by rewrite IH.
Qed.

Lemma startswith_app (a b s : string) :
  startswith (a +:+ b) s
  = startswith a s && startswith b (str_drop (String.length a) s).
Proof.
  revert s. induction a as [|x a IH]; intros s.
  - change (EmptyString +:+ b) with b. by destruct b, s.
  - rewrite append_cons. destruct s as [|y s]; [reflexivity|].
    simpl. destruct (ascii_dec x y); [apply IH|reflexivity].
Qed.

Lemma until_rparen_startswith (s g : string) :
  until_rparen s = Some g -> startswith (g +:+ str1 rparen) s = true.
Proof.
  revert g. induction s as [|c s IH]; intros g; simpl; [discriminate|].
  case_bool_decide as Hc.
  - intros [= <-]. subst c. simpl. by destruct (ascii_dec rparen rparen).
  - destruct (until_rparen s) as [g'|]; simpl; [|discriminate].
    intros [= <-]. rewrite append_cons. simpl.
    destruct (ascii_dec c c); [by apply IH|done].
Qed.

(** A match found by the scan is an occurrence of the call syntax. *)
Lemma match_occurrence (name s g : string) :
  startswith (name +:+ "(") s = true ->
  until_rparen (str_drop (String.length name + 1) s) = Some g ->
  startswith (name +:+ "(" +:+ g +:+ str1 rparen) s = true.
Proof.
  intros Hname Hg.
  rewrite <- append_assoc, startswith_app, Hname, length_append.
  simpl. by apply until_rparen_startswith.
Qed.

Lemma finditer_go_occurrence (name : string) (s : string) :
  forall (pos skip p : nat) (g : string),
    In (p, g) (finditer_go name pos skip s) ->
    (pos <= p)%nat /\
    startswith (name +:+ "(" +:+ g +:+ str1 rparen) (str_drop (p - pos) s)
    = true.
Proof.
  induction s as [|c s IH]; intros pos skip p g; simpl; [tauto|].
  assert (Hnext : forall skip',
            In (p, g) (finditer_go name (S pos) skip' s) ->
            (pos <= p)%nat /\
            startswith (name +:+ "(" +:+ g +:+ str1 rparen)
              (str_drop (p - pos) (String c s)) = true).
  { intros skip' H. apply IH in H as [Hle H]. split; [lia|].
    replace (p - pos)%nat with (S (p - S pos)) by lia. exact H. }
  destruct skip as [|skip]; [|apply Hnext].
  destruct (startswith (name +:+ "(") (String c s)) eqn:Hname; [|apply Hnext].
  destruct (until_rparen (str_drop (String.length name + 1) (String c s)))
    as [g'|] eqn:Hg; [|apply Hnext].
  intros [[= <- <-]|H]; [|by apply (Hnext _ H)].
  split; [lia|]. rewrite Nat.sub_diag. by apply match_occurrence.
Qed.

Lemma finditer_go_sorted (name : string) (s : string) :
  forall (pos skip : nat),
    Forall (fun p => (pos <= p)%nat) (map fst (finditer_go name pos skip s)) /\
    StronglySorted lt (map fst (finditer_go name pos skip s)).
Proof.
  induction s as [|c s IH]; intros pos skip; simpl;
    [split; constructor|].
  assert (Hnext : forall skip',
            Forall (fun p => (pos <= p)%nat)
              (map fst (finditer_go name (S pos) skip' s)) /\
            StronglySorted lt (map fst (finditer_go name (S pos) skip' s))).
  { intros skip'. destruct (IH (S pos) skip') as [Hge Hs].
    split; [|exact Hs]. eapply Forall_impl; [exact Hge|]. simpl. lia. }
  destruct skip as [|skip]; [|apply Hnext].
  destruct (startswith (name +:+ "(") (String c s)); [|apply Hnext].
  destruct (until_rparen (str_drop (String.length name + 1) (String c s)));
    [|apply Hnext].
  simpl. destruct (IH (S pos)
    (String.length name + 1 + String.length s0)%nat) as [Hge Hs].
  split.
  - constructor; [lia|]. eapply Forall_impl; [exact Hge|]. simpl. lia.
  - constructor; [exact Hs|]. eapply Forall_impl; [exact Hge|]. simpl. lia.
Qed.

(** The calls extracted for one pattern all carry its tool name. *)
Lemma calls_of_tool (name response : string) :
  Forall (fun c => tool c = name) (calls_of name response).
Proof. unfold calls_of. apply Forall_map, Forall_forall. auto. Qed.

Lemma filter_same (name : string) (calls : list ToolCall) :
  Forall (fun c => tool c = name) calls ->
  List.filter (fun c => String.eqb (tool c) name) calls = calls.
Proof.
  induction 1 as [|c calls Hc _ IH]; [reflexivity|].
  simpl. rewrite Hc, String.eqb_refl. by rewrite IH.
Qed.

Lemma filter_other (name name' : string) (calls : list ToolCall) :
  name' <> name ->
  Forall (fun c => tool c = name') calls ->
  List.filter (fun c => String.eqb (tool c) name) calls = [].
Proof.
  intros Hne. induction 1 as [|c calls Hc _ IH]; [reflexivity|].
  simpl. rewrite Hc. apply String.eqb_neq in Hne. by rewrite Hne.
Qed.

Lemma calls_of_finditer (name response : string) :
  calls_of name response
  = map (fun m => {| tool := name; args := parse_args (snd m) |})
        (finditer name response).
Proof. unfold calls_of, findall. by rewrite map_map. Qed.

Lemma extract_tool_calls_blocks (response : string) :
  extract_tool_calls response
  = calls_of "create_ticket" response
      ++ calls_of "check_order_status" response
      ++ calls_of "search_knowledge_base" response.
Proof. unfold extract_tool_calls. simpl. by rewrite app_nil_r. Qed.

End ExtractFacts.

(** C7: the extracted calls come in three blocks, in the order of the
    pattern list: the calls of [create_ticket], then those of
    [check_order_status], then those of [search_knowledge_base].  So every
    [create_ticket] call stands before every [check_order_status] call,
    wherever they are in the text.  The calls of one tool are the matches
    of its pattern from left to right: their offsets in the text increase
    strictly, and at each offset the text reads [name(group)]. *)
Theorem extract_tool_calls_grouped_by_tool (response : string) :
  App.extract_tool_calls response
  = App.calls_of "create_ticket" response
      ++ App.calls_of "check_order_status" response
      ++ App.calls_of "search_knowledge_base" response /\
  (forall (i j : nat) (ci cj : App.ToolCall),
     App.extract_tool_calls response !! i = Some ci ->
     App.extract_tool_calls response !! j = Some cj ->
     App.tool ci = "create_ticket" ->
     App.tool cj = "check_order_status" ->
     (i < j)%nat) /\
  (forall name, In name App.tool_names ->
     List.filter (fun c => String.eqb (App.tool c) name)
       (App.extract_tool_calls response)
     = map (fun m => {| App.tool := name;
                        App.args := App.parse_args (snd m) |})
           (App.finditer name response) /\
     StronglySorted lt (map fst (App.finditer name response)) /\
     Forall (fun m =>
               startswith
                 (name +:+ "(" +:+ snd m +:+ str1 App.rparen)
                 (str_drop (fst m) response) = true)
            (App.finditer name response)).
Proof.
  pose proof (ExtractFacts.calls_of_tool "create_ticket" response) as H1.
  pose proof (ExtractFacts.calls_of_tool "check_order_status" response) as H2.
  pose proof (ExtractFacts.calls_of_tool "search_knowledge_base" response)
    as H3.
  rewrite ExtractFacts.extract_tool_calls_blocks.
  split; [reflexivity|]. split.
  - intros i j ci cj Hi Hj Hci Hcj.
    destruct (Nat.lt_ge_cases i
                (length (App.calls_of "create_ticket" response)))
      as [Hlt|Hge].
    + destruct (Nat.lt_ge_cases j
                  (length (App.calls_of "create_ticket" response)))
        as [Hlt'|Hge']; [|lia].
      rewrite lookup_app_l in Hj by exact Hlt'.
      apply (Forall_lookup_1 _ _ _ _ H1) in Hj. congruence.
    + rewrite lookup_app_r in Hi by exact Hge.
      apply list_elem_of_lookup_2, elem_of_app in Hi as [Hi|Hi].
      * apply (proj1 (Forall_forall _ _) H2) in Hi. congruence.
      * apply (proj1 (Forall_forall _ _) H3) in Hi. congruence.
  - intros name Hname. split; [|split].
    + rewrite !List.filter_app.
      destruct Hname as [<-|[<-|[<-|[]]]].
      * rewrite (ExtractFacts.filter_same _ _ H1).
        rewrite (ExtractFacts.filter_other "create_ticket"
                   "check_order_status" _ ltac:(discriminate) H2).
        rewrite (ExtractFacts.filter_other "create_ticket"
                   "search_knowledge_base" _ ltac:(discriminate) H3).
        rewrite !app_nil_r. apply ExtractFacts.calls_of_finditer.
      * rewrite (ExtractFacts.filter_same _ _ H2).
        rewrite (ExtractFacts.filter_other "check_order_status"
                   "create_ticket" _ ltac:(discriminate) H1).
        rewrite (ExtractFacts.filter_other "check_order_status"
                   "search_knowledge_base" _ ltac:(discriminate) H3).
        rewrite app_nil_r. apply ExtractFacts.calls_of_finditer.
      * rewrite (ExtractFacts.filter_same _ _ H3).
        rewrite (ExtractFacts.filter_other "search_knowledge_base"
                   "create_ticket" _ ltac:(discriminate) H1).
        rewrite (ExtractFacts.filter_other "search_knowledge_base"
                   "check_order_status" _ ltac:(discriminate) H2).
        apply ExtractFacts.calls_of_finditer.
    + apply ExtractFacts.finditer_go_sorted.
    + apply Forall_forall. intros [p g] Hm. apply list_elem_of_In in Hm.
      apply ExtractFacts.finditer_go_occurrence in Hm as [_ Hm].
      rewrite Nat.sub_0_r in Hm. exact Hm.
Qed.

Lemma extract_tool_calls_grouped_by_tool_witness :
  exists ci cj,
    App.extract_tool_calls Sample.reply_with_two_calls !! 0%nat = Some ci /\
    App.extract_tool_calls Sample.reply_with_two_calls !! 1%nat = Some cj /\
    App.tool ci = "create_ticket" /\
    App.tool cj = "check_order_status" /\
    (0 < 1)%nat /\
    App.finditer "create_ticket" Sample.reply_with_two_calls
    = [(51%nat, "description='printer jam', priority='high'")] /\
    App.finditer "check_order_status" Sample.reply_with_two_calls
    = [(6%nat, "order_id='ORD-001'")].
Proof.
  exists {| App.tool := "create_ticket";
            App.args := <["priority" := "high"]>
                          (<["description" := "printer jam"]> ∅) |},
         {| App.tool := "check_order_status";
            App.args := <["order_id" := "ORD-001"]> ∅ |}.
  repeat split.
  eapply (proj1 (proj2 (extract_tool_calls_grouped_by_tool
                          Sample.reply_with_two_calls)) 0%nat 1%nat);
    reflexivity.
Defined.

(** ** The orchestrator *)

Module AppFacts.

Import App.

Section WithServices.

Variable config : Config.t.
Variable ollama_client : Ollama.OllamaClient.
Variable post : string -> Ollama.Payload -> Z -> result Ollama.Response.
Variable document_embedder : Embedded.DocumentEmbedder.
Variable clock : nat -> Q.
Variables ToolState Order : Type.
Variable ticket_manager_create_ticket :
  string -> string -> string -> ToolState -> result Ticket * ToolState.
Variable order_manager_get_order :
  string -> ToolState -> result (option Order).
Variable order_manager_format_order_status : Order -> result string.

(** The backend raises on every request. *)
Hypothesis post_raises : forall url payload timeout,
  exists e, post url payload timeout = Raise e.

(** [chat] then returns the error text, and does not raise. *)
Lemma chat_error (messages : list (string * string)) :
  exists e,
    chat ollama_client post messages
    = Ok ("Error: Unable to chat - " +:+ exn_str e).
Proof.
  unfold chat, Ollama.chat, Ollama.chat_body. cbv zeta.
  match goal with
  | |- context [post ?u ?p ?t] => destruct (post_raises u p t) as [e ->]
  end.
  by exists e.
Qed.

Lemma finish_reply (session_id response : string) (w : World ToolState) :
  fst (finish config clock ToolState session_id response w) = Ok response.
Proof. reflexivity. Qed.

(** With such a backend every turn ends with the message for technical
    difficulties or with the error text of [chat]: the canned replies of
    the fallback responder are out of reach. *)
Lemma generate_response_error_text (session_id user_message : string)
    (w : World ToolState) :
  let reply :=
    fst (generate_response config ollama_client post document_embedder clock
           ToolState Order ticket_manager_create_ticket
           order_manager_get_order order_manager_format_order_status
           session_id user_message w) in
  reply = Prompts.model_error \/
  exists e, reply = "Error: Unable to chat - " +:+ exn_str e.
Proof.
  cbv zeta. unfold generate_response, generate_response_body, mbind.
  destruct (get_or_create_session config clock ToolState session_id w)
    as [[[]|e0] w1]; [|by left].
  destruct (add_message config clock ToolState session_id "user"
              user_message w1) as [[[]|e1] w2]; [|by left].
  destruct (search config document_embedder ToolState user_message w2)
    as [[context_docs|e2] w3]; [|by left].
  destruct (get_recent_messages ToolState session_id 10 w3)
    as [[recent|e3] w4]; [|by left].
  match goal with
  | |- context [chat ollama_client post ?m] =>
      destruct (chat_error m) as [e ->]
  end.
  destruct (extract_tool_calls _) as [|call calls].
  { right. exists e.
    match goal with
    | |- context [finish ?c ?k ?T ?s ?r ?w] =>
        pose proof (finish_reply s r w) as Hf;
        destruct (finish c k T s r w) as [[r'|e'] w']
    end; simpl in *; congruence. }
  match goal with
  | |- context [mapM ?T ?f ?l ?w] =>
      destruct (mapM T f l w) as [[results|e4] w5]; [|by left]
  end.
  destruct results as [|result results].
  { right. exists e.
    match goal with
    | |- context [finish ?c ?k ?T ?s ?r ?w] =>
        pose proof (finish_reply s r w) as Hf;
        destruct (finish c k T s r w) as [[r'|e'] w']
    end; simpl in *; congruence. }
  match goal with
  | |- context [chat ollama_client post ?m] =>
      destruct (chat_error m) as [e' ->]
  end.
  right. exists e'.
  match goal with
  | |- context [finish ?c ?k ?T ?s ?r ?w] =>
      pose proof (finish_reply s r w) as Hf;
      destruct (finish c k T s r w) as [[r'|e''] w']
  end; simpl in *; congruence.
Qed.

End WithServices.

End AppFacts.

(** With a backend that raises on every request, no turn is answered with
    the greeting of the fallback responder, whatever the message. *)
Theorem generate_response_never_greets_when_backend_raises
    (config : Config.t) (ollama_client : Ollama.OllamaClient)
    (post : string -> Ollama.Payload -> Z -> result Ollama.Response)
    (document_embedder : Embedded.DocumentEmbedder) (clock : nat -> Q)
    (ToolState Order : Type)
    (create_ticket :
       string -> string -> string -> ToolState -> result App.Ticket * ToolState)
    (get_order : string -> ToolState -> result (option Order))
    (format_order_status : Order -> result string)
    (session_id user_message : string) (w : App.World ToolState) :
  (forall url payload timeout, exists e, post url payload timeout = Raise e) ->
  fst (App.generate_response config ollama_client post document_embedder
         clock ToolState Order create_ticket get_order format_order_status
         session_id user_message w)
  <> App.GREETING.
Proof.
  intros Hpost.
  destruct (AppFacts.generate_response_error_text config ollama_client post
              document_embedder clock ToolState Order create_ticket
              get_order format_order_status Hpost session_id user_message w)
    as [->|[e ->]]; discriminate.
Qed.

Lemma generate_response_never_greets_when_backend_raises_witness :
  Sample.reply_when_backend_fails "session-1" "good morning" <> App.GREETING.
Proof.
  apply (generate_response_never_greets_when_backend_raises Sample.config
           Sample.client Sample.failing_post).
  intros url payload timeout. by eexists.
Defined.

(** C1, at the failing input: the backend raises on every request and the
    user says hello.  [chat] has caught the exception and returned its
    error text, so the orchestrator never gets to its fallback branch: the
    reply is the raw error text, where the fallback responder would have
    given the greeting. *)
Theorem generate_response_returns_error_text_for_hello :
  Sample.reply_when_backend_fails "session-1" "hello"
  = "Error: Unable to chat - connection refused" /\
  App.generate_fallback_response "hello"
    "reset password via settings menu" = App.GREETING /\
  Sample.reply_when_backend_fails "session-1" "hello" <> App.GREETING.
Proof. split; [|split]; [vm_compute; reflexivity..|discriminate]. Qed.

(** * Further properties *)

(** ** The chunker: the shape of the chunks *)

Module ChunkShape.

Import PyFacts ChunkerFacts Embedded.

Lemma slice_length_le {A} (l : list A) (lo size : Z) :
  0 <= lo -> 0 <= size -> len (slice l lo (lo + size)) <= size.
Proof.
  intros Hlo Hsize. rewrite slice_nonneg by lia.
  unfold len. rewrite length_take, length_drop. unfold len. lia.
Qed.

Lemma slice_all {A} (l : list A) (hi : Z) :
  len l <= hi -> slice l 0 hi = l.
Proof.
  intros Hhi.
  assert (H0 : 0 <= len l) by (unfold len; lia).
  rewrite slice_nonneg by lia.
  rewrite (Z.min_l 0), (Z.min_r hi) by lia.
  change (Z.to_nat 0) with 0%nat. rewrite drop_0.
  apply take_ge. unfold len. lia.
Qed.

Lemma slice_nonempty {A} (l : list A) (lo hi : Z) :
  0 <= lo < len l -> lo < hi -> slice l lo hi <> [].
Proof.
  intros Hlo Hhi Hnil.
  destruct (lookup_lt_is_Some_2 l (Z.to_nat lo)) as [x Hx];
    [unfold len in Hlo; lia|].
  pose proof (slice_lookup l lo hi (Z.to_nat lo) x) as Hin.
  rewrite Hnil in Hin. apply Hin; [lia|lia|exact Hx].
Qed.

Lemma chunk_loop_shape (size overlap : Z) (words : list string)
    (P : string -> Prop) :
  0 <= overlap < size ->
  (forall ws, ws <> [] -> len ws <= size ->
     Forall (fun w => is_word w = true) ws -> P (join (str1 space) ws)) ->
  Forall (fun w => is_word w = true) words ->
  forall (fuel : nat) (start : Z) (chunks r : list string),
    0 <= start -> Forall P chunks ->
    chunk_loop fuel size overlap words start chunks = Some r ->
    Forall P r.
Proof.
  intros Hso HP Hwords.
  induction fuel as [|fuel IH]; intros start chunks r Hstart Hacc;
    [discriminate|].
  rewrite chunk_loop_unfold. cbv zeta.
  destruct (start <? len words) eqn:Hlt; [|by intros [= <-]]. zbool.
  set (ws := slice words start (start + size)).
  assert (Hws : Forall (fun w => is_word w = true) ws)
    by (by apply slice_Forall).
  assert (Hne : ws <> []) by (apply slice_nonempty; lia).
  rewrite (strip_join ws Hws), (join_truthy ws Hws Hne).
  assert (Hacc' : Forall P (chunks ++ [join (str1 space) ws])).
  { apply Forall_app. split; [exact Hacc|]. constructor; [|constructor].
    apply HP; [exact Hne| |exact Hws]. apply slice_length_le; lia. }
  destruct (start + size >=? len words); [by intros [= <-]|].
  apply IH; [lia|exact Hacc'].
Qed.

End ChunkShape.

(** X1: with [0 <= overlap < size], every chunk that [chunk_text] returns
    is made of at least one and at most [size] words, joined by single
    spaces with no space around. *)
Theorem chunk_text_chunks_have_at_most_size_words
    (fuel : nat) (size overlap : Z) (text : string) (chunks : list string) :
  0 <= overlap < size ->
  Embedded.chunk_text fuel size overlap text = Some chunks ->
  Forall (fun chunk =>
            1 <= len (split chunk) <= size /\
            join (str1 space) (split chunk) = chunk /\
            strip chunk = chunk)
         chunks.
Proof.
  intros Hso. unfold Embedded.chunk_text.
  destruct (negb (truthy text)); [intros [= <-]; constructor|].
  apply (ChunkShape.chunk_loop_shape size overlap (split text)); try done.
  - intros ws Hne Hlen Hws.
    rewrite (PyFacts.split_join ws Hws), (PyFacts.strip_join ws Hws).
    repeat split; [|exact Hlen].
    destruct ws; [done|]. unfold len. simpl length. lia.
  - apply PyFacts.split_words.
Qed.

Lemma chunk_text_chunks_have_at_most_size_words_witness :
  Forall (fun chunk =>
            1 <= len (split chunk) <= 3 /\
            join (str1 space) (split chunk) = chunk /\
            strip chunk = chunk)
         ["a b c"; "c d e"].
Proof.
  apply (chunk_text_chunks_have_at_most_size_words 5 3 1 "a b  c d e");
    [lia|reflexivity].
Defined.

(** X2: a text of at least one and at most [size] words gives exactly one
    chunk, its words joined by single spaces, whatever the overlap (also
    an overlap that is not below the size). *)
Theorem chunk_text_short_text_is_one_chunk
    (fuel : nat) (size overlap : Z) (text : string) :
  0 < len (split text) <= size ->
  Embedded.chunk_text (S fuel) size overlap text
  = Some [join (str1 space) (split text)].
Proof.
  intros Hlen. unfold Embedded.chunk_text.
  destruct text as [|c text]; [unfold len in Hlen; simpl in Hlen; lia|].
  simpl negb. cbv iota.
  rewrite ChunkerFacts.chunk_loop_unfold. cbv zeta.
  destruct (0 <? len (split (String c text))) eqn:H0; zbool; [|lia].
  rewrite ChunkShape.slice_all by lia.
  pose proof (PyFacts.split_words (String c text)) as Hws.
  rewrite (PyFacts.strip_join _ Hws).
  rewrite (PyFacts.join_truthy _ Hws)
    by (intros E; rewrite E in Hlen; unfold len in Hlen; simpl in Hlen; lia).
  destruct (0 + size >=? len (split (String c text))) eqn:He; zbool;
    [reflexivity|lia].
Qed.

Lemma chunk_text_short_text_is_one_chunk_witness :
  Embedded.chunk_text 1 3 7 "  one two " = Some ["one two"].
Proof.
  apply (chunk_text_short_text_is_one_chunk 0 3 7 "  one two ").
  vm_compute. split; [reflexivity|discriminate].
Defined.

(** ** The vector store: persistence, growth and ranking *)

Module StoreFacts.

Import Faiss VectorStore VectorFacts.


(** *** Sorting the hits *)

Local Abbreviation by_distance := (fun a b : Q * Z => (fst a <= fst b)%Q).







(** With at least [k] vectors in the index, a row of results has no
    filler: it is the first [k] hits in the order of their distances. *)
Lemma search_row_full (ix : IndexFlatL2) (k : nat) (x : list Q) :
  (k <= length (xb ix))%nat ->
  search_row ix k x = take k (sort_hits (hits ix x)).
Proof.
  intros Hk. unfold search_row. cbv zeta.
  rewrite length_take, sort_hits_length, hits_length.
  replace (k - k `min` length (xb ix))%nat with 0%nat by lia.
  simpl. by rewrite app_nil_r.
Qed.

(** *** The result loop on labels within the documents *)

Lemma collect_all (docs : list Chunk) (row : list (Q * Z))
    (acc rs : list SearchResult) :
  Forall (fun hit => snd hit < len docs) row ->
  collect docs row acc = Ok rs ->
  exists items,
    rs = acc ++ items /\
    map similarity_score items = map (fun hit => similarity (fst hit)) row.
Proof.
  intros Hrow. revert acc.
  induction Hrow as [|[dist idx] row Hidx Hrow IH]; intros acc; simpl.
  - intros [= <-]. exists []. by rewrite app_nil_r.
  - simpl in Hidx. destruct (idx <? len docs) eqn:E; zbool; [|lia].
    destruct (getitem docs idx) as [document|e]; simpl; [|discriminate].
    intros H. apply IH in H as (items & -> & Hscores).
    eexists (_ :: items). rewrite <- app_assoc. split; [reflexivity|].
    simpl. by rewrite Hscores.
Qed.

Section WithEmbedder.

Variable document_embedder : Embedded.DocumentEmbedder.

(** The shape of a search over a store whose vectors and chunks are as
    many: the scores are those of the nearest hits, in their order. *)
Lemma search_consistent (self : t) (ix : IndexFlatL2) (query : string)
    (k : Z) (rs : list SearchResult) :
  index self = Some ix ->
  ntotal ix = len (documents self) ->
  search document_embedder self query k = Ok rs ->
  rs = [] \/
  exists qv rest,
    Embedded.embed_texts document_embedder [query] = qv :: rest /\
    0 < Z.min k (len (documents self)) /\
    map similarity_score rs
    = map (fun hit => similarity (fst hit))
          (take (Z.to_nat (Z.min k (len (documents self))))
             (sort_hits (hits ix qv))).
Proof.
  intros Hix Hn Hs.
  apply search_Ok in Hs as [->|(ix' & qv & rest & Hix' & Hq & Hk & Hc)];
    [by left|].
  rewrite Hix in Hix'. injection Hix' as <-. right. exists qv, rest.
  split; [exact Hq|]. split; [exact Hk|].
  rewrite search_row_full in Hc by (unfold ntotal, len in *; lia).
  apply collect_all in Hc as (items & -> & Hscores); [exact Hscores|].
  apply Forall_forall. intros hit Hhit.
  apply elem_of_take in Hhit as (i & Hhit & _).
  apply list_elem_of_lookup_2, list_elem_of_In, sort_hits_In in Hhit.
  apply list_elem_of_In in Hhit. unfold hits in Hhit.
  apply elem_of_lookup_imap in Hhit as (j & v & -> & Hv).
  apply lookup_lt_Some in Hv. simpl. unfold ntotal, len in *. lia.
Qed.

End WithEmbedder.

End StoreFacts.

(** X3: saving a store that has an index and loading the two artifacts
    into any store gives the saved store back: index, chunks and
    dimension.  A store without index saves nothing. *)
Theorem save_then_load_restores_store
    (self other : VectorStore.t) (disk : VectorStore.Disk) :
  (VectorStore.index self <> None ->
   VectorStore.load other (VectorStore.save self disk) = (true, self)) /\
  (VectorStore.index self = None -> VectorStore.save self disk = disk).
Proof.
  destruct self as [[ix|] docs dim]; simpl; split; try done.
Qed.

Lemma save_then_load_restores_store_witness :
  VectorStore.load VectorStore.init
    (VectorStore.save Sample.store Sample.disk_without_metadata)
  = (true, Sample.store).
Proof.
  apply (save_then_load_restores_store Sample.store VectorStore.init
           Sample.disk_without_metadata).
  discriminate.
Defined.

(** X4: when the encoder raises, [add_documents] still returns normally:
    the chunks have been appended and the index is as before, so the store
    now has more chunks than vectors. *)
Theorem add_documents_keeps_chunks_when_encoder_raises
    (document_embedder : Embedded.DocumentEmbedder) (self : VectorStore.t)
    (docs : list VectorStore.Chunk) (e : exn) :
  docs <> [] ->
  Embedded.encode document_embedder (map VectorStore.text docs) = Raise e ->
  VectorStore.add_documents document_embedder self docs
  = (Ok tt,
     {| VectorStore.index := VectorStore.index self;
        VectorStore.documents := VectorStore.documents self ++ docs;
        VectorStore.dimension := VectorStore.dimension self |}) /\
  VectorStore.vector_count
    (snd (VectorStore.add_documents document_embedder self docs))
  = VectorStore.vector_count self /\
  VectorStore.chunk_count
    (snd (VectorStore.add_documents document_embedder self docs))
  = VectorStore.chunk_count self + len docs.
Proof.
  intros Hdocs Henc.
  assert (H : VectorStore.add_documents document_embedder self docs
              = (Ok tt,
                 {| VectorStore.index := VectorStore.index self;
                    VectorStore.documents := VectorStore.documents self ++ docs;
                    VectorStore.dimension := VectorStore.dimension self |})).
  { unfold VectorStore.add_documents. destruct docs as [|doc docs]; [done|].
    unfold Embedded.embed_texts. rewrite Henc. reflexivity. }
  rewrite H. repeat split.
  unfold VectorStore.chunk_count. simpl. apply SessionFacts.len_app.
Qed.

Lemma add_documents_keeps_chunks_when_encoder_raises_witness :
  VectorStore.chunk_count
    (snd (VectorStore.add_documents
            {| Embedded.encode := fun _ => Raise (Exn "RuntimeError" "no model");
               Embedded.chunk_size := 500; Embedded.chunk_overlap := 100 |}
            Sample.store [Sample.chunk1]))
  = VectorStore.chunk_count Sample.store + len [Sample.chunk1].
Proof.
  apply (add_documents_keeps_chunks_when_encoder_raises
           {| Embedded.encode := fun _ => Raise (Exn "RuntimeError" "no model");
              Embedded.chunk_size := 500; Embedded.chunk_overlap := 100 |}
           Sample.store [Sample.chunk1] (Exn "RuntimeError" "no model"));
    [discriminate|reflexivity].
Defined.

(** X5: [add_documents] keeps the store consistent when the encoder gives
    one vector per text: if there were as many vectors as chunks before
    and the call returns normally, there are as many afterwards. *)
Theorem add_documents_keeps_counts_equal
    (document_embedder : Embedded.DocumentEmbedder) (self : VectorStore.t)
    (docs : list VectorStore.Chunk) :
  VectorStore.vector_count self = VectorStore.chunk_count self ->
  length (Embedded.embed_texts document_embedder (map VectorStore.text docs))
  = length docs ->
  fst (VectorStore.add_documents document_embedder self docs) = Ok tt ->
  VectorStore.vector_count
    (snd (VectorStore.add_documents document_embedder self docs))
  = VectorStore.chunk_count
      (snd (VectorStore.add_documents document_embedder self docs)).
Proof.
  intros Hcount Hlen. unfold VectorStore.add_documents.
  destruct docs as [|doc docs]; [done|].
  set (embeddings := Embedded.embed_texts document_embedder
                       (map VectorStore.text (doc :: docs))) in *.
  destruct (len embeddings =? 0) eqn:H0;
    [zbool; unfold len in H0; simpl in Hlen; lia|].
  unfold VectorStore.vector_count, VectorStore.chunk_count in *.
  simpl VectorStore.index. simpl VectorStore.documents.
  destruct (VectorStore.index self) as [ix|].
  - unfold Faiss.add. destruct (Faiss.has_dim (Faiss.d ix) embeddings);
      simpl; [|discriminate].
    intros _. unfold Faiss.ntotal in *. simpl.
    rewrite !SessionFacts.len_app. unfold len in *. lia.
  - unfold VectorStore.create_index.
    destruct embeddings as [|row rows] eqn:E; [simpl in Hlen; lia|].
    unfold Faiss.add. simpl Faiss.d.
    destruct (Faiss.has_dim (len row) (row :: rows)); simpl; [|discriminate].
    intros _. unfold Faiss.ntotal. simpl Faiss.xb.
    rewrite SessionFacts.len_app. unfold len in *. simpl in *. lia.
Qed.

Lemma add_documents_keeps_counts_equal_witness :
  VectorStore.vector_count
    (snd (VectorStore.add_documents Sample.embedder Sample.store
            [Sample.chunk1]))
  = VectorStore.chunk_count
      (snd (VectorStore.add_documents Sample.embedder Sample.store
              [Sample.chunk1])).
Proof.
  apply (add_documents_keeps_counts_equal Sample.embedder Sample.store
           [Sample.chunk1]); reflexivity.
Defined.

(** X6: on a store with as many vectors as chunks, a search that gets an
    embedding of the query returns exactly [min(k, number of chunks)]
    results. *)
Theorem search_returns_exactly_min_k_results
    (document_embedder : Embedded.DocumentEmbedder) (self : VectorStore.t)
    (ix : Faiss.IndexFlatL2) (query : string) (k : Z)
    (rs : list VectorStore.SearchResult) :
  VectorStore.index self = Some ix ->
  Faiss.ntotal ix = len (VectorStore.documents self) ->
  Embedded.embed_texts document_embedder [query] <> [] ->
  VectorStore.search document_embedder self query k = Ok rs ->
  length rs = Z.to_nat (Z.min k (len (VectorStore.documents self))).
Proof.
  intros Hix Hn Hq Hs.
  assert (Hrun := Hs). unfold VectorStore.search in Hrun. rewrite Hix in Hrun.
  destruct (len (VectorStore.documents self) =? 0) eqn:H0.
  { injection Hrun as <-. zbool. rewrite H0. simpl. lia. }
  destruct (StoreFacts.search_consistent document_embedder self ix query k
              rs Hix Hn Hs) as [->|(qv & rest & _ & Hk & Hscores)].
  - destruct (Embedded.embed_texts document_embedder [query]) as [|qv rest];
      [done|].
    replace (len (qv :: rest) =? 0) with false in Hrun
      by (symmetry; apply Z.eqb_neq; unfold len; simpl length; lia).
    unfold Faiss.search in Hrun.
    destruct (negb (Faiss.has_dim (Faiss.d ix) (qv :: rest)));
      [discriminate|].
    destruct (0 <? Z.min k (len (VectorStore.documents self))) eqn:Hk;
      [|discriminate].
    simpl in Hrun. rewrite zip_fst_snd in Hrun.
    rewrite StoreFacts.search_row_full in Hrun
      by (zbool; unfold Faiss.ntotal, len in *; lia).
    apply StoreFacts.collect_all in Hrun as (items & E & Hscores).
    + simpl in E. subst items. apply (f_equal length) in Hscores.
      rewrite !length_map, length_take, VectorFacts.sort_hits_length,
        VectorFacts.hits_length in Hscores.
      simpl in Hscores. zbool. unfold Faiss.ntotal, len in *. lia.
    + apply Forall_forall. intros hit Hhit.
      apply elem_of_take in Hhit as (i & Hhit & _).
      apply list_elem_of_lookup_2, list_elem_of_In,
        VectorFacts.sort_hits_In in Hhit.
      apply list_elem_of_In in Hhit. unfold Faiss.hits in Hhit.
      apply elem_of_lookup_imap in Hhit as (j & v & -> & Hv).
      apply lookup_lt_Some in Hv. simpl. unfold Faiss.ntotal, len in *. lia.
  - apply (f_equal length) in Hscores.
    rewrite !length_map, length_take, VectorFacts.sort_hits_length,
      VectorFacts.hits_length in Hscores.
    unfold Faiss.ntotal, len in *. lia.
Qed.

Lemma search_returns_exactly_min_k_results_witness :
  exists rs,
    VectorStore.search Sample.embedder Sample.store "reset my password" 5
    = Ok rs /\
    length rs = 2%nat.
Proof.
  destruct (VectorStore.search Sample.embedder Sample.store
              "reset my password" 5) as [rs|e] eqn:Hrs; [|discriminate].
  exists rs. split; [reflexivity|].
  apply (search_returns_exactly_min_k_results Sample.embedder Sample.store
           Sample.flat_index "reset my password" 5 rs);
    [reflexivity|reflexivity|discriminate|exact Hrs].
Defined.



(** ** Loading the knowledge base and rebuilding the store *)

Module RebuildFacts.

Import VectorStore KnowledgeBase.

Lemma chunk_loop_truthy (size overlap : Z) (words : list string) :
  forall (fuel : nat) (start : Z) (chunks r : list string),
    Forall (fun c => truthy c = true) chunks ->
    Embedded.chunk_loop fuel size overlap words start chunks = Some r ->
    Forall (fun c => truthy c = true) r.
Proof.
  induction fuel as [|fuel IH]; intros start chunks r Hacc; [discriminate|].
  rewrite ChunkerFacts.chunk_loop_unfold. cbv zeta.
  destruct (start <? len words); [|by intros [= <-]].
  set (chunk := strip (join (str1 space) (slice words start (start + size)))).
  assert (Hacc' : Forall (fun c => truthy c = true)
                    (if truthy chunk then chunks ++ [chunk] else chunks)).
  { destruct (truthy chunk) eqn:E; [|exact Hacc].
    apply Forall_app. split; [exact Hacc|]. by repeat constructor. }
  destruct (start + size >=? len words); [by intros [= <-]|].
  by apply IH.
Qed.

Lemma chunk_text_truthy (fuel : nat) (size overlap : Z) (text : string)
    (chunks : list string) :
  Embedded.chunk_text fuel size overlap text = Some chunks ->
  Forall (fun c => truthy c = true) chunks.
Proof.
  unfold Embedded.chunk_text.
  destruct (negb (truthy text)); [intros [= <-]; constructor|].
  by apply chunk_loop_truthy.
Qed.

Lemma enumerate_chunks_spec (path : string) (total : Z)
    (chunks : list string) :
  forall (i : Z) (d : Chunk),
    In d (enumerate_chunks path total i chunks) ->
    In (text d) chunks /\ source d = path /\ total_chunks d = total /\
    i <= chunk_id d < i + len chunks.
Proof.
  induction chunks as [|c chunks IH]; intros i d; simpl; [tauto|].
  intros [<-|H].
  - simpl. unfold len. simpl length. repeat split; auto; lia.
  - apply IH in H as (Ht & Hs & Htot & Hid).
    unfold len in *. simpl length. repeat split; auto; lia.
Qed.

Section WithEmbedder.

Variable document_embedder : Embedded.DocumentEmbedder.

Lemma load_files_spec (P : Chunk -> Prop)
    (files : list (string * result string)) :
  (forall path content chunks d,
     In (path, Ok content) files ->
     chunk_text document_embedder content = Some chunks ->
     In d (enumerate_chunks path (len chunks) 0 chunks) -> P d) ->
  forall documents docs,
    Forall P documents ->
    load_files document_embedder files documents = Some docs ->
    Forall P docs.
Proof.
  induction files as [|[path [content|e]] files IH]; intros HP documents docs
    Hacc; simpl.
  - by intros [= <-].
  - assert (HP' : forall path content chunks d,
              In (path, Ok content) files ->
              chunk_text document_embedder content = Some chunks ->
              In d (enumerate_chunks path (len chunks) 0 chunks) -> P d)
      by (intros; eapply HP; eauto; by right).
    destruct (truthy (strip content)); [|by apply IH].
    destruct (chunk_text document_embedder content) as [chunks|] eqn:Hc;
      [|discriminate].
    apply IH; [exact HP'|]. apply Forall_app. split; [exact Hacc|].
    apply Forall_forall. intros d Hd. apply list_elem_of_In in Hd.
    apply (HP path content chunks d); [by left|exact Hc|exact Hd].
  - apply IH; [|exact Hacc]. intros; eapply HP; eauto; by right.
Qed.

(** The outcome of [add_documents] on a store without index and chunks
    does not depend on the dimension the store remembers, except for that
    dimension itself, which stays when no index is made. *)
Lemma add_documents_cleared (dim : option Z) (docs : list Chunk) :
  let cleared := {| index := None; documents := []; dimension := dim |} in
  forall r s,
    add_documents document_embedder cleared docs = (r, s) ->
    add_documents document_embedder
      {| index := None; documents := []; dimension := dimension s |} docs
    = (r, s).
Proof.
  cbv zeta. intros r s. unfold add_documents.
  destruct docs as [|doc docs]; [by intros [= <- <-]|].
  simpl index. simpl documents. simpl dimension.
  destruct (len _ =? 0); [by intros [= <- <-]|].
  unfold create_index.
  destruct (Embedded.embed_texts _ _) as [|row rows];
    [by intros [= <- <-]|].
  simpl documents.
  destruct (Faiss.add _ _); by intros [= <- <-].
Qed.

Lemma save_idempotent (self : t) (disk : Disk) :
  save self (save self disk) = save self disk.
Proof. unfold save. by destruct (index self). Qed.

End WithEmbedder.

End RebuildFacts.

(** X8: every document that [load_documents_from_directory] returns has a
    text that is not empty, comes from a file of the directory that could
    be read, and carries a chunk number from 0 up to, and not including,
    the number of chunks of its file. *)
Theorem loaded_documents_are_well_formed
    (document_embedder : Embedded.DocumentEmbedder)
    (directory : KnowledgeBase.Directory) (docs : list VectorStore.Chunk) :
  KnowledgeBase.load_documents_from_directory document_embedder directory
  = Some docs ->
  Forall (fun d =>
            truthy (VectorStore.text d) = true /\
            0 <= VectorStore.chunk_id d < VectorStore.total_chunks d /\
            exists files content,
              directory = Some files /\
              In (VectorStore.source d, Ok content) files)
         docs.
Proof.
  unfold KnowledgeBase.load_documents_from_directory.
  destruct directory as [files|]; [|intros [= <-]; constructor].
  apply RebuildFacts.load_files_spec; [|constructor].
  intros path content chunks d Hfile Hchunks Hd.
  apply RebuildFacts.enumerate_chunks_spec in Hd as (Ht & <- & -> & Hid).
  repeat split; try lia.
  - apply RebuildFacts.chunk_text_truthy in Hchunks.
    apply (proj1 (Forall_forall _ _) Hchunks). by apply list_elem_of_In.
  - by exists files, content.
Qed.

Lemma loaded_documents_are_well_formed_witness :
  Forall (fun d =>
            truthy (VectorStore.text d) = true /\
            0 <= VectorStore.chunk_id d < VectorStore.total_chunks d /\
            exists files content,
              Some [("faq.md", Ok "reset password via settings menu");
                    ("broken.md", Raise (Exn "OSError" "unreadable"))]
              = Some files /\
              In (VectorStore.source d, Ok content) files)
         [{| VectorStore.text := "reset password via settings menu";
             VectorStore.source := "faq.md";
             VectorStore.chunk_id := 0;
             VectorStore.total_chunks := 1 |}].
Proof.
  apply (loaded_documents_are_well_formed Sample.embedder).
  reflexivity.
Defined.

(** X9: rebuilding is idempotent: a second [rebuild_from_directory] from
    the same directory, on the store and the disk that the first one left,
    has the same outcome and leaves the same store and the same disk; and
    what was in the store before the first rebuild, dimension apart, has
    no influence on it. *)
Theorem rebuild_from_directory_is_idempotent
    (document_embedder : Embedded.DocumentEmbedder) (self : VectorStore.t)
    (directory : KnowledgeBase.Directory) (disk : VectorStore.Disk)
    (r : result unit) (rebuilt : VectorStore.t) (disk' : VectorStore.Disk) :
  KnowledgeBase.rebuild_from_directory document_embedder self directory disk
  = Some (r, rebuilt, disk') ->
  KnowledgeBase.rebuild_from_directory document_embedder rebuilt directory
    disk' = Some (r, rebuilt, disk') /\
  forall other,
    VectorStore.dimension other = VectorStore.dimension self ->
    KnowledgeBase.rebuild_from_directory document_embedder other directory
      disk = Some (r, rebuilt, disk').
Proof.
  unfold KnowledgeBase.rebuild_from_directory. cbv zeta.
  destruct (KnowledgeBase.load_documents_from_directory document_embedder
              directory) as [[|doc docs]|]; [| |discriminate].
  - intros [= <- <- <-]. split; [reflexivity|]. by intros other ->.
  - destruct (VectorStore.add_documents document_embedder _ (doc :: docs))
      as [[[]|e] s] eqn:Hadd.
    + intros [= <- <- <-]. split; [|intros other ->; by rewrite Hadd].
      rewrite (RebuildFacts.add_documents_cleared document_embedder _ _ _ _
                 Hadd).
      by rewrite RebuildFacts.save_idempotent.
    + intros [= <- <- <-]. split; [|intros other ->; by rewrite Hadd].
      by rewrite (RebuildFacts.add_documents_cleared document_embedder _ _ _
                    _ Hadd).
Qed.

Lemma rebuild_from_directory_is_idempotent_witness :
  let directory :=
    Some [("faq.md", Ok "reset password via settings menu")] in
  let rebuilt :=
    {| VectorStore.index :=
         Some {| Faiss.d := 2; Faiss.xb := [[1; 0]%Q] |};
       VectorStore.documents :=
         [{| VectorStore.text := "reset password via settings menu";
             VectorStore.source := "faq.md";
             VectorStore.chunk_id := 0;
             VectorStore.total_chunks := 1 |}];
       VectorStore.dimension := Some 2 |} in
  let disk' := VectorStore.save rebuilt Sample.disk_without_metadata in
  KnowledgeBase.rebuild_from_directory Sample.embedder rebuilt directory
    disk' = Some (Ok tt, rebuilt, disk').
Proof.
  intros directory rebuilt disk'.
  assert (Hfirst : KnowledgeBase.rebuild_from_directory Sample.embedder
                     Sample.store directory Sample.disk_without_metadata
                   = Some (Ok tt, rebuilt, disk')) by reflexivity.
  exact (proj1 (rebuild_from_directory_is_idempotent Sample.embedder
                  Sample.store directory Sample.disk_without_metadata
                  (Ok tt) rebuilt disk' Hfirst)).
Defined.

(** X10: start-up on a disk that holds the vector artifact without the
    metadata artifact does not rebuild the store: a new store gets the
    index and no chunk, the knowledge base is not read, and from then on
    every search returns no result. *)
Theorem initialize_store_without_metadata_answers_nothing
    (document_embedder : Embedded.DocumentEmbedder)
    (directory : KnowledgeBase.Directory) (disk : VectorStore.Disk)
    (ix : Faiss.IndexFlatL2) :
  VectorStore.index_file disk = Some (Ok ix) ->
  VectorStore.metadata_file disk = None ->
  exists store,
    KnowledgeBase.initialize_store document_embedder VectorStore.init
      directory disk = Some (Ok tt, store, disk) /\
    VectorStore.index store = Some ix /\
    VectorStore.documents store = [] /\
    forall query k,
      VectorStore.search document_embedder store query k = Ok [].
Proof.
  intros Hix Hmd. eexists.
  unfold KnowledgeBase.initialize_store, VectorStore.load.
  rewrite Hix, Hmd. repeat split.
Qed.

Lemma initialize_store_without_metadata_answers_nothing_witness :
  exists store,
    KnowledgeBase.initialize_store Sample.embedder VectorStore.init
      (Some [("faq.md", Ok "reset password via settings menu")])
      Sample.disk_without_metadata
    = Some (Ok tt, store, Sample.disk_without_metadata) /\
    VectorStore.index store = Some Sample.flat_index /\
    VectorStore.documents store = [] /\
    forall query k,
      VectorStore.search Sample.embedder store query k = Ok [].
Proof.
  apply (initialize_store_without_metadata_answers_nothing Sample.embedder
           (Some [("faq.md", Ok "reset password via settings menu")])
           Sample.disk_without_metadata Sample.flat_index); reflexivity.
Defined.

(** ** The session store: recent messages, sweeping and statistics *)

Module SessionStoreFacts.

Import SessionMemory SessionStats.

Lemma remove_session_delete (sessions : gmap string Session) (sid : string) :
  remove_session sessions sid = delete sid sessions.
Proof.
  unfold remove_session. destruct (sessions !! sid) eqn:E; [reflexivity|].
  symmetry. by apply delete_id.
Qed.

Lemma foldl_remove_session (keys : list string)
    (sessions : gmap string Session) (sid : string) :
  foldl remove_session sessions keys !! sid
  = if decide (sid ∈ keys) then None else sessions !! sid.
Proof.
  revert sessions. induction keys as [|k keys IH]; intros sessions; simpl.
  - destruct (decide (sid ∈ [])) as [H|H]; [by apply elem_of_nil in H|done].
  - rewrite IH, remove_session_delete.
    destruct (decide (sid ∈ keys)) as [Hin|Hout].
    + destruct (decide (sid ∈ k :: keys)) as [_|H]; [reflexivity|].
      exfalso. apply H. by right.
    + destruct (decide (k = sid)) as [->|Hne].
      * rewrite lookup_delete_eq.
        destruct (decide (sid ∈ sid :: keys)) as [_|H]; [reflexivity|].
        exfalso. apply H. by left.
      * rewrite lookup_delete_ne by exact Hne.
        destruct (decide (sid ∈ k :: keys)) as [H|_]; [|reflexivity].
        apply elem_of_cons in H as [->|H]; [done|contradiction].
Qed.

Lemma count_messages_delete (sessions : gmap string Session) (sid : string)
    (s : Session) :
  sessions !! sid = Some s ->
  count_messages sessions
  = count_messages (delete sid sessions) + len (messages s).
Proof.
  intros Hs. unfold count_messages.
  rewrite (map_fold_delete_L _ _ sid s sessions); [reflexivity| |exact Hs].
  intros. lia.
Qed.

End SessionStoreFacts.

(** X11: [get_recent_messages(limit)] returns the last [limit] messages, in
    order, for a positive limit (all of them when there are fewer); for
    the limit 0 it returns the whole history, not an empty list; and for a
    negative limit it drops the first [-limit] messages. *)
Theorem get_recent_messages_returns_the_last
    (s : SessionMemory.Session) (limit : Z) :
  (0 < limit ->
   SessionMemory.get_recent_messages s limit
   = drop (length (SessionMemory.messages s) - Z.to_nat limit)
          (SessionMemory.messages s) /\
   len (SessionMemory.get_recent_messages s limit)
   = Z.min limit (len (SessionMemory.messages s))) /\
  (limit = 0 ->
   SessionMemory.get_recent_messages s limit = SessionMemory.messages s) /\
  (limit < 0 ->
   SessionMemory.get_recent_messages s limit
   = drop (Z.to_nat (- limit)) (SessionMemory.messages s)).
Proof.
  unfold SessionMemory.get_recent_messages.
  destruct (SessionMemory.messages s) as [|m ms] eqn:E.
  { repeat split; intros; rewrite ?drop_nil; try done.
    unfold len. simpl. lia. }
  clear E. set (msgs := m :: ms).
  split; [|split].
  - intros Hpos. rewrite SessionFacts.slice_from_neg by exact Hpos.
    assert (Hdrop : Z.to_nat (len msgs - limit)
                    = (length msgs - Z.to_nat limit)%nat)
      by (unfold len; lia).
    rewrite Hdrop. split; [reflexivity|].
    unfold len. rewrite length_drop. lia.
  - intros ->. apply SessionFacts.slice_from_zero.
  - intros Hneg. unfold slice_from, slice_index.
    destruct (- limit <? 0) eqn:H; zbool; [lia|].
    destruct (Z_le_gt_dec (- limit) (len msgs)) as [Hle|Hgt].
    + by rewrite Z.min_l.
    + rewrite Z.min_r by lia. rewrite !drop_ge; unfold len in *; [done|lia..].
Qed.

Lemma get_recent_messages_returns_the_last_witness :
  let m (c : string) :=
    {| SessionMemory.role := "user"; SessionMemory.content := c;
       SessionMemory.timestamp := 0 |} in
  let s :=
    {| SessionMemory.session_id := "s"; SessionMemory.messages :=
         [m "one"; m "two"; m "three"];
       SessionMemory.created_at := 0; SessionMemory.last_activity := 0 |} in
  SessionMemory.get_recent_messages s 2 = [m "two"; m "three"] /\
  SessionMemory.get_recent_messages s 0 = [m "one"; m "two"; m "three"].
Proof.
  intros m s. split.
  - assert (H : 0 < 2) by lia.
    exact (proj1 (proj1 (get_recent_messages_returns_the_last s 2) H)).
  - exact (proj1 (proj2 (get_recent_messages_returns_the_last s 0)) eq_refl).
Defined.

(** X12: with a cap of at least two, [add_message] keeps a history within
    the cap: the history stays within the cap, ends with the new message
    and still starts with the message it started with; below the cap the
    new message is simply appended.  The time of last activity becomes the
    second reading of the clock. *)
Theorem add_message_keeps_history_within_cap
    (cap : Z) (s : SessionMemory.Session) (role content : string)
    (now1 now2 : Q) :
  2 <= cap ->
  len (SessionMemory.messages s) <= cap ->
  let message :=
    {| SessionMemory.role := role; SessionMemory.content := content;
       SessionMemory.timestamp := now1 |} in
  let s' := SessionMemory.add_message cap s role content now1 now2 in
  len (SessionMemory.messages s') <= cap /\
  last (SessionMemory.messages s') = Some message /\
  (forall first, head (SessionMemory.messages s) = Some first ->
                 head (SessionMemory.messages s') = Some first) /\
  (len (SessionMemory.messages s) < cap ->
   SessionMemory.messages s' = SessionMemory.messages s ++ [message]) /\
  SessionMemory.last_activity s' = now2 /\
  SessionMemory.session_id s' = SessionMemory.session_id s.
Proof.
  intros Hcap Hlen message s'. unfold s', SessionMemory.add_message.
  simpl SessionMemory.messages. fold message.
  set (msgs := SessionMemory.messages s) in *.
  rewrite SessionFacts.trim_eq by exact Hcap.
  rewrite SessionFacts.len_app. change (len [message]) with 1.
  destruct (len msgs + 1 >? cap) eqn:Hgt; zbool.
  - assert (Hfull : len msgs = cap) by lia.
    destruct msgs as [|first rest] eqn:E;
      [unfold len in Hfull; simpl in Hfull; lia|].
    change (take 1 ((first :: rest) ++ [message])) with [first].
    assert (Hdrop : drop (Z.to_nat (len (first :: rest) + 1 - (cap - 1)))
                      ((first :: rest) ++ [message])
                    = drop 1 rest ++ [message]).
    { replace (Z.to_nat (len (first :: rest) + 1 - (cap - 1))) with 2%nat
        by lia.
      change (drop 2 ((first :: rest) ++ [message]))
        with (drop 1 (rest ++ [message])).
      apply drop_app_le. unfold len in Hfull. simpl in Hfull. lia. }
    rewrite Hdrop. repeat split.
    + rewrite SessionFacts.len_app. change (len [first]) with 1.
      rewrite SessionFacts.len_app. change (len [message]) with 1.
      unfold len in *. rewrite length_drop. simpl in *. lia.
    + change ([first] ++ drop 1 rest ++ [message])
        with (first :: (drop 1 rest ++ [message])).
      rewrite app_comm_cons. apply last_snoc.
    + by intros first' [= ->].
    + intros Hlt. lia.
  - repeat split.
    + rewrite SessionFacts.len_app. change (len [message]) with 1. lia.
    + apply last_snoc.
    + intros first. destruct msgs; [discriminate|]. by intros [= ->].
Qed.

Lemma add_message_keeps_history_within_cap_witness :
  let m (c : string) :=
    {| SessionMemory.role := "user"; SessionMemory.content := c;
       SessionMemory.timestamp := 0 |} in
  let s :=
    {| SessionMemory.session_id := "s"; SessionMemory.messages :=
         [m "one"; m "two"];
       SessionMemory.created_at := 0; SessionMemory.last_activity := 0 |} in
  len (SessionMemory.messages (SessionMemory.add_message 2 s "user" "three" 0 1))
  <= 2.
Proof.
  intros m s.
  apply (add_message_keeps_history_within_cap 2 s "user" "three" 0 1);
    [lia|vm_compute; discriminate].
Defined.

(** X13: after [cleanup_expired_sessions] the store holds exactly the
    sessions that were not expired at their check, unchanged; so no
    session left is expired, and no session that was not expired is
    lost. *)
Theorem cleanup_expired_sessions_keeps_the_live_sessions
    (timeout : Z) (sessions : gmap string SessionMemory.Session)
    (now_of : string -> Q) (session_id : string) :
  SessionStats.cleanup_expired_sessions timeout sessions now_of !! session_id
  = match sessions !! session_id with
    | Some s =>
        if SessionMemory.is_expired timeout s (now_of session_id)
        then None else Some s
    | None => None
    end.
Proof.
  unfold SessionStats.cleanup_expired_sessions. cbv zeta.
  rewrite SessionStoreFacts.foldl_remove_session.
  destruct (decide (session_id ∈ _)) as [Hin|Hout].
  - apply list_elem_of_In, in_map_iff in Hin as ([sid s] & Hsid & Hin).
    simpl in Hsid. subst.
    apply filter_In in Hin as [Hin Hexp]. simpl in Hexp.
    apply list_elem_of_In, elem_of_map_to_list in Hin.
    by rewrite Hin, Hexp.
  - destruct (sessions !! session_id) as [s|] eqn:Hs; [|reflexivity].
    destruct (SessionMemory.is_expired timeout s (now_of session_id)) eqn:E;
      [|reflexivity].
    exfalso. apply Hout. apply list_elem_of_In, in_map_iff.
    exists (session_id, s).
    split; [reflexivity|]. apply filter_In. split; [|exact E].
    by apply list_elem_of_In, elem_of_map_to_list.
Qed.

(** X14: when [get_session] finds a session expired, the statistics taken
    afterwards count one session less and as many messages less as the
    session held. *)
Theorem expired_session_leaves_the_statistics
    (timeout : Z) (sessions : gmap string SessionMemory.Session)
    (session_id : string) (s : SessionMemory.Session) (now : Q) :
  sessions !! session_id = Some s ->
  SessionMemory.is_expired timeout s now = true ->
  let sessions' :=
    snd (SessionMemory.get_session timeout sessions session_id now) in
  SessionStats.active_sessions (SessionStats.get_session_stats sessions')
  = SessionStats.active_sessions (SessionStats.get_session_stats sessions) - 1
  /\
  SessionStats.total_messages (SessionStats.get_session_stats sessions')
  = SessionStats.total_messages (SessionStats.get_session_stats sessions)
    - len (SessionMemory.messages s).
Proof.
  intros Hs Hexp. cbv zeta. unfold SessionMemory.get_session.
  rewrite Hs, Hexp. simpl snd.
  rewrite SessionStoreFacts.remove_session_delete.
  unfold SessionStats.get_session_stats. simpl. split.
  - rewrite (map_size_delete_Some session_id sessions) by eauto.
    assert (Hsome : is_Some (sessions !! session_id)) by eauto.
    pose proof (map_size_ne_0_lookup_2 sessions session_id Hsome). lia.
  - rewrite (SessionStoreFacts.count_messages_delete sessions session_id s Hs).
    lia.
Qed.

Lemma expired_session_leaves_the_statistics_witness :
  let old :=
    {| SessionMemory.session_id := "s1";
       SessionMemory.messages :=
         [{| SessionMemory.role := "user"; SessionMemory.content := "hi";
             SessionMemory.timestamp := 0 |}];
       SessionMemory.created_at := 0;
       SessionMemory.last_activity := 0 |} in
  SessionStats.active_sessions
    (SessionStats.get_session_stats
       (snd (SessionMemory.get_session 3600 {["s1" := old]} "s1" (4000 # 1))))
  = SessionStats.active_sessions
      (SessionStats.get_session_stats {["s1" := old]}) - 1.
Proof.
  intros old.
  apply (expired_session_leaves_the_statistics 3600 {["s1" := old]} "s1" old
           (4000 # 1)); [apply lookup_singleton_eq|reflexivity].
Defined.

(** ** The ticket and order managers *)

Module ToolFacts.

Import PyCase.

Lemma member_In (x : string) (l : list string) :
  member x l = true <-> In x l.
Proof.
  unfold member. rewrite existsb_exists. split.
  - intros (y & Hy & E). apply String.eqb_eq in E. by subst.
  - intros H. exists x. split; [exact H|apply String.eqb_refl].
Qed.

Lemma upper_char_idempotent (c : ascii) :
  upper_char (upper_char c) = upper_char c.
Proof.
  destruct c as [[] [] [] [] [] [] [] []]; reflexivity.
Qed.

Lemma upper_char_lower_char (c : ascii) :
  (nat_of_ascii c < 128)%nat -> upper_char (lower_char c) = upper_char c.
Proof.
  destruct c as [[] [] [] [] [] [] [] []]; intros _; reflexivity.
Qed.

Lemma upper_idempotent (s : string) : upper (upper s) = upper s.
Proof.
  induction s as [|c s IH]; simpl; [reflexivity|].
  by rewrite upper_char_idempotent, IH.
Qed.

Lemma upper_lower (s : string) :
  isascii s = true -> upper (lower s) = upper s.
Proof.
  induction s as [|c s IH]; simpl; [reflexivity|].
  intros H. apply andb_true_iff in H as [Hc Hs].
  apply Nat.ltb_lt in Hc.
  by rewrite upper_char_lower_char, IH.
Qed.

End ToolFacts.

(** X15: [create_ticket] never rejects: a priority outside low, medium and
    high becomes medium and a category outside technical, billing, general
    and other becomes general, valid ones being kept.  The ticket is open,
    keeps the description, is stored under its identifier, and the other
    tickets are untouched. *)
Theorem create_ticket_coerces_and_stores
    (tickets : gmap string CreateTicket.Ticket)
    (description priority category uuid_hex : string) (now1 now2 : Q) :
  let created :=
    CreateTicket.create_ticket tickets description priority category
      uuid_hex now1 now2 in
  let ticket := fst created in
  In (CreateTicket.priority ticket) CreateTicket.valid_priorities /\
  In (CreateTicket.category ticket) CreateTicket.valid_categories /\
  (In priority CreateTicket.valid_priorities ->
   CreateTicket.priority ticket = priority) /\
  (~ In priority CreateTicket.valid_priorities ->
   CreateTicket.priority ticket = "medium") /\
  (In category CreateTicket.valid_categories ->
   CreateTicket.category ticket = category) /\
  (~ In category CreateTicket.valid_categories ->
   CreateTicket.category ticket = "general") /\
  CreateTicket.status ticket = "open" /\
  CreateTicket.description ticket = description /\
  CreateTicket.get_ticket (snd created) (CreateTicket.ticket_id ticket)
  = Some ticket /\
  (forall other, other <> CreateTicket.ticket_id ticket ->
     CreateTicket.get_ticket (snd created) other
     = CreateTicket.get_ticket tickets other).
Proof.
  cbv zeta. unfold CreateTicket.create_ticket, CreateTicket.get_ticket.
  cbv zeta.
  assert (Hm : In "medium" CreateTicket.valid_priorities) by (simpl; tauto).
  assert (Hg : In "general" CreateTicket.valid_categories) by (simpl; tauto).
  destruct (PyCase.member priority CreateTicket.valid_priorities) eqn:Hp;
    destruct (PyCase.member category CreateTicket.valid_categories) eqn:Hc;
    cbn [fst snd CreateTicket.priority CreateTicket.category
         CreateTicket.status CreateTicket.description
         CreateTicket.ticket_id].
  all: try (apply ToolFacts.member_In in Hp).
  all: try (apply ToolFacts.member_In in Hc).
  all: assert (Hnp : ~ In priority CreateTicket.valid_priorities ->
                     PyCase.member priority CreateTicket.valid_priorities
                     = false)
         by (intros H; destruct (PyCase.member priority _) eqn:E;
             [by apply ToolFacts.member_In in E|reflexivity]).
  all: assert (Hnc : ~ In category CreateTicket.valid_categories ->
                     PyCase.member category CreateTicket.valid_categories
                     = false)
         by (intros H; destruct (PyCase.member category _) eqn:E;
             [by apply ToolFacts.member_In in E|reflexivity]).
  all: repeat split; try done.
  all: try apply lookup_insert_eq.
  all: try (intros other Hne; by apply lookup_insert_ne).
  all: try (intros H; apply ToolFacts.member_In in H; congruence).
  all: try (intros H; apply Hnp in H; congruence).
  all: try (intros H; apply Hnc in H; congruence).
Qed.

(** X16: [update_ticket_status] answers true exactly when the ticket
    exists and the status is one of open, in_progress, resolved and
    closed.  On false nothing changes; on true the ticket gets the status
    and the time of the update, keeps its other fields, and the other
    tickets are untouched. *)
Theorem update_ticket_status_changes_only_the_status
    (tickets : gmap string CreateTicket.Ticket) (ticket_id status : string)
    (now : Q) :
  let updated :=
    CreateTicket.update_ticket_status tickets ticket_id status now in
  (fst updated = true <->
   is_Some (tickets !! ticket_id) /\ In status CreateTicket.valid_statuses) /\
  (fst updated = false -> snd updated = tickets) /\
  (fst updated = true ->
   exists ticket ticket',
     tickets !! ticket_id = Some ticket /\
     snd updated !! ticket_id = Some ticket' /\
     CreateTicket.status ticket' = status /\
     CreateTicket.updated_at ticket' = now /\
     CreateTicket.ticket_id ticket' = CreateTicket.ticket_id ticket /\
     CreateTicket.description ticket' = CreateTicket.description ticket /\
     CreateTicket.priority ticket' = CreateTicket.priority ticket /\
     CreateTicket.category ticket' = CreateTicket.category ticket /\
     CreateTicket.created_at ticket' = CreateTicket.created_at ticket /\
     forall other, other <> ticket_id ->
       snd updated !! other = tickets !! other).
Proof.
  cbv zeta. unfold CreateTicket.update_ticket_status.
  destruct (tickets !! ticket_id) as [ticket|] eqn:Ht.
  - destruct (PyCase.member status CreateTicket.valid_statuses) eqn:Hs;
      cbn [fst snd].
    + apply ToolFacts.member_In in Hs. split; [|split].
      * split; [eauto|done].
      * discriminate.
      * intros _. eexists ticket, _. rewrite lookup_insert_eq.
        repeat split. intros other Hne. by apply lookup_insert_ne.
    + split; [|split]; [|done|discriminate].
      split; [discriminate|].
      intros [_ H]. apply ToolFacts.member_In in H. congruence.
  - cbn [fst snd]. split; [|split]; [|done|discriminate].
    split; [discriminate|]. intros [[t H] _]. discriminate.
Qed.


Lemma create_ticket_coerces_and_stores_witness :
  CreateTicket.priority
    (fst (CreateTicket.create_ticket ∅ "printer jam" "urgent" "technical"
            "9f86d081884c7d659a2feaa0c55ad015" 0 0))
  = "medium".
Proof.
  assert (Hnot : ~ In "urgent" CreateTicket.valid_priorities).
  { simpl. intros [H|[H|[H|[]]]]; discriminate. }
  exact (proj1 (proj2 (proj2 (proj2
           (create_ticket_coerces_and_stores ∅ "printer jam" "urgent"
              "technical" "9f86d081884c7d659a2feaa0c55ad015" 0 0)))) Hnot).
Defined.

Lemma update_ticket_status_changes_only_the_status_witness :
  let ticket :=
    {| CreateTicket.ticket_id := "TK-9F86D081";
       CreateTicket.description := "printer jam";
       CreateTicket.priority := "high";
       CreateTicket.category := "technical";
       CreateTicket.status := "open";
       CreateTicket.created_at := 0;
       CreateTicket.updated_at := 0 |} in
  snd (CreateTicket.update_ticket_status {["TK-9F86D081" := ticket]}
         "TK-9F86D081" "done" 5)
  = {["TK-9F86D081" := ticket]}.
Proof.
  intros ticket.
  apply (proj1 (proj2 (update_ticket_status_changes_only_the_status
                         {["TK-9F86D081" := ticket]} "TK-9F86D081" "done"
                         5))).
  reflexivity.
Defined.

(** X17: [get_order] does not look at the case of the identifier: the
    upper-case form of an identifier finds what the identifier finds, and
    so does the lower-case form of an identifier made of ASCII characters.
    What it finds is stored under the upper-case form, so an order stored
    under a key with a lower-case letter is found under no identifier. *)
Theorem get_order_ignores_case
    (orders : gmap string OrderStatus.Order) (order_id : string) :
  OrderStatus.get_order orders (PyCase.upper order_id)
  = OrderStatus.get_order orders order_id /\
  (PyCase.isascii order_id = true ->
   OrderStatus.get_order orders (lower order_id)
   = OrderStatus.get_order orders order_id) /\
  (forall order,
     OrderStatus.get_order orders order_id = Some order ->
     orders !! PyCase.upper order_id = Some order) /\
  (forall key,
     PyCase.upper key <> key ->
     (forall other, other <> key -> orders !! other = None) ->
     OrderStatus.get_order orders order_id = None).
Proof.
  unfold OrderStatus.get_order.
  rewrite ToolFacts.upper_idempotent.
  split; [reflexivity|].
  split; [intros Hascii; by rewrite ToolFacts.upper_lower|].
  split; [done|].
  intros key Hkey Honly. apply Honly. intros E. apply Hkey.
  by rewrite <- E, ToolFacts.upper_idempotent.
Qed.

Lemma get_order_ignores_case_witness :
  let order :=
    {| OrderStatus.order_id := "ord-001";
       OrderStatus.customer_name := "John Doe";
       OrderStatus.customer_email := "john@example.com";
       OrderStatus.items := [];
       OrderStatus.total_amount := 5896 # 100;
       OrderStatus.status := "shipped";
       OrderStatus.created_at := 0;
       OrderStatus.updated_at := 0;
       OrderStatus.tracking_number := None;
       OrderStatus.estimated_delivery := None |} in
  OrderStatus.get_order {["ORD-001" := order]} (lower "Ord-001")
  = OrderStatus.get_order {["ORD-001" := order]} "Ord-001" /\
  OrderStatus.get_order {["ord-001" := order]} "ord-001" = None.
Proof.
  intros order. split.
  - apply (proj1 (proj2
             (get_order_ignores_case {["ORD-001" := order]} "Ord-001"))).
    reflexivity.
  - apply (proj2 (proj2 (proj2
             (get_order_ignores_case {["ord-001" := order]} "ord-001")))
             "ord-001").
    + discriminate.
    + intros other Hne. by apply lookup_singleton_ne.
Defined.

(** X18: [update_order_status] answers true exactly when the upper-case
    form of the identifier is a key of the store and the status is one of
    the seven order statuses; on false nothing changes.  On true the order
    under that key gets the status and the time of the update; a tracking
    number that is missing or empty, and a delivery time that is missing
    or zero, leave the ones the order had. *)
Theorem update_order_status_changes_the_order
    (orders : gmap string OrderStatus.Order) (order_id status : string)
    (tracking : option string) (delivery : option Q) (now : Q) :
  let updated :=
    OrderStatus.update_order_status orders order_id status tracking delivery
      now in
  (fst updated = true <->
   is_Some (orders !! PyCase.upper order_id) /\
   In status OrderStatus.valid_statuses) /\
  (fst updated = false -> snd updated = orders) /\
  (fst updated = true ->
   exists order order',
     orders !! PyCase.upper order_id = Some order /\
     OrderStatus.get_order (snd updated) order_id = Some order' /\
     OrderStatus.status order' = status /\
     OrderStatus.updated_at order' = now /\
     (OrderStatus.truthy_str tracking = false ->
      OrderStatus.tracking_number order'
      = OrderStatus.tracking_number order) /\
     (OrderStatus.truthy_str tracking = true ->
      OrderStatus.tracking_number order' = tracking) /\
     (OrderStatus.truthy_num delivery = false ->
      OrderStatus.estimated_delivery order'
      = OrderStatus.estimated_delivery order) /\
     OrderStatus.items order' = OrderStatus.items order /\
     OrderStatus.total_amount order' = OrderStatus.total_amount order /\
     forall other, other <> PyCase.upper order_id ->
       snd updated !! other = orders !! other).
Proof.
  cbv zeta. unfold OrderStatus.update_order_status, OrderStatus.get_order.
  cbv zeta.
  destruct (orders !! PyCase.upper order_id) as [order|] eqn:Ho.
  - destruct (PyCase.member status OrderStatus.valid_statuses) eqn:Hs;
      cbn [fst snd].
    + apply ToolFacts.member_In in Hs. split; [|split].
      * split; [eauto|done].
      * discriminate.
      * intros _. eexists order, _. rewrite lookup_insert_eq.
        cbn [OrderStatus.status OrderStatus.updated_at
             OrderStatus.tracking_number OrderStatus.estimated_delivery
             OrderStatus.items OrderStatus.total_amount].
        repeat split.
        -- by intros ->.
        -- by intros ->.
        -- by intros ->.
        -- intros other Hne. by apply lookup_insert_ne.
    + split; [|split]; [|done|discriminate].
      split; [discriminate|].
      intros [_ H]. apply ToolFacts.member_In in H. congruence.
  - cbn [fst snd]. split; [|split]; [|done|discriminate].
    split; [discriminate|]. intros [[t H] _]. discriminate.
Qed.

Lemma update_order_status_changes_the_order_witness :
  let order :=
    {| OrderStatus.order_id := "ORD-003";
       OrderStatus.customer_name := "Bob Johnson";
       OrderStatus.customer_email := "bob@example.com";
       OrderStatus.items := [];
       OrderStatus.total_amount := 5896 # 100;
       OrderStatus.status := "processing";
       OrderStatus.created_at := 0;
       OrderStatus.updated_at := 0;
       OrderStatus.tracking_number := Some "TRK1";
       OrderStatus.estimated_delivery := None |} in
  snd (OrderStatus.update_order_status {["ORD-003" := order]} "ord-003"
         "lost" None None 5)
  = {["ORD-003" := order]}.
Proof.
  intros order.
  apply (proj1 (proj2 (update_order_status_changes_the_order
                         {["ORD-003" := order]} "ord-003" "lost" None None
                         5))).
  reflexivity.
Defined.

(** ** Dispatch of tool calls *)

Module DispatchFacts.

Import App Dispatch.

Section WithServices.

Variable config : Config.t.
Variable document_embedder : Embedded.DocumentEmbedder.
Variables ToolState Order : Type.
Variable ticket_manager_create_ticket :
  string -> string -> string -> ToolState -> result Ticket * ToolState.
Variable order_manager_get_order :
  string -> ToolState -> result (option Order).
Variable order_manager_format_order_status : Order -> result string.

Local Abbreviation execute :=
  (execute_tool_call config document_embedder ToolState Order
     ticket_manager_create_ticket order_manager_get_order
     order_manager_format_order_status).

Lemma same_core_refl (w : World ToolState) : same_core w w.
Proof. by repeat split. Qed.

Lemma same_core_trans (w1 w2 w3 : World ToolState) :
  same_core w1 w2 -> same_core w2 w3 -> same_core w1 w3.
Proof. unfold same_core. intros (-> & -> & ->) (-> & -> & ->). done. Qed.

Lemma execute_tool_call_total (tool_call : ToolCall) (w : World ToolState) :
  exists reply w',
    execute tool_call w = (Ok reply, w') /\ same_core w w'.
Proof.
  unfold execute_tool_call, try_except_M, execute_tool_call_body. cbv zeta.
  destruct (String.eqb (tool tool_call) "create_ticket").
  { destruct (ticket_manager_create_ticket _ _ _ _) as [[t|e] ts];
      eexists _, _; (split; [reflexivity|by repeat split]). }
  destruct (String.eqb (tool tool_call) "check_order_status").
  { destruct (args tool_call !! "order_id") as [order_id|];
      [|eexists _, _; split; [reflexivity|apply same_core_refl]].
    destruct (negb (truthy order_id));
      [eexists _, _; split; [reflexivity|apply same_core_refl]|].
    destruct (order_manager_get_order order_id _) as [[order|]|e];
      [destruct (order_manager_format_order_status order)|..];
      eexists _, _; (split; [reflexivity|apply same_core_refl]). }
  destruct (String.eqb (tool tool_call) "search_knowledge_base").
  { destruct (args tool_call !! "query") as [query|];
      [|eexists _, _; split; [reflexivity|apply same_core_refl]].
    destruct (negb (truthy query));
      [eexists _, _; split; [reflexivity|apply same_core_refl]|].
    unfold mbind, search.
    destruct (VectorStore.search _ _ _ _) as [[|r rs]|e];
      eexists _, _; (split; [reflexivity|apply same_core_refl]). }
  eexists _, _. split; [reflexivity|apply same_core_refl].
Qed.

Lemma mapM_execute_total (calls : list ToolCall) (w : World ToolState) :
  exists replies w',
    mapM ToolState execute calls w = (Ok replies, w') /\
    length replies = length calls /\ same_core w w'.
Proof.
  revert w. induction calls as [|call calls IH]; intros w; simpl.
  - exists [], w. repeat split.
  - unfold mbind.
    destruct (execute_tool_call_total call w) as (reply & w1 & -> & H1).
    destruct (IH w1) as (replies & w2 & -> & Hlen & H2).
    exists (reply :: replies), w2. simpl. rewrite Hlen.
    repeat split; try apply (same_core_trans _ _ _ H1 H2).
Qed.

End WithServices.

End DispatchFacts.

(** X19: [execute_tool_call] never raises, whatever the tool call and
    whatever the ticket manager, the order manager and the vector store
    do: it returns a text, and leaves the sessions and the vector store as
    they were.  An exception of the ticket manager becomes the text
    [Error executing create_ticket] with the text of the exception, and a
    tool name outside the three known ones the text [Unknown tool] with
    the name. *)
Theorem execute_tool_call_never_raises
    (config : Config.t) (document_embedder : Embedded.DocumentEmbedder)
    (ToolState Order : Type)
    (create_ticket :
       string -> string -> string -> ToolState -> result App.Ticket * ToolState)
    (get_order : string -> ToolState -> result (option Order))
    (format_order_status : Order -> result string)
    (tool_call : App.ToolCall) (w : App.World ToolState) :
  let run :=
    App.execute_tool_call config document_embedder ToolState Order
      create_ticket get_order format_order_status tool_call w in
  (exists reply, fst run = Ok reply) /\
  Dispatch.same_core w (snd run) /\
  (forall e ts,
     App.tool tool_call = "create_ticket" ->
     create_ticket
       (App.args_get (App.args tool_call) "description"
          "No description provided")
       (App.args_get (App.args tool_call) "priority" "medium")
       (App.args_get (App.args tool_call) "category" "general")
       (App.tool_state ToolState w) = (Raise e, ts) ->
     fst run = Ok ("❌ Error executing create_ticket: " +:+ exn_str e)) /\
  (~ In (App.tool tool_call) App.tool_names ->
   fst run = Ok ("❌ Unknown tool: " +:+ App.tool tool_call)).
Proof.
  cbv zeta.
  destruct (DispatchFacts.execute_tool_call_total config document_embedder
              ToolState Order create_ticket get_order format_order_status
              tool_call w) as (reply & w' & Hrun & Hcore).
  split; [rewrite Hrun; by exists reply|].
  split; [by rewrite Hrun|]. split.
  - intros e ts Htool Hraise.
    unfold App.execute_tool_call, App.try_except_M,
      App.execute_tool_call_body. cbv zeta.
    rewrite Htool, String.eqb_refl. cbv beta. by rewrite Hraise.
  - intros Hunknown.
    unfold App.execute_tool_call, App.try_except_M,
      App.execute_tool_call_body. cbv zeta.
    destruct (String.eqb (App.tool tool_call) "create_ticket") eqn:E1;
      [apply String.eqb_eq in E1; exfalso; apply Hunknown; rewrite E1;
       simpl; tauto|].
    destruct (String.eqb (App.tool tool_call) "check_order_status") eqn:E2;
      [apply String.eqb_eq in E2; exfalso; apply Hunknown; rewrite E2;
       simpl; tauto|].
    destruct (String.eqb (App.tool tool_call) "search_knowledge_base") eqn:E3;
      [apply String.eqb_eq in E3; exfalso; apply Hunknown; rewrite E3;
       simpl; tauto|].
    reflexivity.
Qed.

Lemma execute_tool_call_never_raises_witness :
  fst (App.execute_tool_call Sample.config Sample.embedder unit unit
         Sample.create_ticket Sample.get_order Sample.format_order_status
         {| App.tool := "reboot_server"; App.args := ∅ |} Sample.world)
  = Ok "❌ Unknown tool: reboot_server".
Proof.
  apply (execute_tool_call_never_raises Sample.config Sample.embedder unit
           unit Sample.create_ticket Sample.get_order
           Sample.format_order_status
           {| App.tool := "reboot_server"; App.args := ∅ |} Sample.world).
  simpl. intros [H|[H|[H|[]]]]; discriminate.
Defined.

(** X20: a [create_ticket] call dispatched to the ticket manager always
    creates a ticket: the reply names the identifier of the ticket and a
    priority that is low, medium or high; the ticket is then in the store
    under that identifier, open, with the description of the call or [No
    description provided] when the call has none. *)
Theorem dispatch_create_ticket_creates_a_ticket
    (config : Config.t) (document_embedder : Embedded.DocumentEmbedder)
    (uuid_hex : nat -> string) (tool_clock : nat -> Q) (Order : Type)
    (get_order : string -> Dispatch.ToolState -> result (option Order))
    (format_order_status : Order -> result string)
    (arguments : gmap string string) (w : App.World Dispatch.ToolState) :
  let run :=
    App.execute_tool_call config document_embedder Dispatch.ToolState Order
      (Dispatch.ticket_manager_create_ticket uuid_hex tool_clock)
      get_order format_order_status
      {| App.tool := "create_ticket"; App.args := arguments |} w in
  exists ticket,
    fst run
    = Ok ("✅ Created support ticket " +:+ CreateTicket.ticket_id ticket
          +:+ " with " +:+ CreateTicket.priority ticket +:+ " priority.") /\
    CreateTicket.get_ticket
      (Dispatch.tickets (App.tool_state Dispatch.ToolState (snd run)))
      (CreateTicket.ticket_id ticket) = Some ticket /\
    In (CreateTicket.priority ticket) CreateTicket.valid_priorities /\
    CreateTicket.status ticket = "open" /\
    CreateTicket.description ticket
    = match arguments !! "description" with
      | Some d => d
      | None => "No description provided"
      end.
Proof.
  cbv zeta.
  set (created :=
         CreateTicket.create_ticket
           (Dispatch.tickets (App.tool_state Dispatch.ToolState w))
           (App.args_get arguments "description" "No description provided")
           (App.args_get arguments "priority" "medium")
           (App.args_get arguments "category" "general")
           (uuid_hex (Dispatch.draws (App.tool_state Dispatch.ToolState w)))
           (tool_clock (Dispatch.reads (App.tool_state Dispatch.ToolState w)))
           (tool_clock
              (S (Dispatch.reads (App.tool_state Dispatch.ToolState w))))).
  assert (Hrun :
    App.execute_tool_call config document_embedder Dispatch.ToolState Order
      (Dispatch.ticket_manager_create_ticket uuid_hex tool_clock)
      get_order format_order_status
      {| App.tool := "create_ticket"; App.args := arguments |} w
    = (Ok ("✅ Created support ticket "
           +:+ CreateTicket.ticket_id (fst created) +:+ " with "
           +:+ CreateTicket.priority (fst created) +:+ " priority."),
       {| App.sessions := App.sessions Dispatch.ToolState w;
          App.vector_store := App.vector_store Dispatch.ToolState w;
          App.tool_state :=
            {| Dispatch.tickets := snd created;
               Dispatch.orders :=
                 Dispatch.orders (App.tool_state Dispatch.ToolState w);
               Dispatch.draws :=
                 S (Dispatch.draws (App.tool_state Dispatch.ToolState w));
               Dispatch.reads :=
                 Dispatch.reads (App.tool_state Dispatch.ToolState w) + 2 |};
          App.ticks := App.ticks Dispatch.ToolState w |})) by reflexivity.
  rewrite Hrun. cbn [fst snd App.tool_state Dispatch.tickets].
  exists (fst created). split; [reflexivity|].
  pose proof (ToolFacts.member_In
                (App.args_get arguments "priority" "medium")
                CreateTicket.valid_priorities) as Hmem.
  unfold created, CreateTicket.create_ticket, CreateTicket.get_ticket.
  cbv zeta.
  cbn [fst snd CreateTicket.ticket_id CreateTicket.priority
       CreateTicket.status CreateTicket.description].
  rewrite lookup_insert_eq. repeat split.
  destruct (PyCase.member _ CreateTicket.valid_priorities);
    [by apply Hmem|simpl; tauto].
Qed.

(** ** What extraction can and cannot produce *)

Module ArgsFacts.

Import App ToolArgs.

Lemma contains_char_cons (q c : ascii) (s : string) :
  contains (str1 q) (String c s)
  = bool_decide (q = c) || contains (str1 q) s.
Proof.
  simpl. destruct (ascii_dec q c) as [->|Hne].
  - by rewrite bool_decide_true.
  - by rewrite bool_decide_false.
Qed.

Lemma unquoted_run_no_quote (s : string) :
  contains (str1 dquote) (unquoted_run s) = false /\
  contains (str1 squote) (unquoted_run s) = false.
Proof.
  induction s as [|c s [IHd IHs]]; [by split|].
  simpl unquoted_run. destruct (is_quote c) eqn:Hq; [by split|].
  unfold is_quote in Hq. apply orb_false_iff in Hq as [Hd Hs].
  apply bool_decide_eq_false in Hd, Hs.
  rewrite !contains_char_cons, IHd, IHs.
  rewrite !bool_decide_false by congruence. by split.
Qed.

Lemma match_quoted_plain (s v : string) : match_quoted s = Some v -> plain v.
Proof.
  unfold match_quoted. destruct s as [|q s]; [discriminate|].
  destruct (is_quote q); [|discriminate].
  destruct (truthy (unquoted_run s)) eqn:Ht; [|discriminate].
  destruct (truthy (str_drop _ _)); [|discriminate].
  intros [= <-]. split; [exact Ht|apply unquoted_run_no_quote].
Qed.

Lemma search_key_plain (key_eq s v : string) :
  search_key key_eq s = Some v -> plain v.
Proof.
  induction s as [|c s IH]; simpl.
  - destruct (startswith key_eq EmptyString); [|discriminate].
    destruct (match_quoted _) eqn:E; [|discriminate].
    intros [= <-]. by apply match_quoted_plain in E.
  - destruct (if startswith key_eq (String c s) then _ else None) as [v'|]
      eqn:E; [|exact IH].
    intros [= <-]. destruct (startswith key_eq (String c s)); [|discriminate].
    by apply match_quoted_plain in E.
Qed.

Lemma parse_key_lookup (key group : string) (a : gmap string string)
    (k v : string) :
  parse_key key group a !! k = Some v ->
  (k = key /\ plain v) \/ a !! k = Some v.
Proof.
  unfold parse_key. destruct (contains _ group); [|by right].
  destruct (search_key _ group) as [v'|] eqn:E; [|by right].
  destruct (decide (key = k)) as [->|Hne].
  - rewrite lookup_insert_eq. intros [= <-]. left. split; [done|].
    by apply search_key_plain in E.
  - rewrite lookup_insert_ne by exact Hne. by right.
Qed.

Lemma parse_keys_lookup (keys : list string) (group : string)
    (a : gmap string string) (k v : string) :
  foldl (fun args key => parse_key key group args) a keys !! k = Some v ->
  (In k keys /\ plain v) \/ a !! k = Some v.
Proof.
  revert a. induction keys as [|key keys IH]; intros a; simpl; [by right|].
  intros H. apply IH in H as [[Hin Hv]|H]; [left; tauto|].
  apply parse_key_lookup in H as [[-> Hv]|H]; [left; tauto|by right].
Qed.

Lemma until_rparen_no_rparen (s g : string) :
  until_rparen s = Some g -> contains (str1 rparen) g = false.
Proof.
  revert g. induction s as [|c s IH]; intros g; simpl; [discriminate|].
  case_bool_decide as Hc; [by intros [= <-]|].
  destruct (until_rparen s) as [g'|]; simpl; [|discriminate].
  intros [= <-]. rewrite contains_char_cons, (IH g' eq_refl).
  rewrite bool_decide_false by congruence. reflexivity.
Qed.

Lemma finditer_go_no_rparen (name : string) (s : string) :
  forall (pos skip p : nat) (g : string),
    In (p, g) (finditer_go name pos skip s) ->
    contains (str1 rparen) g = false.
Proof.
  induction s as [|c s IH]; intros pos skip p g; simpl; [tauto|].
  destruct skip as [|skip]; [|apply IH].
  destruct (startswith (name +:+ "(") (String c s)); [|apply IH].
  destruct (until_rparen (str_drop (String.length name + 1) (String c s)))
    as [g'|] eqn:Hg; [|apply IH].
  intros [[= <- <-]|H]; [by apply until_rparen_no_rparen in Hg|].
  by apply IH in H.
Qed.

End ArgsFacts.

(** X21: whatever the model's reply, every extracted call names one of the
    three tools, and its arguments carry only the five known names, each
    with a value of at least one character and without a quote character.
    Code: [extract_tool_calls] with its patterns and argument searches. *)
Theorem extract_tool_calls_yields_known_tools_and_plain_arguments
    (response : string) (call : App.ToolCall) :
  In call (App.extract_tool_calls response) ->
  In (App.tool call) App.tool_names /\
  forall key value,
    App.args call !! key = Some value ->
    In key ToolArgs.arg_keys /\ ToolArgs.plain value.
Proof.
  unfold App.extract_tool_calls. intros Hin.
  apply in_concat in Hin as (calls & Hcalls & Hin).
  apply in_map_iff in Hcalls as (name & <- & Hname).
  unfold App.calls_of in Hin.
  apply in_map_iff in Hin as (group & <- & _). simpl.
  split; [exact Hname|]. intros key value. unfold App.parse_args.
  destruct (truthy (strip group)); [|by rewrite lookup_empty].
  intros H. apply ArgsFacts.parse_keys_lookup in H as [H|H]; [exact H|].
  by rewrite lookup_empty in H.
Qed.

Lemma extract_tool_calls_yields_known_tools_and_plain_arguments_witness :
  let call :=
    {| App.tool := "check_order_status";
       App.args := {[ "order_id" := "ORD001" ]} |} in
  In (App.tool call) App.tool_names /\
  forall key value,
    App.args call !! key = Some value ->
    In key ToolArgs.arg_keys /\ ToolArgs.plain value.
Proof.
  intros call.
  apply (extract_tool_calls_yields_known_tools_and_plain_arguments
           ("check_order_status(order_id=" +:+ Py.str1 Py.dquote +:+ "ORD001"
            +:+ Py.str1 Py.dquote +:+ ")")).
  vm_compute. left. reflexivity.
Defined.

(** X22: the argument text of a matched call never contains a closing
    parenthesis, so an argument value is cut at its first closing
    parenthesis whatever the quotes around it.
    Code: the patterns of [extract_tool_calls] and [re.finditer]. *)
Theorem matched_arguments_contain_no_closing_parenthesis
    (name response group : string) :
  In group (App.findall name response) ->
  Py.contains (Py.str1 App.rparen) group = false.
Proof.
  unfold App.findall, App.finditer. intros Hin.
  apply in_map_iff in Hin as ([p g] & <- & Hin). simpl.
  by apply ArgsFacts.finditer_go_no_rparen in Hin.
Qed.

Lemma matched_arguments_contain_no_closing_parenthesis_witness :
  Py.contains (Py.str1 App.rparen)
    ("description=" +:+ Py.str1 Py.dquote +:+ "refund (urgent") = false.
Proof.
  apply (matched_arguments_contain_no_closing_parenthesis "create_ticket"
           ("create_ticket(description=" +:+ Py.str1 Py.dquote
            +:+ "refund (urgent)" +:+ Py.str1 Py.dquote +:+ ")")).
  vm_compute. left. reflexivity.
Defined.

(** ** What reaches the language model *)

Module PromptFacts.

Import Ollama.

Lemma chat_prompt_app (messages1 messages2 : list (string * string))
    (prompt : string) :
  chat_prompt prompt (messages1 ++ messages2)
  = chat_prompt (chat_prompt prompt messages1) messages2.
Proof.
  revert prompt. induction messages1 as [|[role content] rest IH];
    intros prompt; simpl; [reflexivity|].
  destruct (String.eqb role "system"); [apply IH|].
  destruct (String.eqb role "assistant"); apply IH.
Qed.

Lemma chat_prompt_other_role (role content : string)
    (messages : list (string * string)) (prompt : string) :
  role <> "system" -> role <> "assistant" ->
  chat_prompt prompt ((role, content) :: messages)
  = chat_prompt prompt messages.
Proof.
  intros Hs Ha. simpl.
  apply String.eqb_neq in Hs, Ha. by rewrite Hs, Ha.
Qed.

End PromptFacts.

(** X23: a message whose role is neither system nor assistant, so every
    user message, leaves no trace in the request of [chat]: the prompt, and
    with it the request and the outcome, are those of the conversation
    without that message.
    Code: the loop over the messages in [OllamaClient.chat]. *)
Theorem chat_drops_messages_of_other_roles
    (post : string -> Ollama.Payload -> Z -> result Ollama.Response)
    (self : Ollama.OllamaClient) (temperature : Q)
    (before after : list (string * string)) (role content : string) :
  role <> "system" -> role <> "assistant" ->
  Ollama.chat_prompt EmptyString (before ++ (role, content) :: after)
  = Ollama.chat_prompt EmptyString (before ++ after) /\
  Ollama.chat post self (before ++ (role, content) :: after) temperature
  = Ollama.chat post self (before ++ after) temperature.
Proof.
  intros Hs Ha.
  assert (Ollama.chat_prompt EmptyString (before ++ (role, content) :: after)
          = Ollama.chat_prompt EmptyString (before ++ after)) as Heq.
  { rewrite !PromptFacts.chat_prompt_app.
    by apply PromptFacts.chat_prompt_other_role. }
  split; [exact Heq|].
  unfold Ollama.chat, Ollama.chat_body. cbv zeta. by rewrite Heq.
Qed.

Lemma chat_drops_messages_of_other_roles_witness :
  Ollama.chat_prompt EmptyString
    ([("system", "Be brief.")] ++ ("user", "Where is my order?") :: [])
  = Ollama.chat_prompt EmptyString ([("system", "Be brief.")] ++ []) /\
  Ollama.chat Sample.failing_post Sample.client
    ([("system", "Be brief.")] ++ ("user", "Where is my order?") :: [])
    (7 # 10)
  = Ollama.chat Sample.failing_post Sample.client
      ([("system", "Be brief.")] ++ []) (7 # 10).
Proof.
  apply (chat_drops_messages_of_other_roles Sample.failing_post Sample.client
           (7 # 10) [("system", "Be brief.")] [] "user"
           "Where is my order?");
    discriminate.
Defined.

(** ** What a turn asks of the language model *)

Module TurnFacts.

Import App.

Section WithServices.

Variable config : Config.t.
Variable ollama_client : Ollama.OllamaClient.
Variable post : string -> Ollama.Payload -> Z -> result Ollama.Response.
Variable document_embedder : Embedded.DocumentEmbedder.
Variable clock : nat -> Q.
Variables ToolState Order : Type.
Variable ticket_manager_create_ticket :
  string -> string -> string -> ToolState -> result Ticket * ToolState.
Variable order_manager_get_order :
  string -> ToolState -> result (option Order).
Variable order_manager_format_order_status : Order -> result string.

(** The two requests of a turn are the request of the system prompt. *)
Lemma chat_of_turn (prompt : string) :
  chat ollama_client post [("system", Prompts.SYSTEM_PROMPT); ("user", prompt)]
  = chat ollama_client post [("system", Prompts.SYSTEM_PROMPT)].
Proof. reflexivity. Qed.

Lemma chat_total (messages : list (string * string)) :
  exists reply, chat ollama_client post messages = Ok reply.
Proof.
  unfold chat, Ollama.chat.
  destruct (Ollama.chat_body post ollama_client messages (7 # 10));
    simpl; eauto.
Qed.

Lemma finish_returns (session_id response : string) (w : World ToolState) :
  exists w', finish config clock ToolState session_id response w
             = (Ok response, w').
Proof. by eexists. Qed.

Lemma generate_response_reply (session_id user_message : string)
    (w : World ToolState) :
  let reply :=
    fst (generate_response config ollama_client post document_embedder clock
           ToolState Order ticket_manager_create_ticket
           order_manager_get_order order_manager_format_order_status
           session_id user_message w) in
  reply = Prompts.model_error \/
  chat ollama_client post [("system", Prompts.SYSTEM_PROMPT)] = Ok reply.
Proof.
  cbv zeta. unfold generate_response, generate_response_body, mbind.
  destruct (get_or_create_session config clock ToolState session_id w)
    as [[[]|e0] w1]; [|by left].
  destruct (add_message config clock ToolState session_id "user"
              user_message w1) as [[[]|e1] w2]; [|by left].
  destruct (search config document_embedder ToolState user_message w2)
    as [[context_docs|e2] w3]; [|by left].
  destruct (get_recent_messages ToolState session_id 10 w3)
    as [[recent|e3] w4]; [|by left].
  rewrite chat_of_turn.
  destruct (chat_total [("system", Prompts.SYSTEM_PROMPT)]) as [reply Hchat].
  rewrite Hchat.
  destruct (extract_tool_calls reply) as [|call calls].
  { destruct (finish_returns session_id reply w4) as [w' ->]. by right. }
  match goal with
  | |- context [mapM ?T ?f ?l ?w] =>
      destruct (mapM T f l w) as [[results|e4] w5]; [|by left]
  end.
  destruct results as [|result results].
  { destruct (finish_returns session_id reply w5) as [w' ->]. by right. }
  rewrite chat_of_turn, Hchat.
  destruct (finish_returns session_id reply w5) as [w' ->]. by right.
Qed.

End WithServices.

End TurnFacts.

(** X24: whatever the backend answers, the reply of a turn is the message
    for technical difficulties or the answer of [chat] to the system prompt
    alone: the user message, the retrieved context, the history and the
    tool results are all put in a message of role user, which [chat] leaves
    out of its request, and the fallback responder is never reached.
    The backend is a function of the request here: what this shows of the
    code is that both requests of a turn carry the system prompt and
    nothing else.
    Code: [generate_response] with [OllamaClient.chat]. *)
Theorem generate_response_asks_the_model_the_system_prompt_only
    (config : Config.t) (ollama_client : Ollama.OllamaClient)
    (post : string -> Ollama.Payload -> Z -> result Ollama.Response)
    (document_embedder : Embedded.DocumentEmbedder) (clock : nat -> Q)
    (ToolState Order : Type)
    (create_ticket :
       string -> string -> string -> ToolState -> result App.Ticket * ToolState)
    (get_order : string -> ToolState -> result (option Order))
    (format_order_status : Order -> result string)
    (session_id user_message : string) (w : App.World ToolState) :
  let reply :=
    fst (App.generate_response config ollama_client post document_embedder
           clock ToolState Order create_ticket get_order format_order_status
           session_id user_message w) in
  reply = Prompts.model_error \/
  Ollama.chat post ollama_client [("system", Prompts.SYSTEM_PROMPT)] (7 # 10)
  = Ok reply.
Proof.
  apply (TurnFacts.generate_response_reply config ollama_client post
           document_embedder clock ToolState Order create_ticket get_order
           format_order_status session_id user_message w).
Qed.

(** ** The settings *)

(** X25: the settings cannot be loaded unless [OLLAMA_TIMEOUT] is set:
    without it the module raises a [TypeError] at its first integer
    setting, whatever the other variables hold.
    Code: the module body of [config.py]. *)
Theorem load_raises_without_ollama_timeout (env : gmap string string) :
  env !! "OLLAMA_TIMEOUT" = None ->
  Config.load env = Raise Config.TypeError_int_None.
Proof.
  intros Hunset. unfold Config.load, Config.int_env. by rewrite Hunset.
Qed.

Lemma load_raises_without_ollama_timeout_witness :
  Config.load {[ "CHUNK_SIZE" := "200" ]} = Raise Config.TypeError_int_None.
Proof.
  apply (load_raises_without_ollama_timeout {[ "CHUNK_SIZE" := "200" ]}).
  reflexivity.
Defined.

(** X26: once [OLLAMA_TIMEOUT] holds an integer and none of the other
    integer settings is set, the settings load with the defaults of the
    source: chunks of 500 words with an overlap of 100, 3 retrieved
    documents, sessions of 3600 seconds and 20 messages.
    Code: the module body of [config.py]. *)
Theorem load_gives_the_defaults (env : gmap string string) (timeout : Z) :
  Config.int_env env "OLLAMA_TIMEOUT" = Ok timeout ->
  (forall name,
     In name ["CHUNK_SIZE"; "CHUNK_OVERLAP"; "MAX_RETRIEVED_DOCS"; "PORT";
              "SESSION_TIMEOUT"; "MAX_SESSION_MESSAGES"] ->
     env !! name = None) ->
  exists config,
    Config.load env = Ok config /\
    Config.OLLAMA_TIMEOUT config = timeout /\
    Config.CHUNK_SIZE config = 500 /\
    Config.CHUNK_OVERLAP config = 100 /\
    Config.MAX_RETRIEVED_DOCS config = 3 /\
    Config.SESSION_TIMEOUT config = 3600 /\
    Config.MAX_SESSION_MESSAGES config = 20.
Proof.
  intros Htimeout Hunset. unfold Config.load.
  rewrite Htimeout. simpl Py.bind.
  unfold Config.int_env_default, Config.get_default.
  rewrite !Hunset by (simpl; tauto).
  eexists. split; [reflexivity|]. repeat split.
Qed.

Lemma load_gives_the_defaults_witness :
  exists config,
    Config.load {[ "OLLAMA_TIMEOUT" := " 30 " ]} = Ok config /\
    Config.OLLAMA_TIMEOUT config = 30 /\
    Config.CHUNK_SIZE config = 500 /\
    Config.CHUNK_OVERLAP config = 100 /\
    Config.MAX_RETRIEVED_DOCS config = 3 /\
    Config.SESSION_TIMEOUT config = 3600 /\
    Config.MAX_SESSION_MESSAGES config = 20.
Proof.
  apply (load_gives_the_defaults {[ "OLLAMA_TIMEOUT" := " 30 " ]} 30).
  - reflexivity.
  - intros name Hname. simpl in Hname.
    destruct Hname as [<-|[<-|[<-|[<-|[<-|[<-|[]]]]]]]; reflexivity.
Defined.

(** ** What a turn leaves in the session *)

Module RecordFacts.

Import App Turn.

Lemma last_trim (cap : Z) (l : list SessionMemory.Message)
    (m : SessionMemory.Message) :
  0 <= cap -> last (SessionMemory.trim cap (l ++ [m])) = Some m.
Proof.
  intros Hcap. unfold SessionMemory.trim.
  destruct (len (l ++ [m]) >? cap) eqn:Hgt; [|apply last_snoc].
  zbool. destruct l as [|a l]; simpl app.
  - unfold slice_from. destruct (Z.to_nat _) as [|k]; simpl; [done|].
    by rewrite drop_nil.
  - unfold slice_from.
    change (a :: l ++ [m]) with ((a :: l) ++ [m]) in *.
    rewrite drop_app_le.
    + change ([a] ++ ?x ++ [m]) with (a :: x ++ [m]).
      rewrite app_comm_cons. apply last_snoc.
    + unfold slice_index, len in *. rewrite length_app in *. simpl in *.
      destruct (- (cap - 1) <? 0) eqn:E; zbool; lia.
Qed.

Lemma get_or_create_session_stores (timeout : Z)
    (sessions : gmap string SessionMemory.Session) (session_id : string)
    (now_get now_create : Q) :
  is_Some
    (snd (SessionMemory.get_or_create_session timeout sessions session_id
            now_get now_create) !! session_id).
Proof.
  unfold SessionMemory.get_or_create_session, SessionMemory.get_session,
    SessionMemory.create_session.
  destruct (sessions !! session_id) as [s|] eqn:Hs.
  - destruct (SessionMemory.is_expired timeout s now_get); simpl.
    + by rewrite lookup_insert_eq.
    + by rewrite Hs.
  - simpl. by rewrite lookup_insert_eq.
Qed.

Section WithServices.

Variable config : Config.t.
Variable ollama_client : Ollama.OllamaClient.
Variable post : string -> Ollama.Payload -> Z -> result Ollama.Response.
Variable document_embedder : Embedded.DocumentEmbedder.
Variable clock : nat -> Q.
Variables ToolState Order : Type.
Variable ticket_manager_create_ticket :
  string -> string -> string -> ToolState -> result Ticket * ToolState.
Variable order_manager_get_order :
  string -> ToolState -> result (option Order).
Variable order_manager_format_order_status : Order -> result string.

Hypothesis cap_nonneg : 0 <= Config.MAX_SESSION_MESSAGES config.

Lemma add_message_keeps (session_id role content : string)
    (w : World ToolState) :
  is_Some (sessions ToolState w !! session_id) ->
  is_Some
    (sessions ToolState
       (snd (add_message config clock ToolState session_id role content w))
     !! session_id).
Proof.
  intros [s Hs]. simpl. rewrite lookup_alter_eq, Hs. by eexists.
Qed.

Lemma finish_records (session_id reply : string) (w : World ToolState) :
  is_Some (sessions ToolState w !! session_id) ->
  exists w',
    finish config clock ToolState session_id reply w = (Ok reply, w') /\
    recorded session_id reply w'.
Proof.
  intros [s Hs]. eexists. split; [reflexivity|].
  unfold recorded. simpl. rewrite lookup_alter_eq, Hs. simpl.
  eexists _, _. split; [reflexivity|].
  split; [by apply last_trim|]. by split.
Qed.

Lemma get_or_create_session_keeps (session_id : string)
    (w w1 : World ToolState) (r : result unit) :
  get_or_create_session config clock ToolState session_id w = (r, w1) ->
  is_Some (sessions ToolState w1 !! session_id).
Proof.
  unfold get_or_create_session. cbv zeta.
  match goal with
  | |- context [SessionMemory.get_or_create_session ?t ?s ?i ?a ?b] =>
      pose proof (get_or_create_session_stores t s i a b) as Hstored;
      destruct (SessionMemory.get_or_create_session t s i a b)
        as [created sessions1]
  end.
  intros [= _ <-]. exact Hstored.
Qed.

Lemma add_message_run (session_id role content : string)
    (w w2 : World ToolState) (r : result unit) :
  add_message config clock ToolState session_id role content w = (r, w2) ->
  is_Some (sessions ToolState w !! session_id) ->
  is_Some (sessions ToolState w2 !! session_id).
Proof.
  intros H Hs. apply (add_message_keeps session_id role content) in Hs.
  by rewrite H in Hs.
Qed.

Lemma search_run (query : string) (w w3 : World ToolState)
    (r : result (list VectorStore.SearchResult)) :
  search config document_embedder ToolState query w = (r, w3) -> w3 = w.
Proof. by intros [= _ <-]. Qed.

Lemma get_recent_messages_run (session_id : string) (limit : Z)
    (w w4 : World ToolState) (r : result (list SessionMemory.Message)) :
  get_recent_messages ToolState session_id limit w = (r, w4) -> w4 = w.
Proof.
  unfold get_recent_messages.
  destruct (sessions ToolState w !! session_id); by intros [= _ <-].
Qed.

Lemma generate_response_records (session_id user_message : string)
    (w : World ToolState) :
  let run :=
    generate_response config ollama_client post document_embedder clock
      ToolState Order ticket_manager_create_ticket order_manager_get_order
      order_manager_format_order_status session_id user_message w in
  fst run = Prompts.model_error \/ recorded session_id (fst run) (snd run).
Proof.
  cbv zeta. unfold generate_response, generate_response_body, mbind.
  destruct (get_or_create_session config clock ToolState session_id w)
    as [[[]|e0] w1] eqn:H1; [|by left].
  apply get_or_create_session_keeps in H1.
  destruct (add_message config clock ToolState session_id "user"
              user_message w1) as [[[]|e1] w2] eqn:H2; [|by left].
  apply add_message_run in H2; [|exact H1].
  destruct (search config document_embedder ToolState user_message w2)
    as [[context_docs|e2] w3] eqn:H3; [|by left].
  apply search_run in H3 as ->.
  destruct (get_recent_messages ToolState session_id 10 w2)
    as [[recent|e3] w4] eqn:H4; [|by left].
  apply get_recent_messages_run in H4 as ->.
  destruct (TurnFacts.chat_total ollama_client post
              [("system", Prompts.SYSTEM_PROMPT)]) as [reply Hchat].
  rewrite !(TurnFacts.chat_of_turn ollama_client post), Hchat.
  destruct (extract_tool_calls reply) as [|call calls].
  { destruct (finish_records session_id reply w2 H2) as (w' & -> & Hrec).
    by right. }
  destruct (DispatchFacts.mapM_execute_total config document_embedder
              ToolState Order ticket_manager_create_ticket
              order_manager_get_order order_manager_format_order_status
              (call :: calls) w2)
    as (results & w3 & Hmap & _ & Hcore & _).
  rewrite Hmap.
  assert (is_Some (sessions ToolState w3 !! session_id)) as Hw3
    by (by rewrite Hcore).
  destruct results as [|result results];
    rewrite ?(TurnFacts.chat_of_turn ollama_client post), ?Hchat;
    destruct (finish_records session_id reply w3 Hw3) as (w' & -> & Hrec);
    by right.
Qed.

End WithServices.

End RecordFacts.

(** X27: with a cap on the session messages that is not negative, a turn
    that does not end with the message for technical difficulties leaves
    its reply in the session: the session of the turn is in the store and
    its last message is the reply, with the role assistant, also when the
    trimming step has run and after the tools have run.
    Code: [generate_response] with [Session.add_message] and
    [SessionManager.get_or_create_session]. *)
Theorem generate_response_records_its_reply
    (config : Config.t) (ollama_client : Ollama.OllamaClient)
    (post : string -> Ollama.Payload -> Z -> result Ollama.Response)
    (document_embedder : Embedded.DocumentEmbedder) (clock : nat -> Q)
    (ToolState Order : Type)
    (create_ticket :
       string -> string -> string -> ToolState -> result App.Ticket * ToolState)
    (get_order : string -> ToolState -> result (option Order))
    (format_order_status : Order -> result string)
    (session_id user_message : string) (w : App.World ToolState) :
  0 <= Config.MAX_SESSION_MESSAGES config ->
  let run :=
    App.generate_response config ollama_client post document_embedder clock
      ToolState Order create_ticket get_order format_order_status
      session_id user_message w in
  fst run = Prompts.model_error \/
  Turn.recorded session_id (fst run) (snd run).
Proof.
  intros Hcap.
  apply (RecordFacts.generate_response_records config ollama_client post
           document_embedder clock ToolState Order create_ticket get_order
           format_order_status Hcap session_id user_message w).
Qed.

Lemma generate_response_records_its_reply_witness :
  let run :=
    App.generate_response Sample.config Sample.client Sample.failing_post
      Sample.embedder Sample.clock unit unit Sample.create_ticket
      Sample.get_order Sample.format_order_status "session-1" "hello"
      Sample.world in
  fst run = Prompts.model_error \/
  Turn.recorded "session-1" (fst run) (snd run).
Proof.
  apply (generate_response_records_its_reply Sample.config Sample.client
           Sample.failing_post Sample.embedder Sample.clock unit unit
           Sample.create_ticket Sample.get_order Sample.format_order_status
           "session-1" "hello" Sample.world).
  simpl. lia.
Defined.

(** ** The fallback responder *)

Module FallbackFacts.

Lemma lower_app (a b : string) : lower (a +:+ b) = lower a +:+ lower b.
Proof.
  induction a as [|c a IH]; [reflexivity|].
  rewrite PyFacts.append_cons. simpl lower.
  by rewrite IH, PyFacts.append_cons.
Qed.

Lemma startswith_own_prefix (p s : string) : startswith p (p +:+ s) = true.
Proof.
  induction p as [|c p IH]; [by destruct s|].
  rewrite PyFacts.append_cons. simpl.
  destruct (ascii_dec c c); [exact IH|done].
Qed.

Lemma contains_cons (p : string) (c : ascii) (s : string) :
  contains p (String c s) = startswith p (String c s) || contains p s.
Proof. reflexivity. Qed.

Lemma contains_app (p a b : string) : contains p (a +:+ p +:+ b) = true.
Proof.
  induction a as [|c a IH].
  - change (EmptyString +:+ p +:+ b) with (p +:+ b).
    destruct (p +:+ b) eqn:E; simpl; rewrite <- ?E, startswith_own_prefix; done.
  - rewrite PyFacts.append_cons, contains_cons, IH. apply orb_true_r.
Qed.

End FallbackFacts.

(** X28: the fallback responder looks for its key words as substrings of
    the lowered message, the greeting words first: every message with the
    letters h and i next to each other, in whatever case and inside
    whatever word, is answered with the greeting, whatever else it asks
    and whatever the context.
    Code: [generate_fallback_response]. *)
Theorem generate_fallback_response_greets_every_message_with_hi
    (before infix after context : string) :
  lower infix = "hi" ->
  App.generate_fallback_response (before +:+ infix +:+ after) context
  = App.GREETING.
Proof.
  intros Hinfix. unfold App.generate_fallback_response. cbv zeta.
  rewrite !FallbackFacts.lower_app, Hinfix.
  unfold App.any_in. cbn [existsb].
  by rewrite (FallbackFacts.contains_app "hi"), orb_true_r.
Qed.

Lemma generate_fallback_response_greets_every_message_with_hi_witness :
  App.generate_fallback_response
    ("Where is my order? The s" +:+ "HI" +:+ "pping takes too long.")
    EmptyString
  = App.GREETING.
Proof.
  apply (generate_fallback_response_greets_every_message_with_hi
           "Where is my order? The s" "HI" "pping takes too long."
           EmptyString).
  reflexivity.
Defined.
